(** * Verification of the adaptive benchmark engine (src/lib/async-bench.ts)

    The engine's numbers are JavaScript numbers, that is IEEE 754 binary64
    values.  They are embedded as Rocq's primitive [float]s, which are the same
    format with the same correctly rounded operations, so that every definition
    below evaluates on concrete inputs exactly as the TypeScript code does.
    Proofs about all inputs go through the specification of the primitive
    operations over [spec_float] ([Prim2SF], [FloatAxioms.add_spec], ...).

    Conventions of the embedding:
    - an optional property ([maxTime?], [initialCount?]) is an [option];
    - an array is a [list], its [length] converted to a number where the code
      computes with it;
    - [tTable] is an association list with string keys, indexed through the
      property key of the number;
    - the clock, the operation under test and the hooks form the environment
      of a run; the runner is written in a small state-and-error monad over
      the calls made so far, and its [while (true)] loop takes fuel. *)

From Stdlib Require Import ZArith List Bool Lia String Floats Uint63.
From Stdlib Require Import DecimalString DecimalPos DecimalZ.
Import ListNotations.

Set Warnings "-inexact-float".

(** ** JavaScript numbers *)

Module JS.

(** ToBoolean on a number: [NaN], [+0] and [-0] are falsy. *)
Definition truthy (x : float) : bool :=
  match Prim2SF x with
  | S754_nan | S754_zero _ => false
  | _ => true
  end.

(** [a || b] on numbers. *)
Definition or (a b : float) : float := if truthy a then a else b.

(** [a || b] where [a] is an optional property ([undefined] is falsy). *)
Definition or_default (a : option float) (b : float) : float :=
  match a with
  | Some x => or x b
  | None => b
  end.

(** [Math.min(a, b)]: [NaN] if either is, and [-0] below [+0]. *)
Definition Math_min (a b : float) : float :=
  if (PrimFloat.is_nan a || PrimFloat.is_nan b)%bool then PrimFloat.nan
  else if PrimFloat.ltb a b then a
  else if PrimFloat.ltb b a then b
  else if PrimFloat.get_sign a then a else b.

(** [Math.sqrt] is the correctly rounded square root. *)
Definition Math_sqrt (x : float) : float := PrimFloat.sqrt x.

(** [Math.pow(x, 2)]: the square, [x * x]. *)
Definition Math_pow2 (x : float) : float := PrimFloat.mul x x.

(** The integer [floor(v + 1/2)] for [v = (-1)^s * m * 2^e] with [e < 0],
    computed exactly. *)
Definition round_half_up (s : bool) (m : positive) (e : Z) : Z :=
  let k := Z.opp e in
  Z.div (Z.add (Z.mul 2 (cond_Zopp s (Zpos m))) (Z.pow 2 k)) (Z.pow 2 (Z.add k 1)).

(** The number whose value is the integer [n] ([|n| < 2^63]). *)
Definition of_Z (n : Z) : float :=
  match n with
  | Z0 => PrimFloat.zero
  | Zpos _ => PrimFloat.of_uint63 (Uint63.of_Z n)
  | Zneg _ => PrimFloat.opp (PrimFloat.of_uint63 (Uint63.of_Z (Z.opp n)))
  end.

(** [Math.round(x)]: the nearest integer, ties towards [+Infinity]; [NaN],
    the infinities and the zeros are returned unchanged, and a negative
    argument that rounds to zero gives [-0]. *)
Definition Math_round (x : float) : float :=
  match Prim2SF x with
  | S754_finite s m e =>
      if Z.leb 0 e then x
      else
        let n := round_half_up s m e in
        if Z.eqb n 0 then (if s then PrimFloat.neg_zero else PrimFloat.zero)
        else of_Z n
  | _ => x
  end.

(** [arr.length] as a number. *)
Definition length_number {A : Type} (arr : list A) : float :=
  of_Z (Z.of_nat (List.length arr)).

(** The decimal numeral of an integer. *)
Definition number_key (n : Z) : string :=
  NilZero.string_of_int (Z.to_int n).

(** The property key [String(x)] of a number used as an index.  An integer
    of absolute value at most [2^53] prints as its decimal numeral, [NaN] and
    the infinities by their names.  Any other number prints as a numeral of
    16 digits or more, or with a fraction point or an exponent: [None], a
    key that no object of this program has. *)
Definition property_key (x : float) : option string :=
  match Prim2SF x with
  | S754_nan => Some "NaN"%string
  | S754_zero _ => Some "0"%string
  | S754_infinity false => Some "Infinity"%string
  | S754_infinity true => Some "-Infinity"%string
  | S754_finite s m e =>
      if Z.leb 0 e then
        let n := Z.mul (Zpos m) (Z.pow 2 e) in
        if Z.leb n (Z.pow 2 53) then Some (number_key (cond_Zopp s n)) else None
      else if Z.eqb (Z.modulo (Zpos m) (Z.pow 2 (Z.opp e))) 0 then
        Some (number_key (cond_Zopp s (Z.div (Zpos m) (Z.pow 2 (Z.opp e)))))
      else None
  end.

End JS.

(** ** The statistics estimator *)

Definition TARGET_RELATIVE_MARGIN_OF_ERROR : float := 0.02%float.
Definition DEFAULT_MAX_TIME : float := 30%float.
Definition INITIAL_ITERATION_COUNT : float := 1%float.
Definition TARGET_CYCLE_TIME : float := PrimFloat.div DEFAULT_MAX_TIME 10%float.

Module Timings.
Record t := {
  sampleCount : float;
  meanTime : float;
  relativeMarginOfError : float
}.
End Timings.

(** T-distribution two-tailed critical values for 95% confidence, an object
    with string keys. *)
Definition tTable : list (string * float) :=
  [ ("1", 12.706); ("2", 4.303); ("3", 3.182); ("4", 2.776); ("5", 2.571);
    ("6", 2.447); ("7", 2.365); ("8", 2.306); ("9", 2.262); ("10", 2.228);
    ("11", 2.201); ("12", 2.179); ("13", 2.16); ("14", 2.145); ("15", 2.131);
    ("16", 2.12); ("17", 2.11); ("18", 2.101); ("19", 2.093); ("20", 2.086);
    ("21", 2.08); ("22", 2.074); ("23", 2.069); ("24", 2.064); ("25", 2.06);
    ("26", 2.056); ("27", 2.052); ("28", 2.048); ("29", 2.045); ("30", 2.042);
    ("infinity", 1.96) ]%string%float.

(** Property access [obj[key]]; [None] stands for [undefined]. *)
Fixpoint get_property (obj : list (string * float)) (key : string) : option float :=
  match obj with
  | [] => None
  | (k, v) :: rest => if String.eqb k key then Some v else get_property rest key
  end.

(** [tTable[x]] for a number [x]. *)
Definition tTable_at (x : float) : option float :=
  match JS.property_key x with
  | Some key => get_property tTable key
  | None => None
  end.

(** [getSum]: [arr.reduce((a, b) => a + b, 0)]. *)
Definition getSum (arr : list float) : float :=
  fold_left PrimFloat.add arr 0%float.

Definition getMean (arr : list float) : float :=
  PrimFloat.div (getSum arr) (JS.length_number arr).

(** [getStddev]: 0 on the empty array; otherwise the squared deviations are
    summed by a [reduce] without initial value, which starts from the first. *)
Definition getStddev (arr : list float) : float :=
  match map (fun x => JS.Math_pow2 (PrimFloat.sub x (getMean arr))) arr with
  | [] => 0%float
  | d :: ds =>
      JS.Math_sqrt (PrimFloat.div (fold_left PrimFloat.add ds d) (JS.length_number arr))
  end.

(** The intermediate values of [getTimings], one definition per [const]. *)

Definition standardError (samples : list float) : float :=
  PrimFloat.div (getStddev samples) (JS.Math_sqrt (JS.length_number samples)).

Definition degreesOfFreedom (samples : list float) : float :=
  PrimFloat.sub (JS.length_number samples) 1%float.

(** [tTable['infinity']]; an [undefined] would act as [NaN] in the product. *)
Definition tTable_infinity : float :=
  match get_property tTable "infinity" with
  | Some c => c
  | None => PrimFloat.nan
  end.

(** [tTable[Math.round(df) || 1] || tTable['infinity']]. *)
Definition criticalValue (samples : list float) : float :=
  let df := degreesOfFreedom samples in
  JS.or_default (tTable_at (JS.or (JS.Math_round df) 1%float)) tTable_infinity.

Definition marginOfError (samples : list float) : float :=
  PrimFloat.mul (standardError samples) (criticalValue samples).

Definition getTimings (samples : list float) : Timings.t :=
  let mean := getMean samples in
  let moe := marginOfError samples in
  let rme := JS.or (PrimFloat.div moe mean) PrimFloat.infinity in
  {| Timings.relativeMarginOfError := rme;
     Timings.meanTime := mean;
     Timings.sampleCount := JS.length_number samples |}.

(** ** The adaptive cycle scheduler *)

Definition INCLUDE_INITIAL_SETUP_IN_MAX_TIME : bool := false.

(** [before] and [beforeAll] record whether the hook is present; the hooks and
    [fn] themselves belong to the environment of a run (see [Env] below). *)
Record BenchmarkConfig := {
  name : string;
  isSync : bool;
  before : bool;
  beforeAll : bool;
  maxTime : option float;
  initialCount : option float
}.

Module BenchmarkState.
Record t := {
  timings : Timings.t;
  cycles : float;
  iterationCount : float;
  elapsedTime : float;
  elapsedNetTime : float;
  elapsedTimeForInitialSetUp : float;
  elapsedCycleGrossTime : float;
  config : BenchmarkConfig
}.
End BenchmarkState.

Section Scheduler.
Import BenchmarkState.
Variable state : BenchmarkState.t.

Definition remainingTime : float :=
  let maxTime := JS.or_default (maxTime (config state)) DEFAULT_MAX_TIME in
  let remainingTime := PrimFloat.sub maxTime (elapsedTime state) in
  if negb INCLUDE_INITIAL_SETUP_IN_MAX_TIME
  then PrimFloat.add remainingTime (elapsedTimeForInitialSetUp state)
  else remainingTime.

Definition errorFactor : float :=
  JS.Math_min (PrimFloat.add (Timings.relativeMarginOfError (timings state)) 1%float) 10%float.

Definition meanSetUpTime : float :=
  PrimFloat.div
    (PrimFloat.sub (PrimFloat.sub (elapsedTime state) (elapsedCycleGrossTime state))
                   (elapsedTimeForInitialSetUp state))
    (cycles state).

Definition remainingNetTime : float := PrimFloat.sub remainingTime meanSetUpTime.

Definition targetNetTime : float :=
  JS.Math_min (PrimFloat.div remainingNetTime errorFactor) TARGET_CYCLE_TIME.

Definition grossMeanTimePerIteration : float :=
  PrimFloat.div (elapsedCycleGrossTime state) (iterationCount state).

Definition nextIterationCount : float :=
  (* Always do at least one cycle *)
  if PrimFloat.eqb (cycles state) 0%float then
    JS.or_default (initialCount (config state)) INITIAL_ITERATION_COUNT
  (* Already out of time? *)
  else if PrimFloat.leb remainingTime 0%float then 0%float
  (* We're accurate enough *)
  else if PrimFloat.ltb (Timings.relativeMarginOfError (timings state))
                        TARGET_RELATIVE_MARGIN_OF_ERROR then 0%float
  (* Do we still have time for setup? *)
  else if PrimFloat.ltb remainingTime meanSetUpTime then 0%float
  else JS.Math_round (PrimFloat.div targetNetTime grossMeanTimePerIteration).
End Scheduler.

(** ** Results *)

Module BenchmarkCycleDetails.
Record t := {
  name : string;
  index : float;
  iterationCount : float;
  elapsedTime : float;
  setUpTime : float;
  timingsSoFar : Timings.t
}.
End BenchmarkCycleDetails.

Module BenchmarkResult.
Record t := {
  cycles : float;
  cycleDetails : list BenchmarkCycleDetails.t;
  meanTime : float;
  relativeMarginOfError : float;
  elapsedTime : float;
  setUpTime : float;
  iterationCount : float;
  samples : list float
}.

(** [results.reduce((value, r) => value + r.field, 0)]. *)
Definition total (field : t -> float) (results : list t) : float :=
  fold_left (fun value r => PrimFloat.add value (field r)) results 0%float.

(** [results.reduce((value, r) => [...value, ...r.field], [])]. *)
Definition concat {A : Type} (field : t -> list A) (results : list t) : list A :=
  fold_left (fun value r => value ++ field r) results [].

Definition add (results : list t) : t :=
  let samples := concat samples results in
  let timings := getTimings samples in
  {| cycles := total cycles results;
     cycleDetails := concat cycleDetails results;
     meanTime := Timings.meanTime timings;
     relativeMarginOfError := Timings.relativeMarginOfError timings;
     elapsedTime := total elapsedTime results;
     setUpTime := total setUpTime results;
     iterationCount := total iterationCount results;
     samples := samples |}.
End BenchmarkResult.

(** ** The single-benchmark runner

    A run interacts with its environment through the clock ([time()]) and the
    operation under test ([config.fn()], which returns its own duration).  The
    environment is an oracle giving the value of the k-th call of each; the
    world counts the calls made so far and keeps the trace of what was invoked.
    The operation and the hooks are taken to return normally. *)

Record Env := {
  clock : nat -> float;
  fn : nat -> float
}.

Inductive Event :=
| BeforeAllCalled
| BeforeCalled (count : float)
| FnCalled
| CycleDone (details : BenchmarkCycleDetails.t).

Record World := {
  ticks : nat;
  calls : nat;
  trace : list Event
}.

Definition initial_world : World := {| ticks := 0; calls := 0; trace := [] |}.

Inductive Error := RangeError.

Inductive Outcome (A : Type) :=
| Returned (a : A) (w : World)
| Thrown (e : Error)
| Diverges
| OutOfFuel.

Arguments Returned {A} a w.
Arguments Thrown {A} e.
Arguments Diverges {A}.
Arguments OutOfFuel {A}.

Definition M (A : Type) : Type := World -> Outcome A.

Definition ret {A : Type} (a : A) : M A := fun w => Returned a w.

Definition bind {A B : Type} (m : M A) (k : A -> M B) : M B :=
  fun w =>
    match m w with
    | Returned a w' => k a w'
    | Thrown e => Thrown e
    | Diverges => Diverges
    | OutOfFuel => OutOfFuel
    end.

Notation "x <- m ;; k" := (bind m (fun x => k))
  (at level 61, m at next level, right associativity).
Notation "m ;;; k" := (bind m (fun _ => k))
  (at level 61, right associativity).

Definition throw {A : Type} (e : Error) : M A := fun _ => Thrown e.
Definition diverge {A : Type} : M A := fun _ => Diverges.

Definition emit (e : Event) : M unit :=
  fun w => Returned tt {| ticks := ticks w; calls := calls w; trace := trace w ++ [e] |}.

(** [Array(count)]: a [RangeError] ([None]) unless [count] is an integer in
    [0, 2^32 - 1]. *)
Definition array_length (count : float) : option nat :=
  match Prim2SF count with
  | S754_zero _ => Some 0%nat
  | S754_finite false m e =>
      if Z.leb 0 e then
        let n := Z.mul (Zpos m) (Z.pow 2 e) in
        if Z.ltb n (Z.pow 2 32) then Some (Z.to_nat n) else None
      else if Z.eqb (Z.modulo (Zpos m) (Z.pow 2 (Z.opp e))) 0 then
        Some (Z.to_nat (Z.div (Zpos m) (Z.pow 2 (Z.opp e))))
      else None
  | _ => None
  end.

(** The number of turns of [for (let i = 0; i < count; i++)]: the least
    integer not below [count]; the loop does not end ([None]) when [count] is
    above [2^53], where [i++] no longer changes [i]. *)
Definition loop_bound (count : float) : option nat :=
  match Prim2SF count with
  | S754_finite false m e =>
      let n := if Z.leb 0 e then Z.mul (Zpos m) (Z.pow 2 e)
               else Z.opp (Z.div (Zneg m) (Z.pow 2 (Z.opp e))) in
      if Z.leb n (Z.pow 2 53) then Some (Z.to_nat n) else None
  | S754_infinity false => None
  | _ => Some 0%nat
  end.

Section Runner.
Variable env : Env.
Variable config : BenchmarkConfig.

Definition time : M float :=
  fun w => Returned (clock env (ticks w))
                    {| ticks := S (ticks w); calls := calls w; trace := trace w |}.

Definition call_fn : M float :=
  fun w => Returned (fn env (calls w))
                    {| ticks := ticks w; calls := S (calls w); trace := trace w ++ [FnCalled] |}.

Definition call_before (count : float) : M unit :=
  if before config then emit (BeforeCalled count) else ret tt.

(** [for (...) { netTime += await config.fn(); }] *)
Fixpoint accumulate (n : nat) (netTime : float) : M float :=
  match n with
  | O => ret netTime
  | S n' => d <- call_fn ;; accumulate n' (PrimFloat.add netTime d)
  end.

(** [for (...) { times[i] = await config.fn(); }] *)
Fixpoint collect (n : nat) : M (list float) :=
  match n with
  | O => ret []
  | S n' => d <- call_fn ;; ds <- collect n' ;; ret (d :: ds)
  end.

Definition cycle (count : float) : M (list float * float) :=
  call_before count ;;;
  match loop_bound count with
  | None => diverge
  | Some n =>
      netTime <- accumulate n 0%float ;;
      ret ([PrimFloat.div netTime count], netTime)
  end.

(** [cycleSync] differs from [cycle] only in not awaiting [config.fn()]. *)
Definition cycleSync (count : float) : M (list float * float) :=
  call_before count ;;;
  match loop_bound count with
  | None => diverge
  | Some n =>
      netTime <- accumulate n 0%float ;;
      ret ([PrimFloat.div netTime count], netTime)
  end.

Definition cycleDetailed (count : float) : M (list float * float) :=
  call_before count ;;;
  match array_length count with
  | None => throw RangeError
  | Some n =>
      times <- collect n ;;
      ret (times, getSum times)
  end.

(** [config.isSync ? cycleSync : iterationCount > 10000 ? cycle : cycleDetailed] *)
Definition cycleFn (iterationCount : float) : float -> M (list float * float) :=
  if isSync config then cycleSync
  else if PrimFloat.ltb 10000%float iterationCount then cycle
  else cycleDetailed.

(** The variables of the [while (true)] loop. *)
Record Progress := {
  state : BenchmarkState.t;
  samples : list float;
  cycleDetails : list BenchmarkCycleDetails.t
}.

(** One turn of the loop: [None] is [break]. *)
Definition loop_body (startTime : float) (p : Progress) : M (option Progress) :=
  let iterationCount := nextIterationCount (state p) in
  if negb (JS.truthy iterationCount) then ret None
  else
    cycleStartTime <- time ;;
    r <- cycleFn iterationCount iterationCount ;;
    let '(cycleTimes, netTime) := r in
    t <- time ;;
    let cycleGrossTime := PrimFloat.sub t cycleStartTime in
    let samples := samples p ++ cycleTimes in
    now <- time ;;
    let state' :=
      {| BenchmarkState.timings := getTimings samples;
         BenchmarkState.config := BenchmarkState.config (state p);
         BenchmarkState.cycles := PrimFloat.add (BenchmarkState.cycles (state p)) 1%float;
         BenchmarkState.iterationCount :=
           PrimFloat.add (BenchmarkState.iterationCount (state p)) iterationCount;
         BenchmarkState.elapsedTime := PrimFloat.sub now startTime;
         BenchmarkState.elapsedNetTime :=
           PrimFloat.add (BenchmarkState.elapsedNetTime (state p)) netTime;
         BenchmarkState.elapsedCycleGrossTime :=
           PrimFloat.add (BenchmarkState.elapsedCycleGrossTime (state p)) cycleGrossTime;
         BenchmarkState.elapsedTimeForInitialSetUp :=
           BenchmarkState.elapsedTimeForInitialSetUp (state p) |} in
    let details :=
      {| BenchmarkCycleDetails.name := name config;
         BenchmarkCycleDetails.index :=
           PrimFloat.sub (BenchmarkState.cycles state') 1%float;
         BenchmarkCycleDetails.elapsedTime := BenchmarkState.elapsedTime state';
         BenchmarkCycleDetails.setUpTime :=
           PrimFloat.sub (BenchmarkState.elapsedTime state')
                         (BenchmarkState.elapsedNetTime state');
         BenchmarkCycleDetails.iterationCount := iterationCount;
         BenchmarkCycleDetails.timingsSoFar := BenchmarkState.timings state' |} in
    emit (CycleDone details) ;;;
    ret (Some {| state := state';
                 samples := samples;
                 cycleDetails := cycleDetails p ++ [details] |}).

Fixpoint run_loop (fuel : nat) (startTime : float) (p : Progress) : M Progress :=
  match fuel with
  | O => fun _ => OutOfFuel
  | S fuel' =>
      r <- loop_body startTime p ;;
      match r with
      | None => ret p
      | Some p' => run_loop fuel' startTime p'
      end
  end.

Definition initial_progress (elapsedTimeForInitialSetUp : float) : Progress :=
  {| state :=
       {| BenchmarkState.elapsedTime := 0%float;
          BenchmarkState.elapsedNetTime := 0%float;
          BenchmarkState.elapsedTimeForInitialSetUp := elapsedTimeForInitialSetUp;
          BenchmarkState.cycles := 0%float;
          BenchmarkState.iterationCount := 0%float;
          BenchmarkState.elapsedCycleGrossTime := 0%float;
          BenchmarkState.config := config;
          BenchmarkState.timings := getTimings [] |};
     samples := [];
     cycleDetails := [] |}.

Definition result_of (p : Progress) : BenchmarkResult.t :=
  {| BenchmarkResult.meanTime := Timings.meanTime (BenchmarkState.timings (state p));
     BenchmarkResult.relativeMarginOfError :=
       Timings.relativeMarginOfError (BenchmarkState.timings (state p));
     BenchmarkResult.cycles := JS.length_number (cycleDetails p);
     BenchmarkResult.iterationCount := BenchmarkState.iterationCount (state p);
     BenchmarkResult.elapsedTime := BenchmarkState.elapsedTime (state p);
     BenchmarkResult.setUpTime :=
       PrimFloat.sub (BenchmarkState.elapsedTime (state p))
                     (BenchmarkState.elapsedNetTime (state p));
     BenchmarkResult.cycleDetails := cycleDetails p;
     BenchmarkResult.samples := samples p |}.

(** The one-time setup: [startTime] and [elapsedTimeForInitialSetUp]. *)
Definition prepare : M (float * float) :=
  startTime <- time ;;
  (if beforeAll config then emit BeforeAllCalled else ret tt) ;;;
  t <- time ;;
  ret (startTime, PrimFloat.sub t startTime).

(** [benchmark(config, callbacks)]; [fuel] bounds the turns of the loop. *)
Definition benchmark (fuel : nat) : M BenchmarkResult.t :=
  r <- prepare ;;
  let '(startTime, elapsedTimeForInitialSetUp) := r in
  p <- run_loop fuel startTime (initial_progress elapsedTimeForInitialSetUp) ;;
  ret (result_of p).

(** The cycle function chosen for [count] returns: the array allocation of
    [cycleDetailed] succeeds, or the counting loop of [cycle] ends. *)
Definition cycle_can_run (count : float) : Prop :=
  if isSync config then loop_bound count <> None
  else if PrimFloat.ltb 10000%float count then loop_bound count <> None
  else array_length count <> None.
End Runner.

(** ** Predicates on numbers used in the statements *)

(** The sign bit of [x] is [s], or [x] is [NaN]. *)
Definition has_sign (s : bool) (x : spec_float) : Prop :=
  match x with
  | S754_nan => True
  | S754_zero s' | S754_infinity s' | S754_finite s' _ _ => s' = s
  end.

(** [x] is not a negative number: it is [NaN], [+0], positive or [+Infinity]. *)
Definition not_negative (x : float) : Prop := has_sign false (Prim2SF x).

(** [x] is a positive finite number. *)
Definition positive_finite (x : float) : Prop :=
  match Prim2SF x with
  | S754_finite false _ _ => True
  | _ => False
  end.

(** [x] is [+0] or [-0]. *)
Definition is_zero (x : float) : Prop :=
  match Prim2SF x with
  | S754_zero _ => True
  | _ => False
  end.

(** [x] is a non-negative integer: [+0], or a positive finite number without
    fractional part. *)
Definition nonneg_integer (x : float) : Prop :=
  match Prim2SF x with
  | S754_zero false => True
  | S754_finite false m e => (0 <= e)%Z \/ (Zpos m mod 2 ^ (- e) = 0)%Z
  | _ => False
  end.

(** Equality of numbers up to the sign of zero: the same value, or [x == y]. *)
Definition same_number (x y : float) : Prop :=
  x = y \/ PrimFloat.eqb x y = true.

(** The binary64 representation of the positive integer [p] ([p < 2^53]):
    the mantissa is [p] shifted to 53 bits. *)
Definition integer_repr (p : positive) : spec_float :=
  let d := Zpos (digits2_pos p) in
  S754_finite false (Z.to_pos (Zpos p * 2 ^ (53 - d))%Z) (d - 53)%Z.

(** ** The population standard deviation, as the specification words it

    The square root of the sum of the squared deviations from the mean,
    divided by the number [n] of samples (not [n - 1]). *)
Definition population_stddev (arr : list float) : float :=
  let mean := getMean arr in
  let squared_deviations := map (fun x => JS.Math_pow2 (PrimFloat.sub x mean)) arr in
  JS.Math_sqrt (PrimFloat.div (getSum squared_deviations) (JS.length_number arr)).

(** The scheduler's decision when the precision test is left out. *)
Definition decision_by_time (state : BenchmarkState.t) : float :=
  if PrimFloat.eqb (BenchmarkState.cycles state) 0%float then
    JS.or_default (initialCount (BenchmarkState.config state)) INITIAL_ITERATION_COUNT
  else if PrimFloat.leb (remainingTime state) 0%float then 0%float
  else if PrimFloat.ltb (remainingTime state) (meanSetUpTime state) then 0%float
  else JS.Math_round (PrimFloat.div (targetNetTime state) (grossMeanTimePerIteration state)).

(** ** Concrete configurations, states and environments used as examples *)

Definition config_of (sync : bool) (budget count : option float) : BenchmarkConfig :=
  {| name := "example"; isSync := sync; before := true; beforeAll := true;
     maxTime := budget; initialCount := count |}.

(** The state after a first cycle of two iterations of a quarter of a second
    each that took one second of gross time, four seconds after the start, one
    of which was the one-time setup. *)
Definition state_after_first_cycle (budget : option float) : BenchmarkState.t :=
  {| BenchmarkState.timings := getTimings [0.25; 0.25]%float;
     BenchmarkState.cycles := 1%float;
     BenchmarkState.iterationCount := 2%float;
     BenchmarkState.elapsedTime := 4%float;
     BenchmarkState.elapsedNetTime := 0.5%float;
     BenchmarkState.elapsedTimeForInitialSetUp := 1%float;
     BenchmarkState.elapsedCycleGrossTime := 1%float;
     BenchmarkState.config := config_of false budget (Some 2%float) |}.

(** A clock that advances by one second at every reading, and an operation
    that always reports a sixteenth of a second. *)
Definition steady_env : Env :=
  {| clock := fun k => JS.of_Z (Z.of_nat k); fn := fun _ => 0.0625%float |}.

(** A clock on which the one-time setup takes ten seconds and everything else
    one second between readings 2 and 3 and five seconds after reading 5; the
    operation reports half a second. *)
Definition slow_setup_env : Env :=
  {| clock := fun k =>
       match k with
       | 0%nat => 100 | 1%nat => 110 | 2%nat => 110
       | 3%nat => 111 | 4%nat => 111 | 5%nat => 111
       | _ => 116
       end%float;
     fn := fun _ => 0.5%float |}.

(** The invariant of the runner's loop: the state's timings are those of the
    samples collected so far. *)
Definition timings_current (p : Progress) : Prop :=
  BenchmarkState.timings (state p) = getTimings (samples p).

(** ** Further predicates and functions used in the statements *)

(** [x] is [NaN]. *)
Definition not_a_number (x : float) : Prop := Prim2SF x = S754_nan.

(** [x] is a finite number: a zero or a finite nonzero number. *)
Definition finite_number (x : float) : Prop :=
  match Prim2SF x with
  | S754_zero _ | S754_finite _ _ _ => True
  | _ => False
  end.

(** The events of one cycle: the [before] hook with the cycle's count when the
    configuration has one, [k] calls of the operation, and the report of the
    cycle to [onCycleDone]. *)
Definition cycle_events (config : BenchmarkConfig) (d : BenchmarkCycleDetails.t) (k : nat)
  : list Event :=
  (if before config then [BeforeCalled (BenchmarkCycleDetails.iterationCount d)] else [])
  ++ repeat FnCalled k ++ [CycleDone d].

(** The events of the one-time setup. *)
Definition setup_events (config : BenchmarkConfig) : list Event :=
  if beforeAll config then [BeforeAllCalled] else [].

(** The events of a whole run whose cycles made [ks] calls of the operation. *)
Definition run_events (config : BenchmarkConfig) (details : list BenchmarkCycleDetails.t)
           (ks : list nat) : list Event :=
  setup_events config
  ++ List.concat (map (fun dk => cycle_events config (fst dk) (snd dk)) (combine details ks)).

(** The sum of the iteration counts of cycle details, added from 0 in the
    order of the cycles, as the loop of [benchmark] accumulates them. *)
Definition sum_of_counts (details : list BenchmarkCycleDetails.t) : float :=
  fold_left (fun value d => PrimFloat.add value (BenchmarkCycleDetails.iterationCount d))
            details 0%float.

(** The duration of the one-time setup of a run whose first reading of the
    clock is reading [t0]. *)
Definition setup_time (env : Env) (t0 : nat) : float :=
  PrimFloat.sub (clock env (S t0)) (clock env t0).

(** The loop variables of a run started at reading [t0] after at least one
    cycle: the counter of cycles is a number other than zero, and the elapsed
    time runs from the first reading of the clock to the last. *)
Definition after_a_cycle (env : Env) (config : BenchmarkConfig) (t0 : nat)
           (p : Progress) (w : World) : Prop :=
  BenchmarkState.config (state p) = config /\
  BenchmarkState.elapsedTimeForInitialSetUp (state p) = setup_time env t0 /\
  not_negative (BenchmarkState.cycles (state p)) /\
  ~ not_a_number (BenchmarkState.cycles (state p)) /\
  PrimFloat.eqb (BenchmarkState.cycles (state p)) 0%float = false /\
  0 < ticks w /\
  BenchmarkState.elapsedTime (state p)
  = PrimFloat.sub (clock env (Nat.pred (ticks w))) (clock env t0).

(** A run used as an example: the slow one-time setup, a budget of 5 seconds
    and an initial count of 2. *)
Definition example_config : BenchmarkConfig :=
  config_of false (Some 5%float) (Some 2%float).

Definition example_run : Outcome BenchmarkResult.t :=
  benchmark slow_setup_env example_config 5 initial_world.

(** ** The suite runner (src/lib/async-bench-runner.ts)

    [runBenchmarks] runs the benchmark of every factory in turn inside
    [try]/[catch] and counts the ones that threw.  A factory is given by the
    configuration it returns and the environment of that benchmark's run,
    whose oracle numbers the clock readings and the calls of the operation
    from the start of that run.  What the suite prints is left out. *)

Record BenchmarkSuiteResult := { hasErrors : bool }.

Inductive SuiteOutcome (A : Type) :=
| SuiteReturned (a : A)
| SuiteDiverges
| SuiteOutOfFuel.

Arguments SuiteReturned {A} a.
Arguments SuiteDiverges {A}.
Arguments SuiteOutOfFuel {A}.

(** [await benchmark(config, ...)] for one factory; [fuel] bounds the cycles. *)
Definition benchmark_of (fuel : nat) (factory : Env * BenchmarkConfig)
  : Outcome BenchmarkResult.t :=
  benchmark (fst factory) (snd factory) fuel initial_world.

(** [for (const factory of factories) { try { ... } catch { erroredCount++ } }] *)
Fixpoint run_factories (fuel : nat) (factories : list (Env * BenchmarkConfig))
         (erroredCount : float) : SuiteOutcome float :=
  match factories with
  | [] => SuiteReturned erroredCount
  | factory :: rest =>
      match benchmark_of fuel factory with
      | Returned _ _ => run_factories fuel rest erroredCount
      | Thrown _ => run_factories fuel rest (PrimFloat.add erroredCount 1%float)
      | Diverges => SuiteDiverges
      | OutOfFuel => SuiteOutOfFuel
      end
  end.

Definition runBenchmarks (fuel : nat) (factories : list (Env * BenchmarkConfig))
  : SuiteOutcome BenchmarkSuiteResult :=
  match run_factories fuel factories 0%float with
  | SuiteReturned erroredCount =>
      SuiteReturned {| hasErrors := PrimFloat.ltb 0%float erroredCount |}
  | SuiteDiverges => SuiteDiverges
  | SuiteOutOfFuel => SuiteOutOfFuel
  end.

(** The benchmark of a factory ends: it returns a result or throws. *)
Definition ends (fuel : nat) (factory : Env * BenchmarkConfig) : Prop :=
  match benchmark_of fuel factory with
  | Returned _ _ | Thrown _ => True
  | _ => False
  end.

(** The benchmark of a factory throws. *)
Definition throws (fuel : nat) (factory : Env * BenchmarkConfig) : Prop :=
  match benchmark_of fuel factory with
  | Thrown _ => True
  | _ => False
  end.

(** A suite used as an example: the example run, and the same with an initial
    count of two and a half iterations, for which no array can be allocated. *)
Definition example_suite : list (Env * BenchmarkConfig) :=
  [ (slow_setup_env, example_config);
    (slow_setup_env, config_of false (Some 5%float) (Some 2.5%float));
    (slow_setup_env, example_config) ].

(** ** Facts about binary64 arithmetic *)

(** Goals on the format exponent [fexp] of binary64 are linear once its
    parameters are numerals. *)
Ltac fexp_lia :=
  unfold fexp; change (FloatOps.emin) with (-1074)%Z; change prec with 53%Z; lia.

Section Binary64.
Local Abbreviation BRA := (binary_round_aux prec emax).

Lemma binary_round_aux_sign s m e l : has_sign s (BRA s m e l).
Proof.
  unfold binary_round_aux.
  destruct (shr_fexp prec emax m e l) as [mrs' e'].
  destruct (shr_fexp prec emax _ e' loc_Exact) as [mrs'' e''].
  destruct (shr_m mrs''); simpl; auto.
  destruct (Z.leb _ _); simpl; auto.
Qed.

Lemma binary_round_sign s m e : has_sign s (binary_round prec emax s m e).
Proof.
  unfold binary_round. destruct (shl_align _ _ _). apply binary_round_aux_sign.
Qed.

Lemma binary_normalize_sign m e : (0 <= m)%Z ->
  has_sign false (binary_normalize prec emax m e false).
Proof.
  destruct m; simpl; intros; auto using binary_round_sign. lia.
Qed.

Lemma SFadd_sign x y :
  has_sign false x -> has_sign false y -> has_sign false (SF64add x y).
Proof.
  destruct x as [sx|sx| |sx mx ex], y as [sy|sy| |sy my ey];
    intros Hx Hy; simpl in Hx, Hy; subst; try (simpl; auto; fail).
  unfold SF64add, SFadd. apply binary_normalize_sign. simpl. lia.
Qed.

Lemma SFmul_sign sx sy x y :
  has_sign sx x -> has_sign sy y -> has_sign (xorb sx sy) (SF64mul x y).
Proof.
  destruct x, y; intros Hx Hy; simpl in Hx, Hy; subst; try (simpl; auto; fail).
  apply binary_round_aux_sign.
Qed.

Lemma SFdiv_sign sx sy x y :
  has_sign sx x -> has_sign sy y -> has_sign (xorb sx sy) (SF64div x y).
Proof.
  destruct x, y; intros Hx Hy; simpl in Hx, Hy; subst; try (simpl; auto; fail).
  unfold SF64div, SFdiv.
  destruct (SFdiv_core_binary _ _ _ _ _ _) as [[mz ez] lz].
  apply binary_round_aux_sign.
Qed.

Lemma SFsqrt_sign x : has_sign false x -> has_sign false (SF64sqrt x).
Proof.
  destruct x as [s|s| |s m e]; intros Hx; simpl in Hx; subst; try (simpl; auto; fail).
  unfold SF64sqrt, SFsqrt.
  destruct (SFsqrt_core_binary _ _ _ _) as [[mz ez] lz].
  apply binary_round_aux_sign.
Qed.

(** A square is never negative, whatever the sign of its argument. *)
Lemma SFmul_square_sign x : has_sign false (SF64mul x x).
Proof.
  rewrite <- (xorb_nilpotent (match x with
                              | S754_zero s | S754_infinity s | S754_finite s _ _ => s
                              | S754_nan => false end)).
  apply SFmul_sign; destruct x; simpl; auto.
Qed.
End Binary64.

Section Binary64Rounding.
Local Abbreviation BRA := (binary_round_aux prec emax).
Local Open Scope Z_scope.

Lemma digits2_pos_bounds (m : positive) :
  2 ^ (Zpos (digits2_pos m) - 1) <= Zpos m < 2 ^ Zpos (digits2_pos m).
Proof.
  induction m as [m IH|m IH|]; simpl digits2_pos.
  - rewrite Pos2Z.inj_succ.
    replace (Z.succ (Zpos (digits2_pos m)) - 1) with (Z.succ (Zpos (digits2_pos m) - 1)) by lia.
    rewrite !Z.pow_succ_r by lia. lia.
  - rewrite Pos2Z.inj_succ.
    replace (Z.succ (Zpos (digits2_pos m)) - 1) with (Z.succ (Zpos (digits2_pos m) - 1)) by lia.
    rewrite !Z.pow_succ_r by lia. lia.
  - simpl. lia.
Qed.

Lemma pow2_xI (p : positive) : 2 ^ Zpos p~1 = 2 * (2 ^ Zpos p * 2 ^ Zpos p).
Proof.
  replace (Zpos p~1) with (1 + (Zpos p + Zpos p)) by lia.
  rewrite !Z.pow_add_r by lia. reflexivity.
Qed.

Lemma pow2_xO (p : positive) : 2 ^ Zpos p~0 = 2 ^ Zpos p * 2 ^ Zpos p.
Proof.
  replace (Zpos p~0) with (Zpos p + Zpos p) by lia.
  rewrite !Z.pow_add_r by lia. reflexivity.
Qed.

Lemma shr_1_m (r : shr_record) : 0 <= shr_m r -> shr_m (shr_1 r) = shr_m r / 2.
Proof.
  destruct r as [m b s]. simpl. intros Hm.
  destruct m as [|p|p]; [reflexivity| |lia].
  destruct p as [p|p|]; simpl shr_m.
  - apply Z.div_unique with 1; lia.
  - apply Z.div_unique with 0; lia.
  - reflexivity.
Qed.

Lemma iter_shr_1_m (p : positive) : forall r : shr_record,
  0 <= shr_m r -> shr_m (iter_pos shr_1 p r) = shr_m r / 2 ^ Zpos p.
Proof.
  assert (Hnn : forall q r, 0 <= shr_m r -> 0 <= shr_m r / 2 ^ Zpos q).
  { intros. apply Z.div_pos; [assumption | apply Z.pow_pos_nonneg; lia]. }
  induction p as [p IH|p IH|]; intros r Hr; simpl iter_pos.
  - assert (H1 : 0 <= shr_m (shr_1 r)) by (rewrite shr_1_m by assumption; apply Z.div_pos; lia).
    rewrite IH; [rewrite IH by assumption | rewrite IH by assumption; auto].
    rewrite shr_1_m by assumption.
    rewrite !Z.div_div by (try apply Z.pow_pos_nonneg; lia).
    f_equal. rewrite pow2_xI. reflexivity.
  - rewrite IH; [rewrite IH by assumption | rewrite IH by assumption; auto].
    rewrite !Z.div_div by (try apply Z.pow_pos_nonneg; lia).
    f_equal. rewrite pow2_xO. reflexivity.
  - rewrite shr_1_m by assumption. reflexivity.
Qed.

(** Shifting a positive mantissa to its format exponent keeps it positive,
    provided the exponent is not below [emin]. *)
Lemma shr_fexp_pos (m e : Z) (l : location) :
  0 < m -> emin <= e ->
  0 < shr_m (fst (shr_fexp prec emax m e l)) /\ emin <= snd (shr_fexp prec emax m e l).
Proof.
  intros Hm He. unfold shr_fexp, shr.
  destruct m as [|p|p]; try lia. simpl Zdigits2.
  pose proof (digits2_pos_bounds p) as [Hlo _].
  set (d := Zpos (digits2_pos p)) in *.
  assert (Hrec : shr_m (shr_record_of_loc (Zpos p) l) = Zpos p)
    by (destruct l as [|[| |]]; reflexivity).
  destruct (fexp prec emax (d + e) - e) as [|n|n] eqn:Hn; simpl fst; simpl snd.
  - rewrite Hrec. lia.
  - rewrite iter_shr_1_m by (rewrite Hrec; lia). rewrite Hrec.
    unfold fexp in Hn. change (FloatOps.emin) with (-1074) in *. change prec with 53 in *.
    split; [|lia].
    apply Z.div_str_pos. split; [apply Z.pow_pos_nonneg; lia|].
    apply Z.le_trans with (2 ^ (d - 1)); [|assumption].
    apply Z.pow_le_mono_r; lia.
  - rewrite Hrec. lia.
Qed.

Lemma round_nearest_even_pos (m : Z) (l : location) :
  0 < m -> 0 < round_nearest_even m l.
Proof.
  intros. unfold round_nearest_even.
  destruct l as [|[| |]]; try lia. destruct (Z.even m); lia.
Qed.

(** Rounding a positive mantissa never gives a zero or [NaN] when the
    exponent is not below [emin]. *)
Lemma binary_round_aux_pos (s : bool) (m e : Z) (l : location) :
  0 < m -> emin <= e ->
  (exists m' e', BRA s m e l = S754_finite s m' e') \/ BRA s m e l = S754_infinity s.
Proof.
  intros Hm He. unfold binary_round_aux.
  destruct (shr_fexp_pos m e l Hm He) as [H1 H2].
  destruct (shr_fexp prec emax m e l) as [mrs' e']. simpl in H1, H2.
  pose proof (round_nearest_even_pos _ (loc_of_shr_record mrs') H1) as H3.
  destruct (shr_fexp_pos _ e' loc_Exact H3 H2) as [H4 _].
  destruct (shr_fexp prec emax _ e' loc_Exact) as [mrs'' e'']. simpl in H4.
  destruct (shr_m mrs'') as [|q|q]; try lia.
  destruct (Z.leb e'' (emax - prec)); eauto.
Qed.
End Binary64Rounding.

Section Binary64Exact.
Local Abbreviation BRA := (binary_round_aux prec emax).
Local Open Scope Z_scope.

(** A mantissa already in the format is left as it is. *)
Lemma binary_round_aux_exact (s : bool) (m : positive) (e : Z) :
  bounded prec emax m e = true -> BRA s (Zpos m) e loc_Exact = S754_finite s m e.
Proof.
  unfold bounded, canonical_mantissa. intros H.
  apply andb_prop in H as [Hc He]. apply Z.eqb_eq in Hc.
  unfold binary_round_aux, shr_fexp. simpl Zdigits2.
  rewrite Hc, Z.sub_diag. cbn [shr shr_record_of_loc shr_m loc_of_shr_record round_nearest_even].
  simpl Zdigits2. rewrite Hc, Z.sub_diag.
  cbn [shr shr_record_of_loc shr_m]. rewrite He. reflexivity.
Qed.

Lemma Zpos_iter_xO (p k : positive) : Zpos (Pos.iter xO p k) = Zpos p * 2 ^ Zpos k.
Proof.
  induction k as [|k IH] using Pos.peano_ind.
  - simpl. lia.
  - rewrite Pos.iter_succ, Pos2Z.inj_succ, Z.pow_succ_r by lia.
    change (Zpos (Pos.iter xO p k)~0) with (2 * Zpos (Pos.iter xO p k)). lia.
Qed.

Lemma digits2_pos_iter_xO (p k : positive) :
  Zpos (digits2_pos (Pos.iter xO p k)) = Zpos (digits2_pos p) + Zpos k.
Proof.
  induction k as [|k IH] using Pos.peano_ind.
  - simpl. lia.
  - rewrite Pos.iter_succ. simpl digits2_pos. lia.
Qed.

(** The binary64 value of a positive integer below [2^53] is that integer,
    with its mantissa shifted to 53 bits. *)
Lemma binary_normalize_small (p : positive) :
  Zpos p < 2 ^ 53 ->
  exists m e, binary_normalize prec emax (Zpos p) 0 false = S754_finite false m e
              /\ e <= 0 /\ Zpos m = Zpos p * 2 ^ (- e).
Proof.
  intros Hp. pose proof (digits2_pos_bounds p) as [Hlo _].
  assert (Hd : Zpos (digits2_pos p) <= 53).
  { destruct (Z_le_gt_dec (Zpos (digits2_pos p)) 53) as [|Hgt]; [assumption|exfalso].
    assert (2 ^ 53 <= 2 ^ (Zpos (digits2_pos p) - 1)) by (apply Z.pow_le_mono_r; lia). lia. }
  unfold binary_normalize, binary_round, shl_align.
  assert (Hf : fexp prec emax (Zpos (digits2_pos p) + 0) = Zpos (digits2_pos p) - 53).
  { fexp_lia. }
  rewrite Hf.
  destruct (Zpos (digits2_pos p) - 53 - 0) as [|k|k] eqn:Hk; try lia.
  - exists p, 0. split; [|split; [lia | simpl; lia]].
    apply binary_round_aux_exact. unfold bounded, canonical_mantissa.
    rewrite Hf. apply andb_true_intro. split; [apply Z.eqb_eq; lia | reflexivity].
  - exists (Pos.iter xO p k), (Zpos (digits2_pos p) - 53).
    split; [|split; [lia|]].
    + apply binary_round_aux_exact. unfold bounded, canonical_mantissa.
      rewrite digits2_pos_iter_xO.
      apply andb_true_intro. split.
      * apply Z.eqb_eq. fexp_lia.
      * apply Z.leb_le. change (emax - prec) with 971. lia.
    + rewrite Zpos_iter_xO. do 2 f_equal. lia.
Qed.
End Binary64Exact.

Section Binary64Division.
Local Abbreviation BRA := (binary_round_aux prec emax).
Local Open Scope Z_scope.

Lemma div_eucl_div_mod (a b : Z) : Z.div_eucl a b = (a / b, a mod b).
Proof. unfold Z.div, Z.modulo. now destruct (Z.div_eucl a b). Qed.

(** A mantissa in the format has at most 53 bits, and exactly 53 above the
    least exponent. *)
Lemma bounded_inv (m : positive) (e : Z) :
  bounded prec emax m e = true ->
  - 1074 <= e <= 971 /\ Zpos (digits2_pos m) <= 53 /\
  (- 1074 < e -> Zpos (digits2_pos m) = 53).
Proof.
  unfold bounded, canonical_mantissa, fexp. intros H.
  apply andb_prop in H as [Hc He]. apply Z.eqb_eq in Hc. apply Z.leb_le in He.
  change (FloatOps.emin) with (-1074) in Hc. change prec with 53 in *.
  change (emax - 53) with 971 in He. lia.
Qed.

Lemma SFdiv_core_one (m : positive) (e : Z) :
  bounded prec emax m e = true ->
  SFdiv_core_binary prec emax (Zpos m) e 4503599627370496 (-52) = (Zpos m, e, loc_Exact)
  \/ (SFdiv_core_binary prec emax (Zpos m) e 4503599627370496 (-52)
        = (Zpos m~0, e - 1, loc_Exact)
      /\ Zpos (digits2_pos m) = 53 /\ - 1074 < e).
Proof.
  intros Hb. destruct (bounded_inv m e Hb) as (He & Hd & Hn).
  unfold SFdiv_core_binary.
  change (Zdigits2 4503599627370496) with 53. simpl Zdigits2.
  unfold fexp. change (FloatOps.emin) with (-1074). change prec with 53.
  rewrite div_eucl_div_mod.
  destruct (Z.eq_dec e (-1074)) as [He0|He0].
  - left.
    replace (Z.min (Z.max (Zpos (digits2_pos m) + e - (53 + -52) - 53) (-1074)) (e - -52))
      with e by lia.
    replace (e - -52 - e) with 52 by lia.
    rewrite Z.shiftl_mul_pow2 by lia.
    rewrite Z.div_mul, Z.mod_mul by lia. reflexivity.
  - right. rewrite Hn by lia. split; [|lia].
    replace (Z.min (Z.max (53 + e - (53 + -52) - 53) (-1074)) (e - -52))
      with (e - 1) by lia.
    replace (e - -52 - (e - 1)) with 53 by lia.
    rewrite Z.shiftl_mul_pow2 by lia.
    replace (Zpos m * 2 ^ 53) with (Zpos m~0 * 4503599627370496) by lia.
    rewrite Z.div_mul, Z.mod_mul by lia. reflexivity.
Qed.

(** Dividing by 1 is exact. *)
Lemma SFdiv_one (s : bool) (m : positive) (e : Z) :
  bounded prec emax m e = true ->
  SF64div (S754_finite s m e) (Prim2SF 1%float) = S754_finite s m e.
Proof.
  intros Hb. change (Prim2SF 1%float) with (S754_finite false 4503599627370496 (-52)).
  unfold SF64div, SFdiv. rewrite xorb_false_r.
  destruct (SFdiv_core_one m e Hb) as [-> | (-> & Hd & He)].
  - now apply binary_round_aux_exact.
  - destruct (bounded_inv m e Hb) as (Hr & _ & _).
    assert (Hf : fexp prec emax (53 + e) = e).
    { fexp_lia. }
    unfold binary_round_aux, shr_fexp. simpl Zdigits2. rewrite Pos2Z.inj_succ, Hd.
    replace (Z.succ 53 + (e - 1)) with (53 + e) by lia. rewrite Hf.
    replace (e - (e - 1)) with 1 by lia.
    cbn [shr shr_record_of_loc iter_pos shr_1 shr_m loc_of_shr_record round_nearest_even orb].
    simpl Zdigits2. rewrite Hd.
    replace (e - 1 + 1) with e by lia. rewrite Hf, Z.sub_diag.
    cbn [shr shr_record_of_loc shr_m].
    replace (Z.leb e (emax - prec)) with true; [reflexivity|].
    symmetry. apply Z.leb_le. change (emax - prec) with 971. lia.
Qed.

(** A finite number minus itself is [+0]. *)
Lemma SFsub_diag (s : bool) (m : positive) (e : Z) :
  SF64sub (S754_finite s m e) (S754_finite s m e) = S754_zero false.
Proof. unfold SF64sub, SFsub. rewrite Z.sub_diag. reflexivity. Qed.
End Binary64Division.

Section Binary64Order.
Local Open Scope Z_scope.

Lemma shl_align_same (m : positive) (e : Z) : shl_align m e e = (m, e).
Proof. unfold shl_align. now rewrite Z.sub_diag. Qed.

Lemma shl_align_below (m : positive) (e e' : Z) :
  e' < e -> Zpos (fst (shl_align m e e')) = Zpos m * 2 ^ (e - e').
Proof.
  intros H. unfold shl_align.
  destruct (e' - e) as [|d|d] eqn:Hd; try lia.
  simpl fst. rewrite Zpos_iter_xO. do 2 f_equal. lia.
Qed.

(** Between two positive numbers of the format, the one that is not the
    lesser has the larger mantissa once both are aligned. *)
Lemma aligned_mantissas_ordered (mx my : positive) (ex ey : Z) :
  bounded prec emax mx ex = true -> bounded prec emax my ey = true ->
  SFltb (S754_finite false mx ex) (S754_finite false my ey) = false ->
  Zpos (fst (shl_align my ey (Z.min ex ey))) <= Zpos (fst (shl_align mx ex (Z.min ex ey))).
Proof.
  intros Hx Hy Hlt.
  destruct (bounded_inv mx ex Hx) as (Hex & Hdx & Hnx).
  destruct (bounded_inv my ey Hy) as (Hey & Hdy & Hny).
  unfold SFltb, SFcompare in Hlt.
  destruct (Z.compare_spec ex ey) as [E|L|G].
  - subst ey. rewrite Z.min_id, !shl_align_same. simpl fst.
    change (Pos.compare_cont Eq mx my) with (Pos.compare mx my) in Hlt.
    destruct (Pos.compare_spec mx my) as [E|L|G]; try discriminate; lia.
  - discriminate.
  - rewrite Z.min_r by lia. rewrite shl_align_same. simpl fst.
    rewrite shl_align_below by lia.
    pose proof (digits2_pos_bounds mx) as [Hlo _].
    pose proof (digits2_pos_bounds my) as [_ Hhi].
    rewrite Hnx in Hlo by lia. change (2 ^ (53 - 1)) with 4503599627370496 in Hlo.
    assert (Zpos my < 2 ^ 53).
    { apply Z.lt_le_trans with (2 ^ Zpos (digits2_pos my)); [assumption|].
      apply Z.pow_le_mono_r; lia. }
    assert (2 ^ 1 <= 2 ^ (ex - ey)) by (apply Z.pow_le_mono_r; lia).
    change (2 ^ 1) with 2 in *. change (2 ^ 53) with 9007199254740992 in *. nia.
Qed.

(** [a - b] is not negative when [a] is positive and not less than [b]. *)
Lemma SFsub_not_negative (x y : spec_float) :
  valid_binary x = true -> valid_binary y = true ->
  SFleb x (S754_zero false) = false -> SFltb x y = false ->
  has_sign false (SF64sub x y).
Proof.
  intros Vx Vy Hle Hlt.
  destruct x as [sx|[|]| |[|] mx ex]; try discriminate Hle; try exact I;
    destruct y as [sy|[|]| |[|] my ey]; try discriminate Hlt; try exact I;
    try reflexivity.
  - unfold SF64sub, SFsub. apply binary_normalize_sign. simpl cond_Zopp. lia.
  - unfold SF64sub, SFsub. apply binary_normalize_sign. simpl cond_Zopp.
    pose proof (aligned_mantissas_ordered mx my ex ey Vx Vy Hlt). lia.
Qed.
End Binary64Order.

Section Binary64Sqrt.
Local Open Scope Z_scope.

(** The square root of a positive number of the format is finite and
    positive, or [+Infinity]; never zero or [NaN]. *)
Lemma SFsqrt_pos (m : positive) (e : Z) :
  bounded prec emax m e = true ->
  (exists m' e', SF64sqrt (S754_finite false m e) = S754_finite false m' e')
  \/ SF64sqrt (S754_finite false m e) = S754_infinity false.
Proof.
  intros Hb. destruct (bounded_inv m e Hb) as (He & _ & _).
  unfold SF64sqrt, SFsqrt, SFsqrt_core_binary.
  set (e' := Z.min _ (Z.div2 e)).
  assert (He' : emin <= e' /\ 2 * e' <= e).
  { subst e'. unfold fexp. change (FloatOps.emin) with (-1074).
    rewrite !Z.div2_div.
    pose proof (Z.mul_div_le e 2 ltac:(lia)).
    assert (-537 <= e / 2) by (apply Z.div_le_lower_bound; lia).
    lia. }
  destruct He' as [He1 He2].
  set (m' := match e - 2 * e' with Zpos _ => _ | Z0 => _ | Zneg _ => _ end).
  assert (Hm' : 0 < m').
  { subst m'. destruct (e - 2 * e') as [|s|s] eqn:Hs; try lia.
    rewrite Z.shiftl_mul_pow2 by lia.
    apply Z.mul_pos_pos; [lia | apply Z.pow_pos_nonneg; lia]. }
  pose proof (Z.sqrtrem_sqrt m') as Hq.
  destruct (Z.sqrtrem m') as [q r]. simpl in Hq. subst q.
  apply binary_round_aux_pos; [|assumption].
  apply Z.sqrt_pos. assumption.
Qed.
End Binary64Sqrt.

(** ** The same facts on primitive numbers *)

Section NumberFacts.
Local Open Scope Z_scope.

Lemma number_of_spec (x : float) (y : spec_float) :
  Prim2SF x = y -> x = SF2Prim y.
Proof. intros <-. symmetry. apply SF2Prim_Prim2SF. Qed.

(** [0 + x] is [x], except for [x = -0] where it is [+0]. *)
Lemma add_zero_l (x : float) :
  Prim2SF x <> S754_zero true -> PrimFloat.add 0%float x = x.
Proof.
  intros Hx. apply Prim2SF_inj. rewrite FloatAxioms.add_spec.
  change (Prim2SF 0%float) with (S754_zero false).
  destruct (Prim2SF x) as [[|]| | |]; try reflexivity. now elim Hx.
Qed.

Lemma div_one (x : float) : PrimFloat.div x 1%float = x.
Proof.
  apply Prim2SF_inj. rewrite FloatAxioms.div_spec.
  pose proof (Prim2SF_valid x) as Hv.
  destruct (Prim2SF x) as [s|s| |s m e].
  - now destruct s.
  - now destruct s.
  - reflexivity.
  - apply SFdiv_one. exact Hv.
Qed.

(** [x - x] is [+0] for a zero or a finite [x] (and [NaN] otherwise). *)
Lemma sub_diag (x : float) :
  match Prim2SF x with S754_zero _ | S754_finite _ _ _ => True | _ => False end ->
  PrimFloat.sub x x = 0%float.
Proof.
  intros Hx. apply Prim2SF_inj. rewrite FloatAxioms.sub_spec.
  change (Prim2SF 0%float) with (S754_zero false).
  destruct (Prim2SF x) as [[|]|s| |s m e]; try contradiction; try reflexivity.
  apply SFsub_diag.
Qed.

Lemma not_negative_add (x y : float) :
  not_negative x -> not_negative y -> not_negative (PrimFloat.add x y).
Proof. unfold not_negative. rewrite FloatAxioms.add_spec. apply SFadd_sign. Qed.

Lemma not_negative_mul (x y : float) :
  not_negative x -> not_negative y -> not_negative (PrimFloat.mul x y).
Proof. unfold not_negative. rewrite FloatAxioms.mul_spec. apply (SFmul_sign false false). Qed.

Lemma not_negative_div (x y : float) :
  not_negative x -> not_negative y -> not_negative (PrimFloat.div x y).
Proof. unfold not_negative. rewrite FloatAxioms.div_spec. apply (SFdiv_sign false false). Qed.

Lemma not_negative_sqrt (x : float) :
  not_negative x -> not_negative (JS.Math_sqrt x).
Proof. unfold not_negative, JS.Math_sqrt. rewrite FloatAxioms.sqrt_spec. apply SFsqrt_sign. Qed.

Lemma not_negative_pow2 (x : float) : not_negative (JS.Math_pow2 x).
Proof. unfold not_negative, JS.Math_pow2. rewrite FloatAxioms.mul_spec. apply SFmul_square_sign. Qed.

Lemma not_negative_sub (a b : float) :
  PrimFloat.leb a 0%float = false -> PrimFloat.ltb a b = false ->
  not_negative (PrimFloat.sub a b).
Proof.
  rewrite FloatAxioms.leb_spec, FloatAxioms.ltb_spec. unfold not_negative. rewrite FloatAxioms.sub_spec.
  change (Prim2SF 0%float) with (S754_zero false).
  apply SFsub_not_negative; apply Prim2SF_valid.
Qed.

Lemma to_Z_of_Z (n : Z) : 0 <= n < 2 ^ 63 -> Uint63.to_Z (Uint63.of_Z n) = n.
Proof. intros H. rewrite Uint63.of_Z_spec. apply Z.mod_small. exact H. Qed.

Lemma not_negative_of_Z (n : Z) : 0 <= n -> not_negative (JS.of_Z n).
Proof.
  intros Hn. unfold not_negative, JS.of_Z. destruct n as [|p|p]; try lia.
  - reflexivity.
  - rewrite FloatAxioms.of_uint63_spec. apply binary_normalize_sign.
    pose proof (Uint63.to_Z_bounded (Uint63.of_Z (Zpos p))). lia.
Qed.

Lemma not_negative_length {A : Type} (arr : list A) : not_negative (JS.length_number arr).
Proof. apply not_negative_of_Z. lia. Qed.

(** A positive integer below [2^53] is represented exactly. *)
Lemma of_Z_small (n : Z) :
  0 < n < 2 ^ 53 ->
  exists m e, Prim2SF (JS.of_Z n) = S754_finite false m e
              /\ e <= 0 /\ Zpos m = n * 2 ^ (- e).
Proof.
  intros Hn. destruct n as [|p|p]; try lia. unfold JS.of_Z.
  rewrite FloatAxioms.of_uint63_spec, to_Z_of_Z by (change (2 ^ 53) with 9007199254740992 in Hn;
                                        change (2 ^ 63) with 9223372036854775808; lia).
  apply binary_normalize_small. lia.
Qed.

Lemma sqrt_positive (x : float) (m : positive) (e : Z) :
  Prim2SF x = S754_finite false m e ->
  (exists m' e', Prim2SF (JS.Math_sqrt x) = S754_finite false m' e')
  \/ Prim2SF (JS.Math_sqrt x) = S754_infinity false.
Proof.
  intros Hx. unfold JS.Math_sqrt. rewrite FloatAxioms.sqrt_spec, Hx.
  apply SFsqrt_pos. pose proof (Prim2SF_valid x) as Hv. now rewrite Hx in Hv.
Qed.

Lemma Math_min_cases (a b : float) :
  JS.Math_min a b = PrimFloat.nan \/ JS.Math_min a b = a \/ JS.Math_min a b = b.
Proof.
  unfold JS.Math_min.
  destruct (PrimFloat.is_nan a || PrimFloat.is_nan b)%bool; auto.
  destruct (PrimFloat.ltb a b); auto.
  destruct (PrimFloat.ltb b a); auto.
  destruct (PrimFloat.get_sign a); auto.
Qed.

Lemma not_negative_min (a b : float) :
  not_negative a -> not_negative b -> not_negative (JS.Math_min a b).
Proof.
  intros Ha Hb. destruct (Math_min_cases a b) as [-> | [-> | ->]]; auto. exact I.
Qed.

(** A number that is not below a positive one is not negative. *)
Lemma not_below_positive (x y : float) (m : positive) (e : Z) :
  Prim2SF y = S754_finite false m e ->
  PrimFloat.ltb x y = false -> not_negative x.
Proof.
  intros Hy. rewrite FloatAxioms.ltb_spec, Hy. unfold not_negative.
  destruct (Prim2SF x) as [s|[|]| |[|] mx ex]; simpl; auto; discriminate.
Qed.
End NumberFacts.

Create HintDb numbers discriminated.
#[export] Hint Resolve not_negative_add not_negative_mul not_negative_div
  not_negative_sqrt not_negative_pow2 not_negative_min not_negative_length : numbers.

(** ** Integers below [2^53] are computed with exactly *)

Section Binary64Integers.
Local Open Scope Z_scope.

(** The number of bits of a positive integer is determined by its bounds. *)
Lemma digits2_pos_unique (p : positive) (d : Z) :
  2 ^ (d - 1) <= Zpos p < 2 ^ d -> Zpos (digits2_pos p) = d.
Proof.
  intros [Hlo Hhi]. pose proof (digits2_pos_bounds p) as [Hlo' Hhi'].
  assert (0 < d).
  { destruct (Z_lt_le_dec 0 d) as [|Hd]; [assumption|exfalso].
    destruct d; try lia. rewrite Z.pow_neg_r in Hhi by lia. lia. }
  destruct (Z.lt_trichotomy (Zpos (digits2_pos p)) d) as [L|[E|G]]; [exfalso|exact E|exfalso].
  - assert (2 ^ Zpos (digits2_pos p) <= 2 ^ (d - 1)) by (apply Z.pow_le_mono_r; lia). lia.
  - assert (2 ^ d <= 2 ^ (Zpos (digits2_pos p) - 1)) by (apply Z.pow_le_mono_r; lia). lia.
Qed.

Lemma integer_repr_normalize (p : positive) :
  Zpos p < 2 ^ 53 -> binary_normalize prec emax (Zpos p) 0 false = integer_repr p.
Proof.
  intros Hp. pose proof (digits2_pos_bounds p) as [Hlo _].
  assert (Hd : Zpos (digits2_pos p) <= 53).
  { destruct (Z_le_gt_dec (Zpos (digits2_pos p)) 53) as [|Hgt]; [assumption|exfalso].
    assert (2 ^ 53 <= 2 ^ (Zpos (digits2_pos p) - 1)) by (apply Z.pow_le_mono_r; lia). lia. }
  unfold binary_normalize, binary_round, shl_align, integer_repr.
  assert (Hf : fexp prec emax (Zpos (digits2_pos p) + 0) = Zpos (digits2_pos p) - 53).
  { fexp_lia. }
  rewrite Hf.
  destruct (Zpos (digits2_pos p) - 53 - 0) as [|k|k] eqn:Hk; try lia.
  - replace (Zpos (digits2_pos p)) with 53 by lia. simpl Z.sub.
    rewrite Z.pow_0_r, Z.mul_1_r. simpl Z.to_pos.
    apply binary_round_aux_exact. unfold bounded, canonical_mantissa.
    replace (Zpos (digits2_pos p)) with 53 by lia. reflexivity.
  - replace (Zpos p * 2 ^ (53 - Zpos (digits2_pos p))) with (Zpos (Pos.iter xO p k))
      by (rewrite Zpos_iter_xO; do 2 f_equal; lia).
    simpl Z.to_pos.
    apply binary_round_aux_exact. unfold bounded, canonical_mantissa.
    rewrite digits2_pos_iter_xO.
    apply andb_true_intro. split.
    + apply Z.eqb_eq. fexp_lia.
    + apply Z.leb_le. change (emax - prec) with 971. lia.
Qed.

(** Shifting out bits that are all zero is exact. *)
Lemma shr_1_exact (m : Z) :
  0 <= m -> m mod 2 = 0 ->
  shr_1 (Build_shr_record m false false) = Build_shr_record (m / 2) false false.
Proof.
  intros Hm Hev. destruct m as [|p|p]; [reflexivity| |lia].
  destruct p as [p|p|]; simpl.
  - rewrite Pos2Z.inj_xI in Hev.
    replace (2 * Zpos p + 1) with (1 + Zpos p * 2) in Hev by lia.
    rewrite Z.mod_add in Hev by lia. discriminate Hev.
  - f_equal. apply Z.div_unique with 0; lia.
  - discriminate Hev.
Qed.

Lemma iter_shr_1_exact (k : positive) : forall m : Z,
  0 <= m -> m mod 2 ^ Zpos k = 0 ->
  iter_pos shr_1 k (Build_shr_record m false false)
  = Build_shr_record (m / 2 ^ Zpos k) false false.
Proof.
  assert (Hdiv : forall a b m, 0 < a -> 0 < b -> m mod (a * b) = 0 ->
                 m mod a = 0 /\ (m / a) mod b = 0).
  { intros a b m Ha Hb Hm.
    apply Z.mod_divide in Hm; [|lia]. destruct Hm as [c ->].
    split.
    - replace (c * (a * b)) with (c * b * a) by lia. apply Z.mod_mul. lia.
    - replace (c * (a * b)) with (c * b * a) by lia. rewrite Z.div_mul by lia.
      apply Z.mod_mul. lia. }
  assert (Hp : forall q, 0 < 2 ^ Zpos q) by (intros; apply Z.pow_pos_nonneg; lia).
  induction k as [k IH|k IH|]; intros m Hm Hk; cbn [iter_pos].
  - rewrite pow2_xI in Hk.
    destruct (Hdiv 2 (2 ^ Zpos k * 2 ^ Zpos k) m) as [H2 Hr];
      [lia | specialize (Hp k); nia | exact Hk |].
    destruct (Hdiv (2 ^ Zpos k) (2 ^ Zpos k) (m / 2)) as [Hk1 Hk2];
      [apply Hp | apply Hp | exact Hr |].
    rewrite shr_1_exact by assumption.
    rewrite IH by (try apply Z.div_pos; try lia; assumption).
    rewrite IH; [|apply Z.div_pos; [apply Z.div_pos; lia | apply Hp] | assumption].
    rewrite !Z.div_div by (try apply Hp; lia).
    rewrite pow2_xI. reflexivity.
  - rewrite pow2_xO in Hk.
    destruct (Hdiv (2 ^ Zpos k) (2 ^ Zpos k) m) as [Hk1 Hk2];
      [apply Hp | apply Hp | exact Hk |].
    rewrite IH by assumption.
    rewrite IH; [|apply Z.div_pos; [lia | apply Hp] | assumption].
    rewrite !Z.div_div by (try apply Hp; lia).
    rewrite pow2_xO. reflexivity.
  - apply shr_1_exact; assumption.
Qed.
End Binary64Integers.

Section Binary64IntegerArithmetic.
Local Abbreviation BRA := (binary_round_aux prec emax).
Local Open Scope Z_scope.

(** A mantissa followed by [k] zero bits is rounded to that mantissa, [k]
    exponents higher. *)
Lemma binary_round_aux_shift (s : bool) (M : positive) (e k : Z) :
  0 <= k -> bounded prec emax M (e + k) = true ->
  BRA s (Zpos M * 2 ^ k) e loc_Exact = S754_finite s M (e + k).
Proof.
  intros Hk Hb. destruct k as [|kp|kp]; try lia.
  - rewrite Z.pow_0_r, Z.mul_1_r. rewrite Z.add_0_r in *.
    now apply binary_round_aux_exact.
  - pose proof Hb as Hb'. unfold bounded, canonical_mantissa in Hb'.
    apply andb_prop in Hb' as [Hc He]. apply Z.eqb_eq in Hc.
    rewrite <- Zpos_iter_xO.
    unfold binary_round_aux, shr_fexp. simpl Zdigits2.
    rewrite digits2_pos_iter_xO.
    replace (Zpos (digits2_pos M) + Zpos kp + e) with (Zpos (digits2_pos M) + (e + Zpos kp))
      by lia.
    rewrite Hc. replace (e + Zpos kp - e) with (Zpos kp) by lia.
    cbn [shr shr_record_of_loc].
    rewrite iter_shr_1_exact;
      [|lia | rewrite Zpos_iter_xO; apply Z.mod_mul; apply Z.pow_nonzero; lia].
    rewrite Zpos_iter_xO, Z.div_mul by (apply Z.pow_nonzero; lia).
    cbn [shr_m loc_of_shr_record round_nearest_even shr_record_of_loc].
    simpl Zdigits2. rewrite Hc, Z.sub_diag. cbn [shr shr_m]. rewrite He. reflexivity.
Qed.

(** The parts of [integer_repr]. *)
Lemma integer_repr_parts (q : positive) :
  Zpos q < 2 ^ 53 ->
  exists M : positive,
    integer_repr q = S754_finite false M (Zpos (digits2_pos q) - 53) /\
    Zpos M = Zpos q * 2 ^ (53 - Zpos (digits2_pos q)) /\
    1 <= Zpos (digits2_pos q) <= 53 /\
    bounded prec emax M (Zpos (digits2_pos q) - 53) = true.
Proof.
  intros Hq. pose proof (digits2_pos_bounds q) as [Hlo Hhi].
  set (d := Zpos (digits2_pos q)) in *.
  assert (Hd : 1 <= d <= 53).
  { split; [subst d; lia|].
    destruct (Z_le_gt_dec d 53) as [|Hgt]; [assumption|exfalso].
    assert (2 ^ 53 <= 2 ^ (d - 1)) by (apply Z.pow_le_mono_r; lia). lia. }
  assert (Hpos : 0 < Zpos q * 2 ^ (53 - d))
    by (apply Z.mul_pos_pos; [lia | apply Z.pow_pos_nonneg; lia]).
  exists (Z.to_pos (Zpos q * 2 ^ (53 - d))).
  split; [reflexivity|]. split; [now rewrite Z2Pos.id|]. split; [exact Hd|].
  unfold bounded, canonical_mantissa.
  assert (HM : Zpos (digits2_pos (Z.to_pos (Zpos q * 2 ^ (53 - d)))) = 53).
  { apply digits2_pos_unique. rewrite Z2Pos.id by assumption.
    replace (2 ^ (53 - 1)) with (2 ^ (d - 1) * 2 ^ (53 - d))
      by (rewrite <- Z.pow_add_r by lia; f_equal; lia).
    replace (2 ^ 53) with (2 ^ d * 2 ^ (53 - d))
      by (rewrite <- Z.pow_add_r by lia; f_equal; lia).
    assert (0 < 2 ^ (53 - d)) by (apply Z.pow_pos_nonneg; lia). nia. }
  rewrite HM. apply andb_true_intro. split.
  - apply Z.eqb_eq. unfold fexp. change (FloatOps.emin) with (-1074).
    change prec with 53. lia.
  - apply Z.leb_le. change (emax - prec) with 971. lia.
Qed.

(** Subtracting 1 from an integer between 2 and [2^53] is exact. *)
Lemma SFsub_integer_one (p q : positive) :
  Zpos p < 2 ^ 53 -> Zpos q = Zpos p - 1 ->
  SF64sub (integer_repr p) (integer_repr 1) = integer_repr q.
Proof.
  intros Hp Hq.
  destruct (integer_repr_parts p Hp) as (Mp & -> & HMp & Hdp & _).
  destruct (integer_repr_parts q ltac:(lia)) as (Mq & -> & HMq & Hdq & Hbq).
  change (integer_repr 1) with (S754_finite false 4503599627370496 (-52)).
  assert (Hdp2 : 2 <= Zpos (digits2_pos p)).
  { pose proof (digits2_pos_bounds p) as [_ Hhi].
    destruct (Z_le_gt_dec 2 (Zpos (digits2_pos p))) as [|Hlt]; [assumption|exfalso].
    replace (Zpos (digits2_pos p)) with 1 in Hhi by lia. simpl in Hhi. lia. }
  set (dp := Zpos (digits2_pos p)) in *. set (dq := Zpos (digits2_pos q)) in *.
  unfold SF64sub, SFsub.
  rewrite Z.min_r by lia. rewrite shl_align_same. cbn [fst cond_Zopp].
  rewrite shl_align_below by lia. rewrite HMp.
  replace (Zpos p * 2 ^ (53 - dp) * 2 ^ (dp - 53 - -52) - 4503599627370496)
    with (Zpos Mq * 2 ^ (dq - 1)).
  2:{ rewrite HMq. rewrite <- !Z.mul_assoc, <- !Z.pow_add_r by lia.
      replace (53 - dp + (dp - 53 - -52)) with 52 by lia.
      replace (53 - dq + (dq - 1)) with 52 by lia.
      change (2 ^ 52) with 4503599627370496. lia. }
  assert (HP : 0 < Zpos Mq * 2 ^ (dq - 1))
    by (apply Z.mul_pos_pos; [lia | apply Z.pow_pos_nonneg; lia]).
  destruct (Zpos Mq * 2 ^ (dq - 1)) as [|P|P] eqn:EP; try lia.
  unfold binary_normalize, binary_round.
  assert (HdP : Zpos (digits2_pos P) = 53 + (dq - 1)).
  { apply digits2_pos_unique. rewrite <- EP.
    destruct (bounded_inv Mq (dq - 53) Hbq) as (_ & _ & _).
    pose proof (digits2_pos_bounds Mq) as [Hlo Hhi].
    assert (HdM : Zpos (digits2_pos Mq) = 53).
    { apply digits2_pos_unique. rewrite HMq.
      pose proof (digits2_pos_bounds q) as [Hlq Hhq]. fold dq in Hlq, Hhq.
      replace (2 ^ (53 - 1)) with (2 ^ (dq - 1) * 2 ^ (53 - dq))
        by (rewrite <- Z.pow_add_r by lia; f_equal; lia).
      replace (2 ^ 53) with (2 ^ dq * 2 ^ (53 - dq))
        by (rewrite <- Z.pow_add_r by lia; f_equal; lia).
      assert (0 < 2 ^ (53 - dq)) by (apply Z.pow_pos_nonneg; lia). nia. }
    rewrite HdM in Hlo, Hhi.
    replace (53 + (dq - 1) - 1) with (53 - 1 + (dq - 1)) by lia.
    rewrite !Z.pow_add_r by lia.
    assert (0 < 2 ^ (dq - 1)) by (apply Z.pow_pos_nonneg; lia). nia. }
  rewrite HdP.
  assert (Hf : fexp prec emax (53 + (dq - 1) + -52) = dq - 53).
  { fexp_lia. }
  rewrite Hf. unfold shl_align.
  destruct (dq - 53 - -52) as [|n|n] eqn:En; try lia.
  - rewrite <- EP. replace (dq - 1) with 0 by lia.
    rewrite (binary_round_aux_shift false Mq (-52) 0); [f_equal; lia | lia |].
    replace (-52 + 0) with (dq - 53) by lia. exact Hbq.
  - rewrite <- EP.
    rewrite (binary_round_aux_shift false Mq (-52) (dq - 1)); [f_equal; lia | lia |].
    replace (-52 + (dq - 1)) with (dq - 53) by lia. exact Hbq.
Qed.
End Binary64IntegerArithmetic.

Section IntegerNumbers.
Local Open Scope Z_scope.

Lemma of_Z_repr (n : Z) :
  0 < n < 2 ^ 53 -> Prim2SF (JS.of_Z n) = integer_repr (Z.to_pos n).
Proof.
  intros Hn. destruct n as [|p|p]; try lia. unfold JS.of_Z.
  rewrite FloatAxioms.of_uint63_spec, to_Z_of_Z
    by (change (2 ^ 53) with 9007199254740992 in Hn;
        change (2 ^ 63) with 9223372036854775808; lia).
  apply integer_repr_normalize. lia.
Qed.

(** [n - 1] is computed exactly for an integer [n] between 2 and [2^53]. *)
Lemma sub_one_exact (n : Z) :
  2 <= n < 2 ^ 53 -> PrimFloat.sub (JS.of_Z n) 1%float = JS.of_Z (n - 1).
Proof.
  intros Hn. apply Prim2SF_inj.
  rewrite FloatAxioms.sub_spec, !of_Z_repr by lia.
  change (Prim2SF 1%float) with (integer_repr 1).
  apply SFsub_integer_one; rewrite ?Z2Pos.id; lia.
Qed.

Lemma truthy_of_Z (n : Z) : 0 < n < 2 ^ 53 -> JS.truthy (JS.of_Z n) = true.
Proof.
  intros Hn. unfold JS.truthy. rewrite of_Z_repr by assumption. reflexivity.
Qed.

(** The value of an integer's representation, read back from its mantissa
    [M] and its exponent [d - 53]. *)
Lemma mantissa_value (q M : positive) (d : Z) :
  1 <= d <= 53 -> Zpos M = Zpos q * 2 ^ (53 - d) ->
  (0 <= d - 53 -> d - 53 = 0 /\ Zpos M = Zpos q) /\
  (d - 53 < 0 -> Zpos M mod 2 ^ (- (d - 53)) = 0
                 /\ Zpos M / 2 ^ (- (d - 53)) = Zpos q
                 /\ JS.round_half_up false M (d - 53) = Zpos q).
Proof.
  intros Hd HM. split; intros He.
  - assert (d = 53) by lia. split; [lia|]. rewrite HM.
    replace (53 - d) with 0 by lia. lia.
  - unfold JS.round_half_up. simpl cond_Zopp.
    replace (- (d - 53)) with (53 - d) by lia. rewrite HM.
    assert (Hp : 0 < 2 ^ (53 - d)) by (apply Z.pow_pos_nonneg; lia).
    split; [apply Z.mod_mul; lia|]. split; [apply Z.div_mul; lia|].
    rewrite Z.pow_add_r by lia. change (2 ^ 1) with 2.
    symmetry. apply Z.div_unique with (2 ^ (53 - d)); lia.
Qed.

(** Rounding an integer gives it back. *)
Lemma Math_round_of_Z (n : Z) :
  0 < n < 2 ^ 53 -> JS.Math_round (JS.of_Z n) = JS.of_Z n.
Proof.
  intros Hn. unfold JS.Math_round.
  pose proof (of_Z_repr n Hn) as E.
  destruct (integer_repr_parts (Z.to_pos n)) as (M & EM & HM & Hd & _);
    [rewrite Z2Pos.id; lia|].
  rewrite E, EM.
  destruct (mantissa_value (Z.to_pos n) M _ Hd HM) as [_ Hneg].
  destruct (Z.leb_spec 0 (Zpos (digits2_pos (Z.to_pos n)) - 53)) as [|He];
    [reflexivity|].
  destruct (Hneg He) as (_ & _ & ->). rewrite Z2Pos.id by lia.
  destruct (Z.eqb_spec n 0); [lia | reflexivity].
Qed.

(** The property key of an integer below [2^53] is its decimal numeral. *)
Lemma property_key_of_Z (n : Z) :
  0 < n < 2 ^ 53 -> JS.property_key (JS.of_Z n) = Some (JS.number_key n).
Proof.
  intros Hn. unfold JS.property_key.
  pose proof (of_Z_repr n Hn) as E.
  destruct (integer_repr_parts (Z.to_pos n)) as (M & EM & HM & Hd & _);
    [rewrite Z2Pos.id; lia|].
  rewrite E, EM.
  destruct (mantissa_value (Z.to_pos n) M _ Hd HM) as [Hpos Hneg].
  rewrite Z2Pos.id in Hpos, Hneg by lia.
  destruct (Z.leb_spec 0 (Zpos (digits2_pos (Z.to_pos n)) - 53)) as [He|He].
  - destruct (Hpos He) as [-> ->]. rewrite Z.pow_0_r, Z.mul_1_r.
    destruct (Z.leb_spec n (2 ^ 53)); [reflexivity | lia].
  - destruct (Hneg He) as (-> & -> & _). reflexivity.
Qed.
End IntegerNumbers.

Section ArrayLengths.
Local Open Scope Z_scope.

(** An array allocated with a nonzero [count] has [count] elements. *)
Lemma array_length_number (count : float) (n : nat) :
  array_length count = Some n -> JS.truthy count = true ->
  JS.of_Z (Z.of_nat n) = count.
Proof.
  unfold array_length, JS.truthy. intros Ha Ht.
  pose proof (Prim2SF_valid count) as Hv.
  destruct (Prim2SF count) as [s|s| |[|] m e] eqn:E; try discriminate.
  destruct (bounded_inv m e Hv) as (He & Hd & Hn).
  pose proof (digits2_pos_bounds m) as [Hlo Hhi].
  assert (Hm53 : Zpos m < 2 ^ 53).
  { apply Z.lt_le_trans with (2 ^ Zpos (digits2_pos m)); [assumption|].
    apply Z.pow_le_mono_r; lia. }
  destruct (Z.leb_spec 0 e) as [He0|He0].
  - exfalso. rewrite Hn in Hlo by lia.
    destruct (Z.ltb_spec (Zpos m * 2 ^ e) (2 ^ 32)) as [Hlt|]; [|discriminate].
    assert (0 < 2 ^ e) by (apply Z.pow_pos_nonneg; lia).
    change (2 ^ (53 - 1)) with 4503599627370496 in Hlo.
    change (2 ^ 32) with 4294967296 in Hlt. nia.
  - destruct (Z.eqb_spec (Zpos m mod 2 ^ (- e)) 0) as [Hmod|]; [|discriminate].
    injection Ha as <-.
    assert (Hk : 0 < 2 ^ (- e)) by (apply Z.pow_pos_nonneg; lia).
    apply Z.mod_divide in Hmod; [|lia]. destruct Hmod as [q Hq].
    rewrite Hq, Z.div_mul by lia.
    assert (Hq0 : 0 < q) by nia.
    rewrite Z2Nat.id by lia.
    assert (Hq53 : q < 2 ^ 53) by nia.
    assert (Hnorm : - 1074 < e).
    { destruct (Z.eq_dec e (-1074)) as [->|]; [exfalso|lia].
      assert (2 ^ 53 <= 2 ^ (- -1074)) by (apply Z.pow_le_mono_r; lia). nia. }
    specialize (Hn Hnorm).
    apply Prim2SF_inj. rewrite of_Z_repr, E by lia.
    destruct (integer_repr_parts (Z.to_pos q)) as (M & -> & HM & HdM & _);
      [rewrite Z2Pos.id; lia|].
    rewrite Z2Pos.id in HM by lia.
    pose proof (digits2_pos_bounds (Z.to_pos q)) as [Hql Hqh].
    rewrite Z2Pos.id in Hql, Hqh by lia.
    set (dq := Zpos (digits2_pos (Z.to_pos q))) in *.
    assert (Hdq : dq + - e = 53).
    { rewrite <- Hn. symmetry. apply digits2_pos_unique. rewrite Hq.
      replace (dq + - e - 1) with (dq - 1 + - e) by lia.
      rewrite !Z.pow_add_r by lia. nia. }
    f_equal; [|lia]. apply Pos2Z.inj. rewrite HM, Hq. do 2 f_equal. lia.
Qed.
End ArrayLengths.

(** ** The estimator *)

Section EstimatorFacts.
Local Open Scope Z_scope.

Lemma get_property_in (obj : list (string * float)) (key : string) (v : float) :
  get_property obj key = Some v -> In v (map snd obj).
Proof.
  induction obj as [|[k w] rest IH]; simpl; [discriminate|].
  destruct (String.eqb k key); [intros [= ->]; now left | right; auto].
Qed.

Lemma tTable_positive : Forall positive_finite (map snd tTable).
Proof. repeat constructor. Qed.

Lemma or_positive_finite (c d : float) : positive_finite c -> JS.or c d = c.
Proof.
  unfold positive_finite, JS.or, JS.truthy.
  destruct (Prim2SF c) as [s|s| |[|] m e]; intros H; try contradiction. reflexivity.
Qed.

(** The critical value is always a positive finite number. *)
Lemma criticalValue_positive (samples : list float) :
  positive_finite (criticalValue samples).
Proof.
  unfold criticalValue.
  destruct (tTable_at _) as [c|] eqn:Hc; simpl.
  - unfold tTable_at in Hc. destruct (JS.property_key _); [|discriminate].
    apply get_property_in in Hc.
    pose proof (proj1 (Forall_forall _ _) tTable_positive c Hc) as Hp.
    now rewrite or_positive_finite.
  - exact I.
Qed.

Lemma positive_finite_not_negative (x : float) : positive_finite x -> not_negative x.
Proof.
  unfold positive_finite, not_negative.
  destruct (Prim2SF x) as [s|s| |[|] m e]; simpl; intros H; try contradiction; auto.
Qed.

Lemma not_negative_fold (arr : list float) : forall acc : float,
  Forall not_negative arr -> not_negative acc ->
  not_negative (fold_left PrimFloat.add arr acc).
Proof.
  induction arr as [|x arr IH]; intros acc Harr Hacc; simpl; [assumption|].
  inversion Harr; subst. apply IH; [assumption | now apply not_negative_add].
Qed.

Lemma not_negative_getSum (arr : list float) :
  Forall not_negative arr -> not_negative (getSum arr).
Proof. intros H. apply not_negative_fold; [assumption | reflexivity]. Qed.

Lemma not_negative_getMean (arr : list float) :
  Forall not_negative arr -> not_negative (getMean arr).
Proof. unfold getMean. auto using not_negative_getSum with numbers. Qed.

Lemma squares_not_negative (f : float -> float) (arr : list float) :
  Forall not_negative (map (fun x => JS.Math_pow2 (f x)) arr).
Proof. induction arr; simpl; constructor; auto using not_negative_pow2. Qed.

Lemma not_negative_getStddev (arr : list float) : not_negative (getStddev arr).
Proof.
  unfold getStddev.
  pose proof (squares_not_negative (fun x => PrimFloat.sub x (getMean arr)) arr) as H.
  destruct (map _ arr) as [|d ds]; [reflexivity|].
  inversion H; subst. auto using not_negative_fold with numbers.
Qed.

Lemma not_negative_marginOfError (samples : list float) :
  not_negative (marginOfError samples).
Proof.
  unfold marginOfError, standardError.
  auto 6 using not_negative_getStddev, positive_finite_not_negative,
    criticalValue_positive with numbers.
Qed.

(** A quotient that is not negative and has a zero of positive sign as
    divisor is [+Infinity] or [NaN]: [||] turns both into [+Infinity]. *)
Lemma or_infinity_div_zero (moe mean : float) :
  not_negative moe -> Prim2SF mean = S754_zero false ->
  JS.or (PrimFloat.div moe mean) PrimFloat.infinity = PrimFloat.infinity.
Proof.
  intros Hm Hz. unfold JS.or, JS.truthy. rewrite FloatAxioms.div_spec, Hz.
  unfold not_negative in Hm.
  destruct (Prim2SF moe) as [s|s| |s m e] eqn:E; simpl in Hm; subst; simpl; try reflexivity.
  - apply Prim2SF_inj. rewrite FloatAxioms.div_spec, Hz, E. reflexivity.
  - apply Prim2SF_inj. rewrite FloatAxioms.div_spec, Hz, E. reflexivity.
Qed.

(** [0 / x] is a zero for a finite nonzero [x]; [||] makes it [+Infinity]. *)
Lemma or_infinity_zero_div (x : float) :
  match Prim2SF x with S754_finite _ _ _ | S754_infinity _ => True | _ => False end ->
  JS.or (PrimFloat.div 0%float x) PrimFloat.infinity = PrimFloat.infinity.
Proof.
  intros Hx. unfold JS.or, JS.truthy. rewrite FloatAxioms.div_spec.
  change (Prim2SF 0%float) with (S754_zero false).
  destruct (Prim2SF x); try contradiction; reflexivity.
Qed.

Lemma fold_zeros (k : nat) : fold_left PrimFloat.add (repeat 0%float k) 0%float = 0%float.
Proof. induction k as [|k IH]; simpl; [reflexivity | exact IH]. Qed.

(** [0 / y] is [+0] when [y] is positive or [+Infinity]. *)
Lemma zero_div_positive (y : float) :
  match Prim2SF y with
  | S754_finite false _ _ | S754_infinity false => True
  | _ => False
  end -> PrimFloat.div 0%float y = 0%float.
Proof.
  intros Hy. apply Prim2SF_inj. rewrite FloatAxioms.div_spec.
  change (Prim2SF 0%float) with (S754_zero false).
  destruct (Prim2SF y) as [s|[|]| |[|] m e]; try contradiction; reflexivity.
Qed.

Lemma zero_mul_positive (y : float) :
  positive_finite y -> PrimFloat.mul 0%float y = 0%float.
Proof.
  unfold positive_finite. intros Hy. apply Prim2SF_inj. rewrite FloatAxioms.mul_spec.
  change (Prim2SF 0%float) with (S754_zero false).
  destruct (Prim2SF y) as [s|[|]| |[|] m e]; try contradiction; reflexivity.
Qed.

Lemma length_number_positive {A : Type} (arr : list A) :
  (0 < List.length arr)%nat -> Z.of_nat (List.length arr) < 2 ^ 32 ->
  positive_finite (JS.length_number arr).
Proof.
  intros H0 H1. unfold JS.length_number, positive_finite.
  destruct (of_Z_small (Z.of_nat (List.length arr))) as (m & e & -> & _); [|exact I].
  change (2 ^ 32) with 4294967296 in H1. change (2 ^ 53) with 9007199254740992. lia.
Qed.
End EstimatorFacts.

(** ** The t-table is only reached through numeric keys *)

Section TableKeys.
Local Open Scope Z_scope.

Lemma to_int_proper (z : Z) :
  Z.to_int z <> Decimal.Pos Decimal.Nil /\ Z.to_int z <> Decimal.Neg Decimal.Nil.
Proof.
  destruct z as [|p|p]; simpl; split; try discriminate;
    intros H; injection H; apply Unsigned.to_uint_nonnil.
Qed.

Lemma number_key_int (z : Z) :
  NilZero.int_of_string (JS.number_key z) = Some (Z.to_int z).
Proof. unfold JS.number_key. apply NilZero.isi; apply to_int_proper. Qed.

Lemma number_key_inj (a b : Z) : JS.number_key a = JS.number_key b -> a = b.
Proof.
  intros H. apply (f_equal NilZero.int_of_string) in H.
  rewrite !number_key_int in H. injection H as H.
  apply (f_equal Z.of_int) in H. now rewrite !DecimalZ.of_to in H.
Qed.

Lemma get_property_absent (obj : list (string * float)) (key : string) :
  Forall (fun kv => fst kv <> key) obj -> get_property obj key = None.
Proof.
  induction 1 as [|[k v] rest Hk _ IH]; simpl; [reflexivity|].
  destruct (String.eqb_spec k key) as [E|_]; [now elim Hk | assumption].
Qed.

(** No number has the key ["infinity"], and a number above 30 or below 1 has
    none of the numeric keys. *)
Lemma tTable_outside (z : Z) :
  z < 1 \/ 30 < z -> get_property tTable (JS.number_key z) = None.
Proof.
  intros Hz. apply get_property_absent. unfold tTable.
  repeat (apply Forall_cons;
          [ simpl fst; intros E;
            first [ apply (f_equal NilZero.int_of_string) in E;
                    rewrite number_key_int in E; discriminate E
                  | match type of E with
                    | ?k = _ =>
                        let n := eval vm_compute in (Z.of_int
                          (match NilZero.int_of_string k with
                           | Some d => d | None => Decimal.Pos Decimal.Nil end)) in
                        change k with (JS.number_key n) in E;
                        apply number_key_inj in E; lia
                    end ]
          | ]).
  apply Forall_nil.
Qed.
End TableKeys.

Section CriticalValue.
Local Open Scope Z_scope.

(** For two samples or more the critical value is looked up under the
    numeral of [n - 1]. *)
Lemma criticalValue_by_length (samples : list float) :
  2 <= Z.of_nat (List.length samples) < 2 ^ 32 ->
  criticalValue samples
  = JS.or_default
      (get_property tTable (JS.number_key (Z.of_nat (List.length samples) - 1)))
      tTable_infinity.
Proof.
  intros Hn. change (2 ^ 32) with 4294967296 in Hn.
  assert (H53 : 2 ^ 53 = 9007199254740992) by reflexivity.
  unfold criticalValue, degreesOfFreedom, JS.length_number.
  rewrite sub_one_exact by lia. rewrite Math_round_of_Z by lia.
  unfold JS.or. rewrite truthy_of_Z by lia.
  unfold tTable_at. rewrite property_key_of_Z by lia. reflexivity.
Qed.
End CriticalValue.

(** ** Claims about the estimator's critical value *)

(** C4 (as stated, refuted): the critical value is not 1.96 for every sequence
    of more than 30 observations, since 31 observations have 30 degrees of
    freedom and use the table entry 2.042; and it is not the entry for df = 1
    for every df <= 0, since the empty sequence (df = -1) uses 1.96. *)
Lemma C4_counterexample :
  let s31 := repeat 1%float 31 in
  (30 < List.length s31)%nat /\
  criticalValue s31 = 2.042%float /\ criticalValue s31 <> 1.96%float /\
  PrimFloat.leb (degreesOfFreedom []) 0%float = true /\
  criticalValue [] = 1.96%float /\ criticalValue [] <> 12.706%float.
Proof.
  cbv zeta. repeat split; vm_compute; (reflexivity || lia || discriminate).
Qed.

(** C4 (amended): with exactly 5 observations (df = 4) the critical value is
    2.776; with more than 31 observations (df > 30; an array has fewer than
    2^32 elements) it is 1.96; with exactly one observation (df = 0) it is the
    entry for df = 1, 12.706; for the empty sequence (df = -1) it is 1.96. *)
Theorem C4_critical_value (samples : list float) :
  (List.length samples = 5%nat -> criticalValue samples = 2.776%float) /\
  ((31 < List.length samples)%nat -> (Z.of_nat (List.length samples) < 2 ^ 32)%Z ->
   criticalValue samples = 1.96%float) /\
  (List.length samples = 1%nat -> criticalValue samples = 12.706%float) /\
  (List.length samples = 0%nat -> criticalValue samples = 1.96%float).
Proof.
  split; [|split; [|split]].
  - intros H. unfold criticalValue, degreesOfFreedom, JS.length_number.
    rewrite H. reflexivity.
  - intros H Hlen. rewrite criticalValue_by_length by lia.
    rewrite tTable_outside by lia. reflexivity.
  - intros H. unfold criticalValue, degreesOfFreedom, JS.length_number.
    rewrite H. reflexivity.
  - intros H. unfold criticalValue, degreesOfFreedom, JS.length_number.
    rewrite H. reflexivity.
Qed.

Lemma C4_critical_value_witness :
  criticalValue [1; 2; 3; 4; 5]%float = 2.776%float /\
  criticalValue (repeat 1%float 32) = 1.96%float /\
  criticalValue [1%float] = 12.706%float /\
  criticalValue [] = 1.96%float.
Proof.
  split; [|split; [|split]].
  - apply (proj1 (C4_critical_value [1; 2; 3; 4; 5]%float)). reflexivity.
  - apply (proj1 (proj2 (C4_critical_value (repeat 1%float 32)))).
    + vm_compute. lia.
    + reflexivity.
  - apply (proj1 (proj2 (proj2 (C4_critical_value [1%float])))). reflexivity.
  - apply (proj2 (proj2 (proj2 (C4_critical_value [])))). reflexivity.
Defined.

(** ** Claims about the estimator *)

Section SingleSample.
Variable x : float.

Lemma getMean_single_finite :
  match Prim2SF x with S754_finite _ _ _ => True | _ => False end ->
  getMean [x] = x.
Proof.
  intros Hx. unfold getMean, getSum. simpl fold_left.
  change (JS.length_number [x]) with 1%float. rewrite div_one.
  apply add_zero_l. destruct (Prim2SF x); try contradiction; discriminate.
Qed.

Lemma marginOfError_single_finite :
  match Prim2SF x with S754_finite _ _ _ => True | _ => False end ->
  marginOfError [x] = 0%float.
Proof.
  intros Hx. unfold marginOfError, standardError, getStddev. simpl map.
  rewrite getMean_single_finite by assumption.
  rewrite sub_diag by (destruct (Prim2SF x); auto). reflexivity.
Qed.

(** With a single sample the relative margin of error is [+Infinity],
    whatever the sample. *)
Lemma getTimings_single :
  Timings.relativeMarginOfError (getTimings [x]) = PrimFloat.infinity.
Proof.
  destruct (Prim2SF x) as [s|s| |s m e] eqn:Hx.
  - apply number_of_spec in Hx. subst x. now destruct s.
  - apply number_of_spec in Hx. subst x. now destruct s.
  - apply number_of_spec in Hx. subst x. reflexivity.
  - unfold getTimings. simpl Timings.relativeMarginOfError.
    rewrite marginOfError_single_finite, getMean_single_finite by now rewrite Hx.
    apply or_infinity_zero_div. now rewrite Hx.
Qed.
End SingleSample.

(** C3 (as stated, refuted): on the two equal samples 1, 1 the mean is 1, not
    zero, and there are two samples, yet the relative margin of error is
    [+Infinity] while the margin of error divided by the mean is 0. *)
Lemma C3_counterexample :
  let samples := [1; 1]%float in
  Timings.meanTime (getTimings samples) = 1%float /\
  List.length samples = 2%nat /\
  PrimFloat.div (marginOfError samples) (Timings.meanTime (getTimings samples)) = 0%float /\
  Timings.relativeMarginOfError (getTimings samples) = PrimFloat.infinity /\
  Timings.relativeMarginOfError (getTimings samples)
    <> PrimFloat.div (marginOfError samples) (Timings.meanTime (getTimings samples)).
Proof. cbv zeta. repeat split; vm_compute; (reflexivity || discriminate). Qed.

(** C3 (amended): the relative margin of error is the margin of error divided
    by the mean whenever that quotient is neither zero nor [NaN], and
    [+Infinity] otherwise; it is [+Infinity] for the empty sequence and for
    every single-sample sequence, and, for samples that are not negative,
    whenever the mean is zero.  The estimator is a total function: none of
    these cases is an error. *)
Theorem C3_relative_margin_of_error (samples : list float) :
  let quotient := PrimFloat.div (marginOfError samples)
                                (Timings.meanTime (getTimings samples)) in
  let rme := Timings.relativeMarginOfError (getTimings samples) in
  (JS.truthy quotient = true -> rme = quotient) /\
  (JS.truthy quotient = false -> rme = PrimFloat.infinity) /\
  ((List.length samples <= 1)%nat -> rme = PrimFloat.infinity) /\
  (Forall not_negative samples -> is_zero (Timings.meanTime (getTimings samples)) ->
   rme = PrimFloat.infinity).
Proof.
  cbv zeta. repeat split.
  - unfold getTimings, JS.or. simpl. now intros ->.
  - unfold getTimings, JS.or. simpl. now intros ->.
  - intros Hlen. destruct samples as [|x [|y rest]].
    + reflexivity.
    + apply getTimings_single.
    + simpl in Hlen. lia.
  - intros Hnn Hzero. unfold getTimings in *. simpl in *.
    apply or_infinity_div_zero; [apply not_negative_marginOfError|].
    pose proof (not_negative_getMean samples Hnn) as Hs.
    unfold is_zero in Hzero. unfold not_negative in Hs.
    destruct (Prim2SF (getMean samples)) as [s|s| |s m e]; try contradiction.
    simpl in Hs. now subst s.
Qed.

Lemma C3_relative_margin_of_error_witness :
  Timings.relativeMarginOfError (getTimings [1; 2; 3]%float)
    = PrimFloat.div (marginOfError [1; 2; 3]%float)
                    (Timings.meanTime (getTimings [1; 2; 3]%float)) /\
  Timings.relativeMarginOfError (getTimings [2; 2]%float) = PrimFloat.infinity /\
  Timings.relativeMarginOfError (getTimings [7]%float) = PrimFloat.infinity /\
  Timings.relativeMarginOfError (getTimings [0; 0; 0]%float) = PrimFloat.infinity.
Proof.
  split; [|split; [|split]].
  - apply (proj1 (C3_relative_margin_of_error [1; 2; 3]%float)). reflexivity.
  - apply (proj1 (proj2 (C3_relative_margin_of_error [2; 2]%float))). reflexivity.
  - apply (proj1 (proj2 (proj2 (C3_relative_margin_of_error [7]%float)))). simpl. lia.
  - apply (proj2 (proj2 (proj2 (C3_relative_margin_of_error [0; 0; 0]%float)))).
    + repeat constructor.
    + exact I.
Defined.

(** C9: on a non-empty sequence [getStddev] is the population formula: the
    square root of the sum of the squared deviations from the mean divided by
    the number of samples. *)
Theorem C9_population_stddev (arr : list float) :
  arr <> [] -> getStddev arr = population_stddev arr.
Proof.
  intros Hne. unfold getStddev, population_stddev, getSum.
  pose proof (squares_not_negative (fun x => PrimFloat.sub x (getMean arr)) arr) as Hsq.
  destruct arr as [|x xs]; [now elim Hne|].
  remember (getMean (x :: xs)) as mean. simpl map in *. simpl fold_left.
  inversion Hsq as [|d ds Hd _]; subst d ds.
  rewrite add_zero_l; [reflexivity|].
  intros E. unfold not_negative in Hd. rewrite E in Hd. discriminate Hd.
Qed.

Lemma C9_population_stddev_witness :
  getStddev [1; 2; 4]%float = population_stddev [1; 2; 4]%float.
Proof. apply C9_population_stddev. discriminate. Defined.


Section ConstantSamples.
Variable x : float.
Variable n : nat.
Hypothesis n_ge_2 : (2 <= n)%nat.
Hypothesis n_is_length : (Z.of_nat n < 2 ^ 32)%Z.
Hypothesis x_positive : positive_finite x.
Hypothesis mean_exact : getMean (repeat x n) = x.

Let samples := repeat x n.

Lemma constant_length_positive : positive_finite (JS.length_number samples).
Proof.
  apply length_number_positive; subst samples; rewrite repeat_length; [lia | assumption].
Qed.

Lemma constant_getStddev : getStddev samples = 0%float.
Proof.
  pose proof constant_length_positive as HN.
  unfold getStddev. fold samples in mean_exact. rewrite mean_exact.
  subst samples. rewrite map_repeat.
  rewrite sub_diag by (unfold positive_finite in x_positive; destruct (Prim2SF x); auto).
  change (JS.Math_pow2 0%float) with 0%float.
  destruct n as [|k]; [lia|].
  change (repeat 0%float (S k)) with (0%float :: repeat 0%float k).
  cbv beta iota. rewrite fold_zeros.
  rewrite zero_div_positive; [reflexivity|].
  unfold positive_finite in HN.
  destruct (Prim2SF (JS.length_number (repeat x (S k)))) as [s|s| |[|] m e];
    try contradiction; exact I.
Qed.

Lemma constant_marginOfError : marginOfError samples = 0%float.
Proof.
  pose proof constant_length_positive as HN.
  unfold marginOfError, standardError. rewrite constant_getStddev.
  rewrite zero_div_positive; [apply zero_mul_positive, criticalValue_positive|].
  unfold positive_finite in HN.
  destruct (Prim2SF (JS.length_number samples)) as [s|s| |[|] m e] eqn:E; try contradiction.
  destruct (sqrt_positive _ _ _ E) as [(m' & e' & ->) | ->]; exact I.
Qed.

Lemma constant_relativeMarginOfError :
  Timings.relativeMarginOfError (getTimings samples) = PrimFloat.infinity.
Proof.
  unfold getTimings. simpl Timings.relativeMarginOfError.
  rewrite constant_marginOfError. fold samples in mean_exact. rewrite mean_exact.
  apply or_infinity_zero_div.
  unfold positive_finite in x_positive. destruct (Prim2SF x); auto.
Qed.
End ConstantSamples.

(** C1 (as stated, refuted): for the constant samples 1, 1 the standard
    deviation and the margin of error are 0 but the relative margin of error
    is [+Infinity], not 0, because [0 || Infinity] is [Infinity]; after a
    first cycle of two equal samples the scheduler asks for 5 more iterations,
    and a run of an operation that always reports a sixteenth of a second
    takes ten cycles, until its budget is used up.  And for the constant
    samples 0.1, 0.1, 0.1 the computed mean is not 0.1, so that the standard
    deviation is not 0. *)
Lemma C1_counterexample :
  let samples := [1; 1]%float in
  getStddev samples = 0%float /\
  marginOfError samples = 0%float /\
  Timings.relativeMarginOfError (getTimings samples) = PrimFloat.infinity /\
  Timings.relativeMarginOfError (getTimings samples) <> 0%float /\
  PrimFloat.ltb (Timings.relativeMarginOfError (getTimings samples))
                TARGET_RELATIVE_MARGIN_OF_ERROR = false /\
  nextIterationCount (state_after_first_cycle None) = 5%float /\
  (exists (r : BenchmarkResult.t) (w : World),
     benchmark steady_env (config_of false None (Some 2%float)) 30 initial_world
       = Returned r w /\
     BenchmarkResult.samples r = repeat 0.0625%float 59 /\
     BenchmarkResult.cycles r = 10%float /\
     BenchmarkResult.relativeMarginOfError r = PrimFloat.infinity) /\
  getStddev [0.1; 0.1; 0.1]%float <> 0%float.
Proof.
  cbv zeta. repeat split; try (vm_compute; (reflexivity || discriminate)).
  do 2 eexists. split; [vm_compute; reflexivity|]. repeat split.
Qed.

(** C1 (amended): for a sequence of [n >= 2] samples all equal to one positive
    value whose computed mean is exactly that value, the standard deviation is
    0 and the margin of error is 0, but the relative margin of error is
    [+Infinity] (a zero quotient is replaced by [Infinity]); the 2% precision
    target is therefore not met, and the scheduler decides from the time
    budget alone. *)
Theorem C1_constant_samples (x : float) (n : nat) (state : BenchmarkState.t) :
  (2 <= n)%nat -> (Z.of_nat n < 2 ^ 32)%Z -> positive_finite x ->
  getMean (repeat x n) = x ->
  BenchmarkState.timings state = getTimings (repeat x n) ->
  getStddev (repeat x n) = 0%float /\
  marginOfError (repeat x n) = 0%float /\
  Timings.relativeMarginOfError (getTimings (repeat x n)) = PrimFloat.infinity /\
  PrimFloat.ltb (Timings.relativeMarginOfError (getTimings (repeat x n)))
                TARGET_RELATIVE_MARGIN_OF_ERROR = false /\
  nextIterationCount state = decision_by_time state.
Proof.
  intros Hn Hlen Hx Hmean Hst.
  pose proof (constant_relativeMarginOfError x n Hn Hlen Hx Hmean) as Hrme.
  repeat split.
  - now apply constant_getStddev.
  - now apply constant_marginOfError.
  - exact Hrme.
  - rewrite Hrme. reflexivity.
  - unfold nextIterationCount, decision_by_time. rewrite Hst, Hrme.
    change (PrimFloat.ltb PrimFloat.infinity TARGET_RELATIVE_MARGIN_OF_ERROR) with false.
    reflexivity.
Qed.

Lemma C1_constant_samples_witness :
  getStddev (repeat 0.25%float 2) = 0%float /\
  marginOfError (repeat 0.25%float 2) = 0%float /\
  Timings.relativeMarginOfError (getTimings (repeat 0.25%float 2)) = PrimFloat.infinity /\
  PrimFloat.ltb (Timings.relativeMarginOfError (getTimings (repeat 0.25%float 2)))
                TARGET_RELATIVE_MARGIN_OF_ERROR = false /\
  nextIterationCount (state_after_first_cycle None)
  = decision_by_time (state_after_first_cycle None).
Proof.
  apply (C1_constant_samples 0.25%float 2 (state_after_first_cycle None)).
  - lia.
  - reflexivity.
  - exact I.
  - reflexivity.
  - reflexivity.
Defined.

(** ** The scheduler *)

Section RoundingToInteger.
Local Open Scope Z_scope.

Lemma round_half_up_bounds (m : positive) (e : Z) :
  bounded prec emax m e = true -> e < 0 ->
  0 <= JS.round_half_up false m e < 2 ^ 53.
Proof.
  intros Hb He. destruct (bounded_inv m e Hb) as (_ & Hd & _).
  pose proof (digits2_pos_bounds m) as [_ Hhi].
  assert (Hm : Zpos m < 2 ^ 53).
  { apply Z.lt_le_trans with (2 ^ Zpos (digits2_pos m)); [assumption|].
    apply Z.pow_le_mono_r; lia. }
  unfold JS.round_half_up. simpl cond_Zopp.
  assert (Hk : 2 ^ 1 <= 2 ^ (- e)) by (apply Z.pow_le_mono_r; lia).
  rewrite Z.pow_add_r by lia.
  change (2 ^ 1) with 2 in *. change (2 ^ 53) with 9007199254740992 in *.
  split.
  - apply Z.div_pos; lia.
  - apply Z.div_lt_upper_bound; nia.
Qed.

(** [Math.round] of a number that is not negative is [NaN], [+Infinity] or
    a non-negative integer. *)
Lemma Math_round_not_negative (x : float) :
  not_negative x ->
  Prim2SF (JS.Math_round x) = S754_nan \/ JS.Math_round x = PrimFloat.infinity
  \/ nonneg_integer (JS.Math_round x).
Proof.
  unfold not_negative, JS.Math_round, nonneg_integer. intros Hx.
  pose proof (Prim2SF_valid x) as Hv.
  destruct (Prim2SF x) as [s|s| |s m e] eqn:E; simpl in Hx; subst.
  - right. right. now rewrite E.
  - right. left. now apply number_of_spec in E.
  - left. exact E.
  - destruct (Z.leb_spec 0 e) as [He|He].
    + right. right. rewrite E. now left.
    + pose proof (round_half_up_bounds m e Hv He) as Hn.
      destruct (Z.eqb_spec (JS.round_half_up false m e) 0) as [_|Hne].
      * right. right. exact I.
      * right. right.
        destruct (of_Z_small (JS.round_half_up false m e)) as (m' & e' & -> & He' & Hm');
          [lia|].
        right. rewrite Hm'. apply Z.mod_mul.
        apply Z.pow_nonzero; lia.
Qed.
End RoundingToInteger.

Section SchedulerFacts.
Variable state : BenchmarkState.t.

Lemma relativeMarginOfError_not_negative :
  PrimFloat.ltb (Timings.relativeMarginOfError (BenchmarkState.timings state))
                TARGET_RELATIVE_MARGIN_OF_ERROR = false ->
  not_negative (Timings.relativeMarginOfError (BenchmarkState.timings state)).
Proof.
  apply (not_below_positive _ _ 5764607523034235 (-58)). reflexivity.
Qed.

Lemma errorFactor_not_negative :
  PrimFloat.ltb (Timings.relativeMarginOfError (BenchmarkState.timings state))
                TARGET_RELATIVE_MARGIN_OF_ERROR = false ->
  not_negative (errorFactor state).
Proof.
  intros H. unfold errorFactor. apply not_negative_min; [|reflexivity].
  apply not_negative_add; [now apply relativeMarginOfError_not_negative | reflexivity].
Qed.

Lemma targetNetTime_not_negative :
  PrimFloat.leb (remainingTime state) 0%float = false ->
  PrimFloat.ltb (Timings.relativeMarginOfError (BenchmarkState.timings state))
                TARGET_RELATIVE_MARGIN_OF_ERROR = false ->
  PrimFloat.ltb (remainingTime state) (meanSetUpTime state) = false ->
  not_negative (targetNetTime state).
Proof.
  intros H1 H2 H3. unfold targetNetTime. apply not_negative_min; [|reflexivity].
  apply not_negative_div; [|now apply errorFactor_not_negative].
  now apply not_negative_sub.
Qed.
End SchedulerFacts.

(** C5 (as stated, refuted): after one cycle of one iteration whose gross time
    was measured as 0, the mean gross time per iteration is 0 and the
    scheduler returns [Infinity], which is not an integer. *)
Lemma C5_counterexample :
  let state :=
    {| BenchmarkState.timings := getTimings [1%float];
       BenchmarkState.cycles := 1%float;
       BenchmarkState.iterationCount := 1%float;
       BenchmarkState.elapsedTime := 1%float;
       BenchmarkState.elapsedNetTime := 1%float;
       BenchmarkState.elapsedTimeForInitialSetUp := 0%float;
       BenchmarkState.elapsedCycleGrossTime := 0%float;
       BenchmarkState.config :=
         {| name := "constant"; isSync := true; before := false; beforeAll := false;
            maxTime := None; initialCount := None |} |} in
  nextIterationCount state = PrimFloat.infinity /\
  ~ nonneg_integer (nextIterationCount state).
Proof. cbv zeta. split; vm_compute; [reflexivity | intros H; exact H]. Qed.

(** C5 (amended): on the first call ([cycles == 0]) the scheduler returns the
    configured initial count, 1 when it is absent or falsy, whatever the
    remaining time; on a later call, when the accumulated gross cycle time and
    iteration count are not negative, the result is never a negative number:
    it is a non-negative integer, or [+Infinity] or [NaN] when the quotient of
    the target time by the gross time per iteration is. *)
Theorem C5_next_iteration_count (state : BenchmarkState.t) :
  not_negative (BenchmarkState.elapsedCycleGrossTime state) ->
  not_negative (BenchmarkState.iterationCount state) ->
  (PrimFloat.eqb (BenchmarkState.cycles state) 0%float = true ->
   nextIterationCount state
   = JS.or_default (initialCount (BenchmarkState.config state)) INITIAL_ITERATION_COUNT) /\
  (PrimFloat.eqb (BenchmarkState.cycles state) 0%float = false ->
   Prim2SF (nextIterationCount state) = S754_nan
   \/ nextIterationCount state = PrimFloat.infinity
   \/ nonneg_integer (nextIterationCount state)).
Proof.
  intros Hg Hi. unfold nextIterationCount. split; intros ->; [reflexivity|].
  destruct (PrimFloat.leb (remainingTime state) 0%float) eqn:H1;
    [right; right; exact I|].
  destruct (PrimFloat.ltb _ TARGET_RELATIVE_MARGIN_OF_ERROR) eqn:H2;
    [right; right; exact I|].
  destruct (PrimFloat.ltb (remainingTime state) (meanSetUpTime state)) eqn:H3;
    [right; right; exact I|].
  apply Math_round_not_negative, not_negative_div.
  - now apply targetNetTime_not_negative.
  - now apply not_negative_div.
Qed.

Lemma C5_next_iteration_count_witness :
  let state := state_after_first_cycle None in
  (PrimFloat.eqb (BenchmarkState.cycles state) 0%float = true ->
   nextIterationCount state
   = JS.or_default (initialCount (BenchmarkState.config state)) INITIAL_ITERATION_COUNT) /\
  (PrimFloat.eqb (BenchmarkState.cycles state) 0%float = false ->
   Prim2SF (nextIterationCount state) = S754_nan
   \/ nextIterationCount state = PrimFloat.infinity
   \/ nonneg_integer (nextIterationCount state)).
Proof.
  apply (C5_next_iteration_count (state_after_first_cycle None)); reflexivity.
Defined.

(** C8 (as stated, refuted): with a budget of 100 seconds the cap of the next
    cycle's net time is still 3 seconds, not one tenth of the configured
    budget. *)
Lemma C8_counterexample :
  let state := state_after_first_cycle (Some 100%float) in
  PrimFloat.eqb (BenchmarkState.cycles state) 0%float = false /\
  nextIterationCount state = 6%float /\
  targetNetTime state = 3%float /\
  targetNetTime state
    <> JS.Math_min (PrimFloat.div (remainingNetTime state) (errorFactor state))
                   (PrimFloat.div 100%float 10%float).
Proof. cbv zeta. repeat split; vm_compute; (reflexivity || discriminate). Qed.

(** C8 (amended): for every scheduler state past the first cycle that does not
    stop, the target net time of the next cycle is the minimum of
    [remainingNetTime / errorFactor] and the fixed target cycle duration of 3
    seconds (one tenth of the default budget of 30 seconds, whatever budget is
    configured), where [errorFactor = min(relativeMarginOfError + 1, 10)];
    the returned count is that target divided by the gross mean time per
    iteration, rounded. *)
Theorem C8_target_net_time (state : BenchmarkState.t) :
  PrimFloat.eqb (BenchmarkState.cycles state) 0%float = false ->
  JS.truthy (nextIterationCount state) = true ->
  errorFactor state
  = JS.Math_min
      (PrimFloat.add (Timings.relativeMarginOfError (BenchmarkState.timings state)) 1%float)
      10%float /\
  targetNetTime state
  = JS.Math_min (PrimFloat.div (remainingNetTime state) (errorFactor state)) 3%float /\
  nextIterationCount state
  = JS.Math_round (PrimFloat.div (targetNetTime state) (grossMeanTimePerIteration state)).
Proof.
  intros Hc Hgo. repeat split.
  unfold nextIterationCount in *. rewrite Hc in *.
  destruct (PrimFloat.leb (remainingTime state) 0%float); [discriminate Hgo|].
  destruct (PrimFloat.ltb _ TARGET_RELATIVE_MARGIN_OF_ERROR); [discriminate Hgo|].
  destruct (PrimFloat.ltb (remainingTime state) (meanSetUpTime state)); [discriminate Hgo|].
  reflexivity.
Qed.

Lemma C8_target_net_time_witness :
  let state := state_after_first_cycle (Some 100%float) in
  errorFactor state
  = JS.Math_min
      (PrimFloat.add (Timings.relativeMarginOfError (BenchmarkState.timings state)) 1%float)
      10%float /\
  targetNetTime state
  = JS.Math_min (PrimFloat.div (remainingNetTime state) (errorFactor state)) 3%float /\
  nextIterationCount state
  = JS.Math_round (PrimFloat.div (targetNetTime state) (grossMeanTimePerIteration state)).
Proof.
  apply (C8_target_net_time (state_after_first_cycle (Some 100%float))); reflexivity.
Defined.

(** ** The runner *)

Section RunnerFacts.
Variable env : Env.
Variable config : BenchmarkConfig.

Lemma collect_spec (n : nat) : forall w : World,
  exists w', collect env n w = Returned (map (fn env) (seq (calls w) n)) w'.
Proof.
  induction n as [|n IH]; intros w; simpl.
  - now exists w.
  - unfold bind at 1. unfold call_fn at 1.
    destruct (IH {| ticks := ticks w; calls := S (calls w);
                    trace := trace w ++ [FnCalled] |}) as [w' Hw'].
    unfold bind at 1. rewrite Hw'. simpl. now exists w'.
Qed.

Lemma accumulate_spec (n : nat) : forall (acc : float) (w : World),
  exists w', accumulate env n acc w
             = Returned (fold_left PrimFloat.add (map (fn env) (seq (calls w) n)) acc) w'.
Proof.
  induction n as [|n IH]; intros acc w; simpl.
  - now exists w.
  - unfold bind at 1. unfold call_fn at 1.
    destruct (IH (PrimFloat.add acc (fn env (calls w)))
                 {| ticks := ticks w; calls := S (calls w);
                    trace := trace w ++ [FnCalled] |}) as [w' Hw'].
    rewrite Hw'. simpl. now exists w'.
Qed.

Lemma call_before_spec (count : float) (w : World) :
  exists w', call_before config count w = Returned tt w' /\ calls w' = calls w.
Proof.
  unfold call_before. destruct (before config).
  - eexists. split; reflexivity.
  - exists w. split; reflexivity.
Qed.

(** [cycleDetailed] records one sample per iteration, [count] of them. *)
Lemma cycleDetailed_spec (count : float) (w w' : World) (times : list float)
      (netTime : float) :
  cycleDetailed env config count w = Returned (times, netTime) w' ->
  array_length count = Some (List.length times) /\
  times = map (fn env) (seq (calls w) (List.length times)) /\
  netTime = getSum times.
Proof.
  unfold cycleDetailed, bind.
  destruct (call_before_spec count w) as (w1 & -> & Hc).
  destruct (array_length count) as [n|]; [|discriminate].
  destruct (collect_spec n w1) as [w2 ->]. unfold ret.
  intros [= <- <- <-]. rewrite Hc, length_map, length_seq. auto.
Qed.

(** [cycle] and [cycleSync] record the single sample [netTime / count]. *)
Lemma cycle_spec (count : float) (w w' : World) (times : list float) (netTime : float) :
  cycle env config count w = Returned (times, netTime) w' ->
  times = [PrimFloat.div netTime count].
Proof.
  unfold cycle, bind.
  destruct (call_before_spec count w) as (w1 & -> & Hc).
  destruct (loop_bound count) as [n|]; [|discriminate].
  destruct (accumulate_spec n 0%float w1) as [w2 ->]. unfold ret.
  now intros [= <- <- <-].
Qed.

Lemma cycleSync_spec (count : float) (w w' : World) (times : list float)
      (netTime : float) :
  cycleSync env config count w = Returned (times, netTime) w' ->
  times = [PrimFloat.div netTime count].
Proof. exact (cycle_spec count w w' times netTime). Qed.

Lemma cycleFn_returns (count : float) (w : World) :
  cycle_can_run config count ->
  exists r w', cycleFn env config count count w = Returned r w'.
Proof.
  unfold cycle_can_run, cycleFn.
  destruct (isSync config); [|destruct (PrimFloat.ltb 10000%float count)]; intros H;
    unfold cycleSync, cycle, cycleDetailed, bind;
    destruct (call_before_spec count w) as (w1 & -> & _).
  - destruct (loop_bound count) as [n|]; [|now elim H].
    destruct (accumulate_spec n 0%float w1) as [w2 ->]. unfold ret. eauto.
  - destruct (loop_bound count) as [n|]; [|now elim H].
    destruct (accumulate_spec n 0%float w1) as [w2 ->]. unfold ret. eauto.
  - destruct (array_length count) as [n|]; [|now elim H].
    destruct (collect_spec n w1) as [w2 ->]. unfold ret. eauto.
Qed.

(** What a turn of the loop that runs a cycle does to the loop variables. *)
Lemma loop_body_some (startTime : float) (p p' : Progress) (w w' : World) :
  loop_body env config startTime p w = Returned (Some p') w' ->
  exists (cycleTimes : list float) (netTime : float) (w1 w2 : World),
    JS.truthy (nextIterationCount (state p)) = true /\
    calls w1 = calls w /\
    cycleFn env config (nextIterationCount (state p)) (nextIterationCount (state p)) w1
      = Returned (cycleTimes, netTime) w2 /\
    samples p' = samples p ++ cycleTimes /\
    List.length (cycleDetails p') = S (List.length (cycleDetails p)) /\
    BenchmarkState.cycles (state p')
      = PrimFloat.add (BenchmarkState.cycles (state p)) 1%float /\
    BenchmarkState.elapsedNetTime (state p')
      = PrimFloat.add (BenchmarkState.elapsedNetTime (state p)) netTime.
Proof.
  unfold loop_body.
  destruct (JS.truthy (nextIterationCount (state p))); cbn [negb]; [|discriminate].
  unfold bind at 1. unfold time at 1. unfold bind at 1.
  match goal with
  | |- context [cycleFn ?e ?c ?n ?m ?v] =>
      destruct (cycleFn e c n m v) as [[cycleTimes netTime] w2| | |] eqn:Hc
  end; try discriminate.
  unfold bind, time, emit, ret. intros [= <- <-]. simpl.
  exists cycleTimes, netTime,
    {| ticks := S (ticks w); calls := calls w; trace := trace w |}, w2.
  split; [reflexivity|]. split; [reflexivity|]. split; [exact Hc|].
  split; [reflexivity|]. split; [rewrite length_app; simpl; lia|].
  split; reflexivity.
Qed.

Lemma truthy_or_default (a : option float) (d : float) :
  JS.truthy d = true -> JS.truthy (JS.or_default a d) = true.
Proof.
  intros Hd. destruct a as [x|]; simpl; [|assumption].
  unfold JS.or. now destruct (JS.truthy x) eqn:Hx.
Qed.

Lemma first_count_truthy (setup : float) :
  nextIterationCount (state (initial_progress config setup))
  = JS.or_default (initialCount config) INITIAL_ITERATION_COUNT /\
  JS.truthy (nextIterationCount (state (initial_progress config setup))) = true.
Proof. split; [reflexivity | now apply truthy_or_default]. Qed.

(** The loop never ends before its first cycle. *)
Lemma first_turn_is_a_cycle (startTime setup : float) (w w' : World) :
  loop_body env config startTime (initial_progress config setup) w <> Returned None w'.
Proof.
  unfold loop_body. destruct (first_count_truthy setup) as [_ ->]. cbn [negb].
  unfold bind at 1. unfold time at 1. unfold bind at 1.
  match goal with
  | |- context [cycleFn ?e ?c ?n ?m ?v] =>
      destruct (cycleFn e c n m v) as [[cycleTimes netTime] w2| | |]
  end; discriminate.
Qed.

(** The first cycle completes whenever the cycle function accepts the
    initial count. *)
Lemma first_cycle_completes (startTime setup : float) (w : World) :
  cycle_can_run config (JS.or_default (initialCount config) INITIAL_ITERATION_COUNT) ->
  exists p1 w1,
    loop_body env config startTime (initial_progress config setup) w
      = Returned (Some p1) w1 /\
    BenchmarkState.cycles (state p1) = 1%float /\
    List.length (cycleDetails p1) = 1%nat.
Proof.
  intros Hrun. unfold loop_body.
  destruct (first_count_truthy setup) as [Hn ->]. cbn [negb]. rewrite Hn.
  unfold bind at 1. unfold time at 1. unfold bind at 1.
  destruct (cycleFn_returns _ {| ticks := S (ticks w); calls := calls w;
                                 trace := trace w |} Hrun) as ([times netTime] & w2 & ->).
  unfold bind, time, emit, ret. simpl. eexists. eexists.
  split; [reflexivity|]. split; reflexivity.
Qed.

Lemma run_loop_grows (fuel : nat) (startTime : float) :
  forall (p p' : Progress) (w w' : World),
    run_loop env config fuel startTime p w = Returned p' w' ->
    (List.length (cycleDetails p) <= List.length (cycleDetails p'))%nat.
Proof.
  induction fuel as [|fuel IH]; intros p p' w w'; simpl; [discriminate|].
  unfold bind at 1.
  destruct (loop_body env config startTime p w) as [[p1|] w1| | |] eqn:Hb;
    try discriminate.
  - intros Hr. apply IH in Hr.
    apply loop_body_some in Hb as (? & ? & ? & ? & _ & _ & _ & _ & Hl & _). lia.
  - unfold ret. now intros [= <- <-].
Qed.

Lemma prepare_returns (w : World) :
  exists startTime setup w0, prepare env config w = Returned (startTime, setup) w0.
Proof.
  unfold prepare, bind, time, emit, ret.
  destruct (beforeAll config); do 3 eexists; reflexivity.
Qed.

(** A run that returns a result has executed at least one cycle. *)
Lemma benchmark_has_a_cycle (fuel : nat) (w w' : World) (r : BenchmarkResult.t) :
  benchmark env config fuel w = Returned r w' ->
  BenchmarkResult.cycleDetails r <> [].
Proof.
  unfold benchmark. unfold bind at 1.
  destruct (prepare_returns w) as (startTime & setup & w0 & ->).
  destruct fuel as [|fuel]; [discriminate|].
  unfold bind at 1. simpl run_loop. unfold bind at 1.
  destruct (loop_body env config startTime (initial_progress config setup) w0)
    as [[p1|] w1| | |] eqn:Hb; try discriminate.
  - destruct (run_loop env config fuel startTime p1 w1) as [p' w2| | |] eqn:Hr;
      try discriminate.
    intros [= <- <-]. simpl. apply run_loop_grows in Hr.
    apply loop_body_some in Hb as (? & ? & ? & ? & _ & _ & _ & _ & Hl & _).
    destruct (cycleDetails p'); [simpl in Hr; lia | discriminate].
  - now apply first_turn_is_a_cycle in Hb.
Qed.
End RunnerFacts.

Section RunInvariant.
Variable env : Env.
Variable config : BenchmarkConfig.

Lemma loop_body_timings (startTime : float) (p p' : Progress) (w w' : World) :
  loop_body env config startTime p w = Returned (Some p') w' -> timings_current p'.
Proof.
  unfold loop_body.
  destruct (JS.truthy (nextIterationCount (state p))); cbn [negb]; [|discriminate].
  unfold bind at 1. unfold time at 1. unfold bind at 1.
  match goal with
  | |- context [cycleFn ?e ?c ?n ?m ?v] =>
      destruct (cycleFn e c n m v) as [[cycleTimes netTime] w2| | |]
  end; try discriminate.
  unfold bind, time, emit, ret. intros [= <- <-]. reflexivity.
Qed.

Lemma run_loop_timings (fuel : nat) (startTime : float) :
  forall (p p' : Progress) (w w' : World),
    timings_current p ->
    run_loop env config fuel startTime p w = Returned p' w' -> timings_current p'.
Proof.
  induction fuel as [|fuel IH]; intros p p' w w' Hp; simpl; [discriminate|].
  unfold bind at 1.
  destruct (loop_body env config startTime p w) as [[p1|] w1| | |] eqn:Hb;
    try discriminate.
  - apply IH. now apply loop_body_timings in Hb.
  - unfold ret. now intros [= <- <-].
Qed.

(** The result of a run reports the estimate of its own samples. *)
Lemma benchmark_timings (fuel : nat) (w w' : World) (r : BenchmarkResult.t) :
  benchmark env config fuel w = Returned r w' ->
  BenchmarkResult.meanTime r = Timings.meanTime (getTimings (BenchmarkResult.samples r)) /\
  BenchmarkResult.relativeMarginOfError r
  = Timings.relativeMarginOfError (getTimings (BenchmarkResult.samples r)).
Proof.
  unfold benchmark. unfold bind at 1.
  destruct (prepare_returns env config w) as (startTime & setup & w0 & ->).
  unfold bind at 1.
  destruct (run_loop env config fuel startTime (initial_progress config setup) w0)
    as [p w1| | |] eqn:Hr; try discriminate.
  intros [= <- <-]. apply run_loop_timings in Hr; [|reflexivity].
  unfold result_of. simpl. now rewrite Hr.
Qed.
End RunInvariant.

(** ** Claims about the runner *)

(** C10: a cycle that the runner executes appends its samples to the sample
    sequence; for an asynchronous configuration and a count of at most 10000
    they are the durations of the iterations, one each and as many as the
    count, and otherwise the single sample [netTime / count]. *)
Theorem C10_samples_per_cycle (env : Env) (config : BenchmarkConfig) (startTime : float)
        (p p' : Progress) (w w' : World) :
  loop_body env config startTime p w = Returned (Some p') w' ->
  let count := nextIterationCount (state p) in
  exists (cycleTimes : list float) (netTime : float),
    samples p' = samples p ++ cycleTimes /\
    BenchmarkState.elapsedNetTime (state p')
    = PrimFloat.add (BenchmarkState.elapsedNetTime (state p)) netTime /\
    if (negb (isSync config) && negb (PrimFloat.ltb 10000%float count))%bool
    then JS.length_number cycleTimes = count /\
         cycleTimes = map (fn env) (seq (calls w) (List.length cycleTimes)) /\
         netTime = getSum cycleTimes
    else cycleTimes = [PrimFloat.div netTime count].
Proof.
  intros Hb count.
  apply loop_body_some in Hb
    as (cycleTimes & netTime & w1 & w2 & Ht & Hcalls & Hc & Hs & _ & _ & Hn).
  exists cycleTimes, netTime. split; [exact Hs|]. split; [exact Hn|].
  fold count in Hc. unfold cycleFn in Hc.
  destruct (isSync config); simpl.
  - now apply cycleSync_spec in Hc.
  - destruct (PrimFloat.ltb 10000%float count); simpl.
    + now apply cycle_spec in Hc.
    + apply cycleDetailed_spec in Hc as (Hlen & Htimes & Hnet).
      rewrite Hcalls in Htimes. split; [|now split].
      now apply array_length_number.
Qed.

Lemma C10_samples_per_cycle_witness :
  let config := config_of false None (Some 3%float) in
  let p := initial_progress config 1%float in
  exists (p' : Progress) (cycleTimes : list float) (netTime : float),
    samples p' = samples p ++ cycleTimes /\
    BenchmarkState.elapsedNetTime (state p')
    = PrimFloat.add (BenchmarkState.elapsedNetTime (state p)) netTime /\
    if (negb (isSync config)
        && negb (PrimFloat.ltb 10000%float (nextIterationCount (state p))))%bool
    then JS.length_number cycleTimes = nextIterationCount (state p) /\
         cycleTimes = map (fn steady_env) (seq (calls initial_world) (List.length cycleTimes)) /\
         netTime = getSum cycleTimes
    else cycleTimes = [PrimFloat.div netTime (nextIterationCount (state p))].
Proof.
  cbv zeta. eexists.
  eapply (C10_samples_per_cycle steady_env (config_of false None (Some 3%float)) 0%float
            (initial_progress (config_of false None (Some 3%float)) 1%float) _
            initial_world).
  vm_compute. reflexivity.
Defined.

(** C6 (as stated, refuted): with a budget of 5 seconds, a one-time setup of
    10 seconds and a first cycle of 1 second, the budget is smaller than the
    setup plus the first cycle, yet after the first cycle the scheduler
    returns 1 and a second cycle runs: the setup time is given back to the
    budget. *)
Lemma C6_counterexample :
  let config := config_of false (Some 5%float) (Some 2%float) in
  exists (p1 : Progress) (w1 w2 : World) (r : BenchmarkResult.t),
    loop_body slow_setup_env config 100%float (initial_progress config 10%float)
      {| ticks := 2; calls := 0; trace := [BeforeAllCalled] |} = Returned (Some p1) w1 /\
    BenchmarkState.elapsedTime (state p1) = 11%float /\
    nextIterationCount (state p1) = 1%float /\
    benchmark slow_setup_env config 5 initial_world = Returned r w2 /\
    BenchmarkResult.cycles r = 2%float.
Proof.
  cbv zeta. do 4 eexists.
  split; [vm_compute; reflexivity|].
  split; [reflexivity|]. split; [reflexivity|].
  split; [vm_compute; reflexivity|]. reflexivity.
Qed.

(** C6 (amended): whenever the cycle function accepts the initial count, the
    run completes its first cycle; and if then the budget (30 seconds when
    absent or zero) plus the one-time setup time, which is given back to it,
    does not exceed the elapsed time, the scheduler returns 0 on the next call
    and the run ends with exactly that one cycle. *)
Theorem C6_first_cycle_then_stop (env : Env) (config : BenchmarkConfig) (w : World) :
  cycle_can_run config (JS.or_default (initialCount config) INITIAL_ITERATION_COUNT) ->
  exists (startTime setup : float) (w0 : World) (p1 : Progress) (w1 : World),
    prepare env config w = Returned (startTime, setup) w0 /\
    loop_body env config startTime (initial_progress config setup) w0
      = Returned (Some p1) w1 /\
    List.length (cycleDetails p1) = 1%nat /\
    (PrimFloat.leb (remainingTime (state p1)) 0%float = true ->
     nextIterationCount (state p1) = 0%float /\
     forall fuel : nat,
       benchmark env config (S (S fuel)) w = Returned (result_of p1) w1).
Proof.
  intros Hrun.
  destruct (prepare_returns env config w) as (startTime & setup & w0 & Hp).
  destruct (first_cycle_completes env config startTime setup w0 Hrun)
    as (p1 & w1 & Hb & Hc & Hl).
  exists startTime, setup, w0, p1, w1.
  split; [exact Hp|]. split; [exact Hb|]. split; [exact Hl|].
  intros Hrem.
  assert (Hstop : nextIterationCount (state p1) = 0%float).
  { unfold nextIterationCount. rewrite Hc, Hrem. reflexivity. }
  split; [exact Hstop|]. intros fuel.
  unfold benchmark. unfold bind at 1. rewrite Hp. unfold bind at 1.
  simpl run_loop. unfold bind at 1. rewrite Hb.
  unfold bind at 1. unfold loop_body. rewrite Hstop. reflexivity.
Qed.

Lemma C6_first_cycle_then_stop_witness :
  let config := config_of false (Some 2%float) (Some 3%float) in
  exists (startTime setup : float) (w0 : World) (p1 : Progress) (w1 : World),
    prepare steady_env config initial_world = Returned (startTime, setup) w0 /\
    loop_body steady_env config startTime (initial_progress config setup) w0
      = Returned (Some p1) w1 /\
    List.length (cycleDetails p1) = 1%nat /\
    (PrimFloat.leb (remainingTime (state p1)) 0%float = true ->
     nextIterationCount (state p1) = 0%float /\
     forall fuel : nat,
       benchmark steady_env config (S (S fuel)) initial_world
       = Returned (result_of p1) w1).
Proof.
  apply (C6_first_cycle_then_stop steady_env
           (config_of false (Some 2%float) (Some 3%float)) initial_world).
  vm_compute. discriminate.
Defined.

(** C2 (as stated, refuted): a configuration with a negative budget and an
    initial count of 0 is not rejected: one cycle of one iteration runs and a
    result is returned; with a budget of 0 and a negative initial count, in
    synchronous mode, ten cycles run. *)
Lemma C2_counterexample :
  exists (r r' : BenchmarkResult.t) (w w' : World),
    benchmark steady_env (config_of false (Some (-1)%float) (Some 0%float)) 30 initial_world
      = Returned r w /\
    BenchmarkResult.cycles r = 1%float /\ In FnCalled (trace w) /\
    benchmark steady_env (config_of true (Some 0%float) (Some (-3)%float)) 30 initial_world
      = Returned r' w' /\
    BenchmarkResult.cycles r' = 10%float.
Proof.
  do 4 eexists.
  split; [vm_compute; reflexivity|]. split; [reflexivity|].
  split; [simpl; auto|].
  split; [vm_compute; reflexivity|]. reflexivity.
Qed.

(** C2 (amended): the run validates nothing.  Whatever [maxTime] and
    [initialCount] are, the budget used is [maxTime || 30] and the first
    count is [initialCount || 1], both never zero; the loop never ends before
    its first cycle, which completes whenever the cycle function accepts the
    count; and a run that returns a result has executed at least one
    cycle. *)
Theorem C2_no_validation (env : Env) (config : BenchmarkConfig) :
  let count := JS.or_default (initialCount config) INITIAL_ITERATION_COUNT in
  JS.truthy (JS.or_default (maxTime config) DEFAULT_MAX_TIME) = true /\
  JS.truthy count = true /\
  (forall (startTime setup : float) (w : World),
     nextIterationCount (state (initial_progress config setup)) = count /\
     (forall w', loop_body env config startTime (initial_progress config setup) w
                 <> Returned None w') /\
     (cycle_can_run config count ->
      exists p1 w1, loop_body env config startTime (initial_progress config setup) w
                    = Returned (Some p1) w1)) /\
  (forall (fuel : nat) (w w' : World) (r : BenchmarkResult.t),
     benchmark env config fuel w = Returned r w' ->
     BenchmarkResult.cycleDetails r <> []).
Proof.
  cbv zeta. split; [now apply truthy_or_default|]. split; [now apply truthy_or_default|].
  split.
  - intros startTime setup w. split; [reflexivity|]. split.
    + intros w'. apply first_turn_is_a_cycle.
    + intros Hrun.
      destruct (first_cycle_completes env config startTime setup w Hrun)
        as (p1 & w1 & Hb & _). eauto.
  - intros fuel w w' r. apply benchmark_has_a_cycle.
Qed.

(** ** Claims about merged results *)

Section SumsFromZero.
(** Summing from 0, as [reduce] does, gives the sum of the two numbers, up
    to the sign of a zero result. *)
Lemma sum_from_zero (a b : float) :
  same_number (PrimFloat.add (PrimFloat.add 0%float a) b) (PrimFloat.add a b).
Proof.
  destruct (Prim2SF a) as [[|]|sa| |sa ma ea] eqn:Ea;
    try (left; rewrite add_zero_l; [reflexivity | rewrite Ea; discriminate]).
  apply number_of_spec in Ea. subst a.
  change (PrimFloat.add 0%float (SF2Prim (S754_zero true))) with 0%float.
  change (SF2Prim (S754_zero true)) with PrimFloat.neg_zero.
  destruct (Prim2SF b) as [[|]|sb| |sb mb eb] eqn:Eb.
  - apply number_of_spec in Eb. subst b. right. reflexivity.
  - apply number_of_spec in Eb. subst b. left. reflexivity.
  - left. apply Prim2SF_inj. rewrite !FloatAxioms.add_spec, Eb. reflexivity.
  - left. apply Prim2SF_inj. rewrite !FloatAxioms.add_spec, Eb. reflexivity.
  - left. apply Prim2SF_inj. rewrite !FloatAxioms.add_spec, Eb. reflexivity.
Qed.
End SumsFromZero.

(** C7: merging two results concatenates their samples and their cycle
    details, adds their cycles, iteration counts, elapsed times and setup
    times, and reports the mean and the relative margin of error that the
    estimator computes on the concatenated samples; a single run that
    collected those samples reports exactly the same two values. *)
Theorem C7_add (r1 r2 : BenchmarkResult.t) :
  let merged := BenchmarkResult.add [r1; r2] in
  let all := BenchmarkResult.samples r1 ++ BenchmarkResult.samples r2 in
  BenchmarkResult.samples merged = all /\
  BenchmarkResult.cycleDetails merged
  = BenchmarkResult.cycleDetails r1 ++ BenchmarkResult.cycleDetails r2 /\
  same_number (BenchmarkResult.cycles merged)
              (PrimFloat.add (BenchmarkResult.cycles r1) (BenchmarkResult.cycles r2)) /\
  same_number (BenchmarkResult.iterationCount merged)
              (PrimFloat.add (BenchmarkResult.iterationCount r1)
                             (BenchmarkResult.iterationCount r2)) /\
  same_number (BenchmarkResult.elapsedTime merged)
              (PrimFloat.add (BenchmarkResult.elapsedTime r1) (BenchmarkResult.elapsedTime r2)) /\
  same_number (BenchmarkResult.setUpTime merged)
              (PrimFloat.add (BenchmarkResult.setUpTime r1) (BenchmarkResult.setUpTime r2)) /\
  BenchmarkResult.meanTime merged = Timings.meanTime (getTimings all) /\
  BenchmarkResult.relativeMarginOfError merged
  = Timings.relativeMarginOfError (getTimings all) /\
  (forall (env : Env) (config : BenchmarkConfig) (fuel : nat) (w w' : World)
          (r : BenchmarkResult.t),
     benchmark env config fuel w = Returned r w' ->
     BenchmarkResult.samples r = all ->
     BenchmarkResult.meanTime r = BenchmarkResult.meanTime merged /\
     BenchmarkResult.relativeMarginOfError r
     = BenchmarkResult.relativeMarginOfError merged).
Proof.
  cbv zeta. unfold BenchmarkResult.add, BenchmarkResult.concat, BenchmarkResult.total.
  simpl.
  repeat (split; [first [reflexivity | apply sum_from_zero]|]).
  intros env config fuel w w' r Hrun Hs.
  apply benchmark_timings in Hrun as [-> ->]. now rewrite Hs.
Qed.
(** * Further properties of the engine *)

(** ** The estimate of any sample sequence *)

Section EstimateSigns.
Lemma positive_of_truthy (x : float) :
  not_negative x -> JS.truthy x = true -> PrimFloat.ltb 0%float x = true.
Proof.
  unfold not_negative, JS.truthy. intros Hs Ht.
  rewrite FloatAxioms.ltb_spec. change (Prim2SF 0%float) with (S754_zero false).
  destruct (Prim2SF x) as [s|s| |s m e]; try discriminate;
    simpl in Hs; subst s; reflexivity.
Qed.

Lemma truthy_or_infinity (q : float) : JS.truthy (JS.or q PrimFloat.infinity) = true.
Proof. unfold JS.or. now destruct (JS.truthy q) eqn:Hq. Qed.

Lemma not_negative_or_infinity (q : float) :
  not_negative q -> not_negative (JS.or q PrimFloat.infinity).
Proof. unfold JS.or. now destruct (JS.truthy q). Qed.
End EstimateSigns.

(** X1: the relative margin of error that [getTimings] reports is never [NaN]
    and never zero, whatever the samples; when no sample is negative it is a
    positive number or [+Infinity]. *)
Theorem relativeMarginOfError_positive (samples : list float) :
  JS.truthy (Timings.relativeMarginOfError (getTimings samples)) = true /\
  (Forall not_negative samples ->
   PrimFloat.ltb 0%float (Timings.relativeMarginOfError (getTimings samples)) = true).
Proof.
  unfold getTimings. cbn [Timings.relativeMarginOfError]. split.
  - apply truthy_or_infinity.
  - intros Hnn. apply positive_of_truthy; [|apply truthy_or_infinity].
    apply not_negative_or_infinity, not_negative_div.
    + apply not_negative_marginOfError.
    + now apply not_negative_getMean.
Qed.

Lemma relativeMarginOfError_positive_witness :
  JS.truthy (Timings.relativeMarginOfError (getTimings [1; 2; 4]%float)) = true /\
  PrimFloat.ltb 0%float (Timings.relativeMarginOfError (getTimings [1; 2; 4]%float)) = true.
Proof.
  split.
  - apply (proj1 (relativeMarginOfError_positive [1; 2; 4]%float)).
  - apply (proj2 (relativeMarginOfError_positive [1; 2; 4]%float)).
    repeat constructor.
Defined.

(** X2: the standard deviation, the standard error and the margin of error are
    never negative numbers, whatever the samples are (negative, infinite or
    [NaN] samples included). *)
Theorem deviation_never_negative (samples : list float) :
  not_negative (getStddev samples) /\
  not_negative (standardError samples) /\
  not_negative (marginOfError samples).
Proof.
  split; [apply not_negative_getStddev|]. split; [|apply not_negative_marginOfError].
  unfold standardError. apply not_negative_div; [apply not_negative_getStddev|].
  apply not_negative_sqrt, not_negative_length.
Qed.

Section SingleFiniteSample.
Variable x : float.
Hypothesis x_finite : finite_number x.

Lemma getMean_single : same_number (getMean [x]) x.
Proof.
  unfold finite_number in x_finite.
  destruct (Prim2SF x) as [s|s| |s m e] eqn:Hx; try contradiction.
  - apply number_of_spec in Hx. subst x. destruct s; [right|left]; reflexivity.
  - left. apply getMean_single_finite. now rewrite Hx.
Qed.

Lemma getStddev_single : getStddev [x] = 0%float.
Proof.
  unfold finite_number in x_finite.
  destruct (Prim2SF x) as [s|s| |s m e] eqn:Hx; try contradiction.
  - apply number_of_spec in Hx. subst x. now destruct s.
  - unfold getStddev. simpl map.
    rewrite getMean_single_finite by now rewrite Hx.
    rewrite sub_diag by now rewrite Hx. reflexivity.
Qed.
End SingleFiniteSample.

(** X3: for a single finite sample the mean is the sample itself (up to the
    sign of zero) and the standard deviation and the margin of error are 0. *)
Theorem single_sample_estimate (x : float) :
  finite_number x ->
  same_number (Timings.meanTime (getTimings [x])) x /\
  getStddev [x] = 0%float /\
  marginOfError [x] = 0%float.
Proof.
  intros Hx. split; [now apply getMean_single|]. split; [now apply getStddev_single|].
  unfold marginOfError, standardError. rewrite getStddev_single by assumption.
  reflexivity.
Qed.

Lemma single_sample_estimate_witness :
  same_number (Timings.meanTime (getTimings [0.25%float])) 0.25%float /\
  getStddev [0.25%float] = 0%float /\
  marginOfError [0.25%float] = 0%float.
Proof. apply (single_sample_estimate 0.25%float). exact I. Defined.

(** ** A sample that is not a number *)

Section NaNSamples.
Lemma add_nan_l (y : float) : PrimFloat.add PrimFloat.nan y = PrimFloat.nan.
Proof. apply Prim2SF_inj. rewrite FloatAxioms.add_spec. reflexivity. Qed.

Lemma add_nan_r (x : float) : PrimFloat.add x PrimFloat.nan = PrimFloat.nan.
Proof.
  apply Prim2SF_inj. rewrite FloatAxioms.add_spec.
  change (Prim2SF PrimFloat.nan) with S754_nan. now destruct (Prim2SF x).
Qed.

Lemma div_nan_l (y : float) : PrimFloat.div PrimFloat.nan y = PrimFloat.nan.
Proof. apply Prim2SF_inj. rewrite FloatAxioms.div_spec. reflexivity. Qed.

Lemma div_nan_r (x : float) : PrimFloat.div x PrimFloat.nan = PrimFloat.nan.
Proof.
  apply Prim2SF_inj. rewrite FloatAxioms.div_spec.
  change (Prim2SF PrimFloat.nan) with S754_nan. now destruct (Prim2SF x).
Qed.

Lemma is_nan_eq (x : float) : not_a_number x -> x = PrimFloat.nan.
Proof. intros H. apply Prim2SF_inj. exact H. Qed.

Lemma fold_add_nan (arr : list float) :
  fold_left PrimFloat.add arr PrimFloat.nan = PrimFloat.nan.
Proof.
  induction arr as [|x xs IH]; simpl; [reflexivity|]. now rewrite add_nan_l.
Qed.

Lemma getSum_nan (arr : list float) : forall acc : float,
  Exists not_a_number arr -> fold_left PrimFloat.add arr acc = PrimFloat.nan.
Proof.
  induction arr as [|x xs IH]; intros acc H; inversion H as [? ? Hx|? ? Hxs]; subst; simpl.
  - apply is_nan_eq in Hx. subst x. rewrite add_nan_r. apply fold_add_nan.
  - now apply IH.
Qed.
End NaNSamples.

(** X4: if one of the samples is [NaN] (an operation that reported no
    duration), the mean is [NaN] and the relative margin of error is
    [+Infinity], so that the precision target is never taken as met. *)
Theorem nan_sample_estimate (samples : list float) :
  Exists not_a_number samples ->
  not_a_number (Timings.meanTime (getTimings samples)) /\
  Timings.relativeMarginOfError (getTimings samples) = PrimFloat.infinity /\
  PrimFloat.ltb (Timings.relativeMarginOfError (getTimings samples))
                TARGET_RELATIVE_MARGIN_OF_ERROR = false.
Proof.
  intros H. unfold getTimings. cbn [Timings.meanTime Timings.relativeMarginOfError].
  assert (Hm : getMean samples = PrimFloat.nan).
  { unfold getMean, getSum. rewrite getSum_nan by assumption. apply div_nan_l. }
  rewrite Hm, div_nan_r. repeat split.
Qed.

Lemma nan_sample_estimate_witness :
  not_a_number (Timings.meanTime (getTimings [1; PrimFloat.nan; 2]%float)) /\
  Timings.relativeMarginOfError (getTimings [1; PrimFloat.nan; 2]%float)
  = PrimFloat.infinity /\
  PrimFloat.ltb (Timings.relativeMarginOfError (getTimings [1; PrimFloat.nan; 2]%float))
                TARGET_RELATIVE_MARGIN_OF_ERROR = false.
Proof.
  apply (nan_sample_estimate [1; PrimFloat.nan; 2]%float).
  apply Exists_cons_tl, Exists_cons_hd. reflexivity.
Defined.

(** ** The critical value over all sample counts *)

Section CriticalValueRange.
Local Open Scope Z_scope.

(** Every entry of the table lies between 1.96 and 12.706. *)
Lemma critical_of_df_table :
  forallb (fun c => PrimFloat.leb 1.96%float c && PrimFloat.leb c 12.706%float)%bool
          (map snd tTable) = true.
Proof. vm_compute. reflexivity. Qed.

Lemma criticalValue_cases (samples : list float) :
  criticalValue samples = tTable_infinity \/ In (criticalValue samples) (map snd tTable).
Proof.
  unfold criticalValue.
  destruct (tTable_at _) as [c|] eqn:Hc; simpl; [right|now left].
  unfold tTable_at in Hc. destruct (JS.property_key _); [|discriminate].
  apply get_property_in in Hc.
  pose proof (proj1 (Forall_forall _ _) tTable_positive c Hc) as Hp.
  now rewrite or_positive_finite.
Qed.

(** The entries of the table decrease with the degrees of freedom and stay
    above 1.96. *)
Lemma tTable_decreasing :
  forallb (fun i =>
    forallb (fun j =>
      PrimFloat.leb (JS.or_default (get_property tTable (JS.number_key (Z.of_nat j)))
                                   tTable_infinity)
                    (JS.or_default (get_property tTable (JS.number_key (Z.of_nat i)))
                                   tTable_infinity))
      (seq i (32 - i)))
    (seq 1 31) = true.
Proof. vm_compute. reflexivity. Qed.

Lemma critical_of_df_monotone (i j : Z) :
  1 <= i <= j ->
  PrimFloat.leb (JS.or_default (get_property tTable (JS.number_key j)) tTable_infinity)
                (JS.or_default (get_property tTable (JS.number_key i)) tTable_infinity)
  = true.
Proof.
  intros Hij.
  destruct (Z_lt_le_dec 30 i) as [Hi|Hi].
  - rewrite !tTable_outside by lia. reflexivity.
  - assert (Hj : exists j', (Z.to_nat i <= j' <= 31)%nat /\
               JS.or_default (get_property tTable (JS.number_key j)) tTable_infinity
               = JS.or_default (get_property tTable (JS.number_key (Z.of_nat j')))
                               tTable_infinity).
    { destruct (Z_lt_le_dec 30 j) as [Hj|Hj].
      - exists 31%nat. split; [lia|]. rewrite !tTable_outside by lia. reflexivity.
      - exists (Z.to_nat j). split; [lia|]. now rewrite Z2Nat.id by lia. }
    destruct Hj as (j' & Hj' & ->).
    pose proof tTable_decreasing as H.
    rewrite forallb_forall in H. specialize (H (Z.to_nat i)).
    rewrite forallb_forall in H.
    replace (JS.number_key i) with (JS.number_key (Z.of_nat (Z.to_nat i)))
      by (now rewrite Z2Nat.id by lia).
    apply H; apply in_seq; lia.
Qed.
End CriticalValueRange.

(** X5: whatever the samples, the critical value is a number between 1.96 and
    12.706: the lookup never yields [undefined] or [NaN]. *)
Theorem criticalValue_range (samples : list float) :
  PrimFloat.leb 1.96%float (criticalValue samples) = true /\
  PrimFloat.leb (criticalValue samples) 12.706%float = true.
Proof.
  apply andb_prop.
  destruct (criticalValue_cases samples) as [-> | Hin]; [reflexivity|].
  pose proof critical_of_df_table as H. rewrite forallb_forall in H.
  exact (H _ Hin).
Qed.

(** X6: from one sample on, more samples never give a larger critical value:
    the table decreases with the degrees of freedom down to its entry for
    infinity. *)
Theorem criticalValue_decreases (s1 s2 : list float) :
  (1 <= List.length s1 <= List.length s2)%nat ->
  (Z.of_nat (List.length s2) < 2 ^ 32)%Z ->
  PrimFloat.leb (criticalValue s2) (criticalValue s1) = true.
Proof.
  intros Hlen Hmax.
  assert (H1 : forall s : list float, List.length s = 1%nat ->
               criticalValue s
               = JS.or_default (get_property tTable (JS.number_key 1)) tTable_infinity).
  { intros s Hs. unfold criticalValue, degreesOfFreedom, JS.length_number.
    rewrite Hs. reflexivity. }
  destruct (Nat.eq_dec (List.length s1) 1) as [E1|N1];
    destruct (Nat.eq_dec (List.length s2) 1) as [E2|N2].
  - rewrite (H1 s1 E1), (H1 s2 E2). reflexivity.
  - rewrite (H1 s1 E1), (criticalValue_by_length s2) by lia.
    apply critical_of_df_monotone. lia.
  - lia.
  - rewrite (criticalValue_by_length s1), (criticalValue_by_length s2) by lia.
    apply critical_of_df_monotone. lia.
Qed.

Lemma criticalValue_decreases_witness :
  PrimFloat.leb (criticalValue [1; 2; 3; 4]%float) (criticalValue [1; 2]%float) = true.
Proof.
  apply (criticalValue_decreases [1; 2]%float [1; 2; 3; 4]%float).
  - simpl. lia.
  - vm_compute. reflexivity.
Defined.

(** ** The order of binary64 numbers *)

Section Binary64Comparison.
Lemma SFcompare_antisym (x y : spec_float) :
  SFcompare y x = option_map CompOpp (SFcompare x y).
Proof.
  destruct x as [sx|sx| |sx mx ex], y as [sy|sy| |sy my ey]; simpl;
    try reflexivity; try (destruct sx; reflexivity); try (destruct sy; reflexivity);
    try (destruct sx, sy; reflexivity).
  change (PosDef.Pos.compare_cont Eq mx my) with (Pos.compare mx my).
  change (PosDef.Pos.compare_cont Eq my mx) with (Pos.compare my mx).
  rewrite (Z.compare_antisym ex ey), (Pos.compare_antisym mx my).
  destruct sx, sy; try reflexivity;
    destruct (ex ?= ey)%Z; simpl; reflexivity.
Qed.

Lemma SFcompare_none (x y : spec_float) :
  SFcompare x y = None -> x = S754_nan \/ y = S754_nan.
Proof.
  destruct x as [sx|sx| |sx mx ex], y as [sy|sy| |sy my ey]; simpl;
    try discriminate; auto.
Qed.

Lemma SFcompare_refl (x : spec_float) : x <> S754_nan -> SFcompare x x = Some Eq.
Proof.
  destruct x as [s|s| |s m e]; simpl; intros H; try reflexivity.
  - now destruct s.
  - now elim H.
  - rewrite Z.compare_refl.
    change (PosDef.Pos.compare_cont Eq m m) with (Pos.compare m m).
    rewrite Pos.compare_refl. now destruct s.
Qed.

Lemma is_nan_false (x : float) : PrimFloat.is_nan x = false -> Prim2SF x <> S754_nan.
Proof.
  unfold PrimFloat.is_nan. rewrite FloatAxioms.eqb_spec. intros H E.
  rewrite E in H. discriminate H.
Qed.

(** [Math.min] is below both its arguments, unless it is [NaN]. *)
Lemma Math_min_below (a b : float) :
  not_a_number (JS.Math_min a b) \/
  (PrimFloat.leb (JS.Math_min a b) a = true /\ PrimFloat.leb (JS.Math_min a b) b = true).
Proof.
  unfold JS.Math_min.
  destruct (PrimFloat.is_nan a) eqn:Na; [now left|].
  destruct (PrimFloat.is_nan b) eqn:Nb; [now left|]. cbn [orb]. right.
  apply is_nan_false in Na, Nb.
  pose proof (SFcompare_refl _ Na) as Ra. pose proof (SFcompare_refl _ Nb) as Rb.
  pose proof (SFcompare_antisym (Prim2SF a) (Prim2SF b)) as Hab.
  rewrite !FloatAxioms.ltb_spec. unfold SFltb.
  assert (Haa : PrimFloat.leb a a = true)
    by (rewrite FloatAxioms.leb_spec; unfold SFleb; now rewrite Ra).
  assert (Hbb : PrimFloat.leb b b = true)
    by (rewrite FloatAxioms.leb_spec; unfold SFleb; now rewrite Rb).
  destruct (SFcompare (Prim2SF a) (Prim2SF b)) as [[| |]|] eqn:C;
    rewrite ?Hab; cbn [option_map CompOpp].
  - destruct (PrimFloat.get_sign a); split; try assumption;
      rewrite FloatAxioms.leb_spec; unfold SFleb; rewrite ?C, ?Hab; reflexivity.
  - split; [assumption|]. rewrite FloatAxioms.leb_spec. unfold SFleb. now rewrite C.
  - split; [|assumption]. rewrite FloatAxioms.leb_spec. unfold SFleb. now rewrite Hab.
  - apply SFcompare_none in C as [C|C]; contradiction.
Qed.
End Binary64Comparison.

(** X7: whatever the state, the net time that the scheduler plans for the next
    cycle is at most the target cycle time of 3 seconds and at most the
    remaining net time divided by the error factor, and the error factor is at
    most 10; each of the two can only be larger by being [NaN]. *)
Theorem targetNetTime_capped (state : BenchmarkState.t) :
  (not_a_number (errorFactor state) \/ PrimFloat.leb (errorFactor state) 10%float = true) /\
  (not_a_number (targetNetTime state) \/
   (PrimFloat.leb (targetNetTime state) 3%float = true /\
    PrimFloat.leb (targetNetTime state)
                  (PrimFloat.div (remainingNetTime state) (errorFactor state)) = true)).
Proof.
  split.
  - unfold errorFactor. destruct (Math_min_below
      (PrimFloat.add (Timings.relativeMarginOfError (BenchmarkState.timings state)) 1%float)
      10%float) as [H|[_ H]]; [now left | now right].
  - unfold targetNetTime. change TARGET_CYCLE_TIME with 3%float.
    destruct (Math_min_below
                (PrimFloat.div (remainingNetTime state) (errorFactor state)) 3%float)
      as [H|[H1 H2]]; [now left | right; now split].
Qed.

(** ** Sums of numbers that are not negative *)

Section Binary64PositiveSums.
Local Open Scope Z_scope.

Lemma shl_align_exponent (m : positive) (e e' : Z) :
  emin <= e -> emin <= e' -> emin <= snd (shl_align m e e').
Proof. unfold shl_align. intros He He'. now destruct (e' - e). Qed.

Lemma binary_normalize_pos (m e : Z) :
  0 < m -> emin <= e ->
  (exists m' e', binary_normalize prec emax m e false = S754_finite false m' e')
  \/ binary_normalize prec emax m e false = S754_infinity false.
Proof.
  intros Hm He. destruct m as [|p|p]; try lia.
  unfold binary_normalize, binary_round.
  pose proof (shl_align_exponent p e (fexp prec emax (Zpos (digits2_pos p) + e)) He) as Hs.
  destruct (shl_align p e (fexp prec emax (Zpos (digits2_pos p) + e))) as [mz ez].
  apply binary_round_aux_pos; [lia|]. apply Hs. fexp_lia.
Qed.

(** The sum of a number that is not negative and a positive finite number
    is positive: a positive finite number or [+Infinity]. *)
Lemma SFadd_positive (x : spec_float) (m : positive) (e : Z) :
  valid_binary x = true -> has_sign false x -> x <> S754_nan ->
  bounded prec emax m e = true ->
  (exists m' e', SF64add x (S754_finite false m e) = S754_finite false m' e')
  \/ SF64add x (S754_finite false m e) = S754_infinity false.
Proof.
  intros Hv Hs Hn Hb. destruct x as [s|s| |s mx ex]; simpl in Hs; subst; try now elim Hn.
  - left. now exists m, e.
  - now right.
  - unfold SF64add, SFadd. cbn [cond_Zopp].
    simpl in Hv. apply bounded_inv in Hv as (Hex & _). apply bounded_inv in Hb as (He & _).
    apply binary_normalize_pos; [lia|]. change emin with (-1074). lia.
Qed.
End Binary64PositiveSums.

Section PositiveNumbers.
(** Adding a positive finite number to a number that is not negative gives
    a positive number. *)
Lemma add_positive (x y : float) :
  not_negative x -> ~ not_a_number x -> positive_finite y ->
  positive_finite (PrimFloat.add x y) \/ PrimFloat.add x y = PrimFloat.infinity.
Proof.
  unfold not_negative, not_a_number, positive_finite. intros Hs Hn Hy.
  pose proof (Prim2SF_valid y) as Hvy.
  destruct (Prim2SF y) as [sy|sy| |[|] my ey] eqn:Ey; try contradiction.
  destruct (SFadd_positive (Prim2SF x) my ey (Prim2SF_valid x) Hs Hn Hvy)
    as [(m' & e' & H)|H].
  - left. now rewrite FloatAxioms.add_spec, Ey, H.
  - right. apply Prim2SF_inj. now rewrite FloatAxioms.add_spec, Ey, H.
Qed.

Lemma positive_above_zero (x : float) :
  positive_finite x \/ x = PrimFloat.infinity -> PrimFloat.ltb 0%float x = true.
Proof.
  unfold positive_finite. rewrite FloatAxioms.ltb_spec.
  change (Prim2SF 0%float) with (S754_zero false).
  intros [H| ->]; [|reflexivity].
  destruct (Prim2SF x) as [s|s| |[|] m e]; try contradiction. reflexivity.
Qed.

Lemma above_zero_positive (x : float) :
  PrimFloat.ltb 0%float x = true -> not_negative x /\ ~ not_a_number x.
Proof.
  unfold not_negative, not_a_number. rewrite FloatAxioms.ltb_spec.
  change (Prim2SF 0%float) with (S754_zero false).
  destruct (Prim2SF x) as [s|[|]| |[|] m e]; simpl; try discriminate;
    intros _; split; try reflexivity; discriminate.
Qed.

(** The least of a positive number and 10 is a positive finite number. *)
Lemma Math_min_ten (a : float) :
  positive_finite a \/ a = PrimFloat.infinity ->
  positive_finite (JS.Math_min a 10%float).
Proof.
  intros Ha. unfold JS.Math_min.
  assert (Hn : PrimFloat.is_nan a = false).
  { unfold PrimFloat.is_nan. rewrite FloatAxioms.eqb_spec. unfold SFeqb.
    rewrite SFcompare_refl; [reflexivity|].
    destruct Ha as [Ha| ->]; [|discriminate].
    unfold positive_finite in Ha. destruct (Prim2SF a); try contradiction; discriminate. }
  rewrite Hn. change (PrimFloat.is_nan 10%float) with false. cbn [orb].
  destruct Ha as [Ha| ->]; [|reflexivity].
  destruct (PrimFloat.ltb a 10%float); [exact Ha|].
  destruct (PrimFloat.ltb 10%float a); [exact I|].
  destruct (PrimFloat.get_sign a); [exact Ha | exact I].
Qed.
End PositiveNumbers.

(** X8: in a state whose timings are the estimate of some samples and whose
    precision target is not met, the error factor is a positive finite number
    of at most 10: the division of the remaining time by it is never a
    division by zero or by [NaN]. *)
Theorem errorFactor_in_range (state : BenchmarkState.t) (samples : list float) :
  BenchmarkState.timings state = getTimings samples ->
  PrimFloat.ltb (Timings.relativeMarginOfError (BenchmarkState.timings state))
                TARGET_RELATIVE_MARGIN_OF_ERROR = false ->
  positive_finite (errorFactor state) /\
  PrimFloat.leb (errorFactor state) 10%float = true.
Proof.
  intros Ht Hl.
  assert (Hp : positive_finite (errorFactor state)).
  { unfold errorFactor. apply Math_min_ten, add_positive; [| |exact I].
    - now apply relativeMarginOfError_not_negative.
    - rewrite Ht. intros Hn.
      pose proof (truthy_or_infinity
                    (PrimFloat.div (marginOfError samples) (getMean samples))) as Htr.
      unfold getTimings in Hn. cbn [Timings.relativeMarginOfError] in Hn.
      unfold JS.truthy in Htr. unfold not_a_number in Hn. rewrite Hn in Htr. discriminate. }
  split; [exact Hp|].
  unfold errorFactor in Hp |- *.
  destruct (Math_min_below
              (PrimFloat.add (Timings.relativeMarginOfError (BenchmarkState.timings state))
                             1%float) 10%float) as [Hn|[_ Hle]]; [|exact Hle].
  unfold positive_finite in Hp. unfold not_a_number in Hn. rewrite Hn in Hp. contradiction.
Qed.

Lemma errorFactor_in_range_witness :
  positive_finite (errorFactor (state_after_first_cycle None)) /\
  PrimFloat.leb (errorFactor (state_after_first_cycle None)) 10%float = true.
Proof.
  apply (errorFactor_in_range (state_after_first_cycle None) [0.25; 0.25]%float);
    reflexivity.
Defined.

(** ** Adding one to an integer *)

Section Binary64IntegerSuccessor.
Local Open Scope Z_scope.

Lemma integer_repr_digits (q M : positive) (d : Z) :
  1 <= d <= 53 -> Zpos (digits2_pos q) = d -> Zpos M = Zpos q * 2 ^ (53 - d) ->
  Zpos (digits2_pos M) = 53.
Proof.
  intros Hd Hq HM. apply digits2_pos_unique. rewrite HM.
  pose proof (digits2_pos_bounds q) as [Hlq Hhq]. rewrite Hq in Hlq, Hhq.
  replace (2 ^ (53 - 1)) with (2 ^ (d - 1) * 2 ^ (53 - d))
    by (rewrite <- Z.pow_add_r by lia; f_equal; lia).
  replace (2 ^ 53) with (2 ^ d * 2 ^ (53 - d))
    by (rewrite <- Z.pow_add_r by lia; f_equal; lia).
  assert (0 < 2 ^ (53 - d)) by (apply Z.pow_pos_nonneg; lia). nia.
Qed.

(** A 53-bit mantissa followed by [d - 1] zero bits, at the exponent of the
    units, normalizes to that mantissa. *)
Lemma binary_normalize_aligned (M : positive) (d : Z) :
  1 <= d <= 53 -> Zpos (digits2_pos M) = 53 ->
  bounded prec emax M (d - 53) = true ->
  binary_normalize prec emax (Zpos M * 2 ^ (d - 1)) (-52) false
  = S754_finite false M (d - 53).
Proof.
  intros Hd HdM Hb.
  assert (HP : 0 < Zpos M * 2 ^ (d - 1))
    by (apply Z.mul_pos_pos; [lia | apply Z.pow_pos_nonneg; lia]).
  destruct (Zpos M * 2 ^ (d - 1)) as [|P|P] eqn:EP; try lia.
  unfold binary_normalize, binary_round.
  assert (HdP : Zpos (digits2_pos P) = 53 + (d - 1)).
  { apply digits2_pos_unique. rewrite <- EP.
    pose proof (digits2_pos_bounds M) as [Hlo Hhi].
    rewrite HdM in Hlo, Hhi.
    replace (53 + (d - 1) - 1) with (53 - 1 + (d - 1)) by lia.
    rewrite !Z.pow_add_r by lia.
    assert (0 < 2 ^ (d - 1)) by (apply Z.pow_pos_nonneg; lia). nia. }
  rewrite HdP.
  assert (Hf : fexp prec emax (53 + (d - 1) + -52) = d - 53).
  { fexp_lia. }
  rewrite Hf. unfold shl_align.
  destruct (d - 53 - -52) as [|n|n] eqn:En; try lia.
  - rewrite <- EP. replace (d - 1) with 0 by lia.
    rewrite (binary_round_aux_shift false M (-52) 0); [f_equal; lia | lia |].
    replace (-52 + 0) with (d - 53) by lia. exact Hb.
  - rewrite <- EP.
    rewrite (binary_round_aux_shift false M (-52) (d - 1)); [f_equal; lia | lia |].
    replace (-52 + (d - 1)) with (d - 53) by lia. exact Hb.
Qed.

(** Adding 1 to an integer below [2^53 - 1] is exact. *)
Lemma SFadd_integer_one (p q : positive) :
  Zpos q < 2 ^ 53 -> Zpos q = Zpos p + 1 ->
  SF64add (integer_repr p) (integer_repr 1) = integer_repr q.
Proof.
  intros Hq Hpq.
  destruct (integer_repr_parts p ltac:(lia)) as (Mp & -> & HMp & Hdp & _).
  destruct (integer_repr_parts q Hq) as (Mq & -> & HMq & Hdq & Hbq).
  change (integer_repr 1) with (S754_finite false 4503599627370496 (-52)).
  pose proof (integer_repr_digits q Mq _ Hdq eq_refl HMq) as HdMq.
  assert (Hdq2 : 2 <= Zpos (digits2_pos q)).
  { pose proof (digits2_pos_bounds q) as [_ Hhi].
    destruct (Z_le_gt_dec 2 (Zpos (digits2_pos q))) as [|Hlt]; [assumption|exfalso].
    replace (Zpos (digits2_pos q)) with 1 in Hhi by lia. simpl in Hhi. lia. }
  set (dp := Zpos (digits2_pos p)) in *. set (dq := Zpos (digits2_pos q)) in *.
  unfold SF64add, SFadd.
  rewrite Z.min_r by lia. rewrite shl_align_same. cbn [fst cond_Zopp].
  assert (Hsum : Zpos (fst (shl_align Mp (dp - 53) (-52))) + 4503599627370496
                 = Zpos Mq * 2 ^ (dq - 1)).
  { assert (Hl : Zpos (fst (shl_align Mp (dp - 53) (-52)))
                 = Zpos p * 4503599627370496).
    { destruct (Z.eq_dec dp 1) as [E|N].
      - rewrite E. change (1 - 53) with (-52). rewrite shl_align_same. cbn [fst].
        rewrite HMp, E. reflexivity.
      - rewrite shl_align_below by lia. rewrite HMp.
        rewrite <- Z.mul_assoc, <- Z.pow_add_r by lia.
        replace (53 - dp + (dp - 53 - -52)) with 52 by lia. reflexivity. }
    rewrite Hl, HMq. rewrite <- Z.mul_assoc, <- Z.pow_add_r by lia.
    replace (53 - dq + (dq - 1)) with 52 by lia.
    change (2 ^ 52) with 4503599627370496. lia. }
  rewrite Hsum. now apply binary_normalize_aligned.
Qed.
End Binary64IntegerSuccessor.

Section Counting.
Local Open Scope Z_scope.

(** [n + 1] is computed exactly for an integer [n] with [0 <= n < 2^53 - 1]. *)
Lemma add_one_exact (n : Z) :
  0 <= n -> n + 1 < 2 ^ 53 -> PrimFloat.add (JS.of_Z n) 1%float = JS.of_Z (n + 1).
Proof.
  intros H0 Hn. destruct (Z.eq_dec n 0) as [->|Hnz]; [reflexivity|].
  apply Prim2SF_inj.
  rewrite FloatAxioms.add_spec, !of_Z_repr by lia.
  change (Prim2SF 1%float) with (integer_repr 1).
  apply SFadd_integer_one; rewrite ?Z2Pos.id; lia.
Qed.
End Counting.

(** ** The steps of a run *)

Section RunSteps.
Variable env : Env.
Variable config : BenchmarkConfig.

Lemma collect_world (n : nat) : forall w : World,
  collect env n w
  = Returned (map (fn env) (seq (calls w) n))
             {| ticks := ticks w; calls := calls w + n;
                trace := trace w ++ repeat FnCalled n |}.
Proof.
  induction n as [|n IH]; intros w; simpl.
  - unfold ret. destruct w as [t c tr]. simpl. now rewrite Nat.add_0_r, app_nil_r.
  - unfold bind at 1. unfold call_fn at 1. unfold bind at 1. rewrite IH.
    unfold ret. simpl. rewrite <- app_assoc, Nat.add_succ_r. reflexivity.
Qed.

Lemma accumulate_world (n : nat) : forall (acc : float) (w : World),
  accumulate env n acc w
  = Returned (fold_left PrimFloat.add (map (fn env) (seq (calls w) n)) acc)
             {| ticks := ticks w; calls := calls w + n;
                trace := trace w ++ repeat FnCalled n |}.
Proof.
  induction n as [|n IH]; intros acc w; simpl.
  - unfold ret. destruct w as [t c tr]. simpl. now rewrite Nat.add_0_r, app_nil_r.
  - unfold bind at 1. unfold call_fn at 1. rewrite IH.
    simpl. rewrite <- app_assoc, Nat.add_succ_r. reflexivity.
Qed.

Lemma call_before_world (count : float) (w : World) :
  call_before config count w
  = Returned tt {| ticks := ticks w; calls := calls w;
                   trace := trace w ++ (if before config then [BeforeCalled count] else []) |}.
Proof.
  unfold call_before. destruct (before config); [reflexivity|].
  unfold ret. destruct w as [t c tr]. simpl. now rewrite app_nil_r.
Qed.

(** What a cycle function does to the world: the hook, then [k] calls of the
    operation, and no reading of the clock. *)
Lemma cycleFn_world (count : float) (w w2 : World) (r : list float * float) :
  cycleFn env config count count w = Returned r w2 ->
  exists k : nat,
    ticks w2 = ticks w /\ calls w2 = calls w + k /\
    trace w2 = trace w ++ (if before config then [BeforeCalled count] else [])
                       ++ repeat FnCalled k /\
    (isSync config = false -> PrimFloat.ltb 10000%float count = false ->
     r = (map (fn env) (seq (calls w) k), getSum (map (fn env) (seq (calls w) k)))).
Proof.
  unfold cycleFn.
  destruct (isSync config); [|destruct (PrimFloat.ltb 10000%float count)];
    unfold cycleSync, cycle, cycleDetailed, bind; rewrite call_before_world.
  - destruct (loop_bound count) as [n|]; [|discriminate].
    rewrite accumulate_world. unfold ret. intros [= <- <-]. exists n. simpl.
    rewrite app_assoc. repeat split; discriminate.
  - destruct (loop_bound count) as [n|]; [|discriminate].
    rewrite accumulate_world. unfold ret. intros [= <- <-]. exists n. simpl.
    rewrite app_assoc. repeat split; discriminate.
  - destruct (array_length count) as [n|]; [|discriminate].
    rewrite collect_world. unfold ret. intros [= <- <-]. exists n. simpl.
    rewrite app_assoc. repeat split.
Qed.

(** A turn of the loop that breaks leaves everything as it was. *)
Lemma loop_body_none (startTime : float) (p : Progress) (w w' : World) :
  loop_body env config startTime p w = Returned None w' ->
  w' = w /\ JS.truthy (nextIterationCount (state p)) = false.
Proof.
  unfold loop_body.
  destruct (JS.truthy (nextIterationCount (state p))); cbn [negb].
  - unfold bind at 1. unfold time at 1. unfold bind at 1.
    match goal with
    | |- context [cycleFn ?e ?c ?n ?m ?v] =>
        destruct (cycleFn e c n m v) as [[cycleTimes netTime] w2| | |]
    end; try discriminate.
  - unfold ret. now intros [= <-].
Qed.

(** A turn of the loop that runs a cycle, in full. *)
Lemma loop_body_step (startTime : float) (p p' : Progress) (w w' : World) :
  loop_body env config startTime p w = Returned (Some p') w' ->
  exists (d : BenchmarkCycleDetails.t) (cycleTimes : list float) (netTime : float)
         (k : nat),
    let count := nextIterationCount (state p) in
    JS.truthy count = true /\
    (* the loop variables *)
    samples p' = samples p ++ cycleTimes /\
    cycleDetails p' = cycleDetails p ++ [d] /\
    (isSync config = false -> PrimFloat.ltb 10000%float count = false ->
     cycleTimes = map (fn env) (seq (calls w) k)) /\
    (* the state *)
    BenchmarkState.timings (state p') = getTimings (samples p') /\
    BenchmarkState.config (state p') = BenchmarkState.config (state p) /\
    BenchmarkState.cycles (state p')
    = PrimFloat.add (BenchmarkState.cycles (state p)) 1%float /\
    BenchmarkState.iterationCount (state p')
    = PrimFloat.add (BenchmarkState.iterationCount (state p)) count /\
    BenchmarkState.elapsedTime (state p')
    = PrimFloat.sub (clock env (S (S (ticks w)))) startTime /\
    BenchmarkState.elapsedNetTime (state p')
    = PrimFloat.add (BenchmarkState.elapsedNetTime (state p)) netTime /\
    BenchmarkState.elapsedCycleGrossTime (state p')
    = PrimFloat.add (BenchmarkState.elapsedCycleGrossTime (state p))
                    (PrimFloat.sub (clock env (S (ticks w))) (clock env (ticks w))) /\
    BenchmarkState.elapsedTimeForInitialSetUp (state p')
    = BenchmarkState.elapsedTimeForInitialSetUp (state p) /\
    (* the report *)
    BenchmarkCycleDetails.name d = name config /\
    BenchmarkCycleDetails.index d
    = PrimFloat.sub (BenchmarkState.cycles (state p')) 1%float /\
    BenchmarkCycleDetails.iterationCount d = count /\
    BenchmarkCycleDetails.elapsedTime d = BenchmarkState.elapsedTime (state p') /\
    BenchmarkCycleDetails.setUpTime d
    = PrimFloat.sub (BenchmarkState.elapsedTime (state p'))
                    (BenchmarkState.elapsedNetTime (state p')) /\
    BenchmarkCycleDetails.timingsSoFar d = BenchmarkState.timings (state p') /\
    (* the world *)
    ticks w' = S (S (S (ticks w))) /\
    calls w' = calls w + k /\
    trace w' = trace w ++ cycle_events config d k.
Proof.
  unfold loop_body.
  destruct (JS.truthy (nextIterationCount (state p))); cbn [negb]; [|discriminate].
  unfold bind at 1. unfold time at 1. unfold bind at 1.
  match goal with
  | |- context [cycleFn ?e ?c ?n ?m ?v] =>
      destruct (cycleFn e c n m v) as [[cycleTimes netTime] w2| | |] eqn:Hc
  end; try discriminate.
  apply cycleFn_world in Hc as (k & Ht & Hk & Htr & Hdet). simpl in Ht, Hk, Htr, Hdet.
  unfold bind, time, emit, ret. rewrite Ht. intros [= <- <-].
  eexists _, cycleTimes, netTime, k. cbv zeta. cbn.
  repeat (split; [reflexivity|]).
  split; [intros Hs Hl; now injection (Hdet Hs Hl)|].
  repeat (split; [reflexivity|]).
  split; [exact Hk|].
  rewrite Htr. unfold cycle_events. cbn. now rewrite <- !app_assoc.
Qed.

(** An invariant of the loop variables and the world holds for what the
    loop returns, and the loop returns when the scheduler says stop. *)
Lemma run_loop_invariant (I : Progress -> World -> Prop) (startTime : float) :
  (forall (p p' : Progress) (w w' : World),
     I p w -> loop_body env config startTime p w = Returned (Some p') w' -> I p' w') ->
  forall (fuel : nat) (p p' : Progress) (w w' : World),
    I p w -> run_loop env config fuel startTime p w = Returned p' w' ->
    I p' w' /\ JS.truthy (nextIterationCount (state p')) = false.
Proof.
  intros Hstep. induction fuel as [|fuel IH]; intros p p' w w' Hp; simpl; [discriminate|].
  unfold bind at 1.
  destruct (loop_body env config startTime p w) as [[p1|] w1| | |] eqn:Hb;
    try discriminate.
  - apply IH. now apply (Hstep p p1 w w1).
  - unfold ret. intros [= <- <-]. apply loop_body_none in Hb as [-> Hf]. now split.
Qed.

(** A run is its one-time setup followed by the loop. *)
Lemma benchmark_run (fuel : nat) (w w' : World) (r : BenchmarkResult.t) :
  benchmark env config fuel w = Returned r w' ->
  exists (p : Progress) (w0 : World),
    let startTime := clock env (ticks w) in
    let setup := PrimFloat.sub (clock env (S (ticks w))) startTime in
    ticks w0 = S (S (ticks w)) /\ calls w0 = calls w /\
    trace w0 = trace w ++ setup_events config /\
    run_loop env config fuel startTime (initial_progress config setup) w0
    = Returned p w' /\
    r = result_of p.
Proof.
  unfold benchmark, prepare, setup_events. unfold bind at 1 2 3. unfold time at 1.
  destruct (beforeAll config); unfold emit, ret, bind at 1, time at 1; cbn;
    unfold bind;
    match goal with
    | |- context [run_loop ?e ?c ?f ?s ?q ?v] =>
        destruct (run_loop e c f s q v) as [p w1| | |] eqn:Hr
    end; try discriminate;
    intros [= <- <-]; eexists p, _; cbv zeta; rewrite Hr; cbn;
    rewrite ?app_nil_r; repeat split.
Qed.
End RunSteps.

(** ** What a whole run guarantees *)

Section RunFacts.
Variable env : Env.
Variable config : BenchmarkConfig.

Lemma run_returns_progress (fuel : nat) (w w' : World) (r : BenchmarkResult.t)
      (I : Progress -> World -> Prop) :
  benchmark env config fuel w = Returned r w' ->
  (forall (setup : float) (w0 : World),
     ticks w0 = S (S (ticks w)) -> calls w0 = calls w ->
     trace w0 = trace w ++ setup_events config ->
     I (initial_progress config setup) w0) ->
  (forall (p p' : Progress) (w1 w2 : World),
     I p w1 ->
     loop_body env config (clock env (ticks w)) p w1 = Returned (Some p') w2 ->
     I p' w2) ->
  exists p : Progress, r = result_of p /\ I p w'.
Proof.
  intros Hrun Hinit Hstep.
  apply benchmark_run in Hrun as (p & w0 & Ht & Hc & Htr & Hloop & ->).
  exists p. split; [reflexivity|].
  eapply run_loop_invariant in Hloop as [Hp _]; [exact Hp | exact Hstep |].
  now apply Hinit.
Qed.
End RunFacts.

(** X9: in an asynchronous run whose cycles all have at most 10000 iterations,
    the samples are exactly the durations that the operation reported, one per
    call and in the order of the calls. *)
Theorem samples_are_reported_durations (env : Env) (config : BenchmarkConfig) (fuel : nat)
        (w w' : World) (r : BenchmarkResult.t) :
  benchmark env config fuel w = Returned r w' ->
  isSync config = false ->
  Forall (fun d => PrimFloat.ltb 10000%float (BenchmarkCycleDetails.iterationCount d) = false)
         (BenchmarkResult.cycleDetails r) ->
  BenchmarkResult.samples r
  = map (fn env) (seq (calls w) (List.length (BenchmarkResult.samples r))) /\
  calls w' = (calls w + List.length (BenchmarkResult.samples r))%nat.
Proof.
  intros Hrun Hasync Hsmall.
  apply (run_returns_progress env config fuel w w' r
           (fun p w1 =>
              Forall (fun d => PrimFloat.ltb 10000%float
                                 (BenchmarkCycleDetails.iterationCount d) = false)
                     (cycleDetails p) ->
              samples p = map (fn env) (seq (calls w) (List.length (samples p))) /\
              calls w1 = (calls w + List.length (samples p))%nat)) in Hrun.
  - destruct Hrun as (p & -> & Hp). now apply Hp.
  - intros setup w0 _ Hc _ _. simpl. split; [reflexivity | lia].
  - intros p p' w1 w2 IH Hb Hall.
    apply loop_body_step in Hb as (d & cycleTimes & netTime & k & Hb). cbv zeta in Hb.
    destruct Hb as (_ & Hs & Hd & Htimes & _ & _ & _ & _ & _ & _ & _ & _ & _ & _ & Hcount
                    & _ & _ & _ & _ & Hcalls & _).
    rewrite Hd in Hall. apply Forall_app in Hall as [Hall Hlast].
    inversion Hlast as [|? ? Hk _]; subst. rewrite Hcount in Hk.
    destruct (IH Hall) as [IHs IHc].
    rewrite (Htimes Hasync Hk) in Hs. rewrite Hs, length_app, length_map, length_seq.
    split; [|lia].
    rewrite seq_app, map_app, <- IHs, <- IHc. reflexivity.
Qed.

Lemma samples_are_reported_durations_witness :
  exists (r : BenchmarkResult.t) (w' : World),
    example_run = Returned r w' /\
    BenchmarkResult.samples r
    = map (fn slow_setup_env)
          (seq (calls initial_world) (List.length (BenchmarkResult.samples r))) /\
    calls w' = (calls initial_world + List.length (BenchmarkResult.samples r))%nat.
Proof.
  do 2 eexists. split; [vm_compute; reflexivity|].
  eapply (samples_are_reported_durations slow_setup_env example_config 5 initial_world).
  - vm_compute. reflexivity.
  - reflexivity.
  - repeat constructor.
Defined.

(** X10: the cycles of a run are numbered from zero: the report at position
    [i] of the cycle details has index [i] and the name of the configuration,
    and the result's number of cycles is the number of reports. *)
Theorem cycle_indices (env : Env) (config : BenchmarkConfig) (fuel : nat)
        (w w' : World) (r : BenchmarkResult.t) :
  benchmark env config fuel w = Returned r w' ->
  (Z.of_nat (List.length (BenchmarkResult.cycleDetails r)) < 2 ^ 53)%Z ->
  BenchmarkResult.cycles r
  = JS.of_Z (Z.of_nat (List.length (BenchmarkResult.cycleDetails r))) /\
  forall (i : nat) (d : BenchmarkCycleDetails.t),
    nth_error (BenchmarkResult.cycleDetails r) i = Some d ->
    BenchmarkCycleDetails.index d = JS.of_Z (Z.of_nat i) /\
    BenchmarkCycleDetails.name d = name config.
Proof.
  intros Hrun Hmax. split.
  { apply benchmark_run in Hrun as (p & w0 & _ & _ & _ & _ & ->). reflexivity. }
  apply (run_returns_progress env config fuel w w' r
           (fun p _ =>
              (Z.of_nat (List.length (cycleDetails p)) < 2 ^ 53)%Z ->
              BenchmarkState.cycles (state p)
              = JS.of_Z (Z.of_nat (List.length (cycleDetails p))) /\
              forall (i : nat) (d : BenchmarkCycleDetails.t),
                nth_error (cycleDetails p) i = Some d ->
                BenchmarkCycleDetails.index d = JS.of_Z (Z.of_nat i) /\
                BenchmarkCycleDetails.name d = name config)) in Hrun.
  - destruct Hrun as (p & -> & Hp). now apply Hp.
  - intros setup w0 _ _ _ _. simpl. split; [reflexivity|].
    intros [|i] d; discriminate.
  - intros p p' w1 w2 IH Hb Hlen.
    apply loop_body_step in Hb as (d & cycleTimes & netTime & k & Hb). cbv zeta in Hb.
    destruct Hb as (_ & _ & Hd & _ & _ & _ & Hcycles & _ & _ & _ & _ & _ & Hname & Hindex
                    & _).
    rewrite Hd, length_app in Hlen |- *. simpl List.length in Hlen |- *.
    rewrite Nat2Z.inj_add in Hlen |- *. change (Z.of_nat 1) with 1%Z in Hlen |- *.
    destruct IH as [IHc IHd]; [lia|].
    assert (Hc' : BenchmarkState.cycles (state p')
                  = JS.of_Z (Z.of_nat (List.length (cycleDetails p)) + 1)).
    { rewrite Hcycles, IHc. apply add_one_exact; lia. }
    split; [exact Hc'|].
    intros i d' Hnth.
    destruct (Nat.lt_ge_cases i (List.length (cycleDetails p))) as [Hi|Hi].
    + rewrite nth_error_app1 in Hnth by assumption. now apply IHd.
    + rewrite nth_error_app2 in Hnth by assumption.
      destruct (i - List.length (cycleDetails p))%nat as [|j] eqn:Hj;
        [|destruct j; discriminate].
      injection Hnth as <-. split; [|exact Hname].
      assert (Hil : i = List.length (cycleDetails p)) by lia.
      rewrite Hindex, Hc', Hil.
      destruct (List.length (cycleDetails p)) as [|n]; [reflexivity|].
      rewrite sub_one_exact by lia. f_equal. lia.
Qed.

Lemma cycle_indices_witness :
  exists (r : BenchmarkResult.t) (w' : World),
    example_run = Returned r w' /\
    BenchmarkResult.cycles r
    = JS.of_Z (Z.of_nat (List.length (BenchmarkResult.cycleDetails r))) /\
    forall (i : nat) (d : BenchmarkCycleDetails.t),
      nth_error (BenchmarkResult.cycleDetails r) i = Some d ->
      BenchmarkCycleDetails.index d = JS.of_Z (Z.of_nat i) /\
      BenchmarkCycleDetails.name d = name example_config.
Proof.
  do 2 eexists. split; [vm_compute; reflexivity|].
  eapply (cycle_indices slow_setup_env example_config 5 initial_world).
  - vm_compute. reflexivity.
  - vm_compute. reflexivity.
Defined.

(** X11: the result of a run repeats the last cycle's report: its mean, its
    relative margin of error, its elapsed time and its setup time are those
    of the last cycle details, whose estimate is that of all the samples. *)
Theorem result_repeats_last_cycle (env : Env) (config : BenchmarkConfig) (fuel : nat)
        (w w' : World) (r : BenchmarkResult.t) :
  benchmark env config fuel w = Returned r w' ->
  exists (earlier : list BenchmarkCycleDetails.t) (last : BenchmarkCycleDetails.t),
    BenchmarkResult.cycleDetails r = earlier ++ [last] /\
    BenchmarkCycleDetails.timingsSoFar last = getTimings (BenchmarkResult.samples r) /\
    BenchmarkResult.meanTime r
    = Timings.meanTime (BenchmarkCycleDetails.timingsSoFar last) /\
    BenchmarkResult.relativeMarginOfError r
    = Timings.relativeMarginOfError (BenchmarkCycleDetails.timingsSoFar last) /\
    BenchmarkResult.elapsedTime r = BenchmarkCycleDetails.elapsedTime last /\
    BenchmarkResult.setUpTime r = BenchmarkCycleDetails.setUpTime last.
Proof.
  intros Hrun. pose proof (benchmark_has_a_cycle env config fuel w w' r Hrun) as Hne.
  apply (run_returns_progress env config fuel w w' r
           (fun p _ =>
              cycleDetails p = [] \/
              exists earlier last,
                cycleDetails p = earlier ++ [last] /\
                BenchmarkCycleDetails.timingsSoFar last = getTimings (samples p) /\
                BenchmarkCycleDetails.timingsSoFar last = BenchmarkState.timings (state p) /\
                BenchmarkCycleDetails.elapsedTime last
                = BenchmarkState.elapsedTime (state p) /\
                BenchmarkCycleDetails.setUpTime last
                = PrimFloat.sub (BenchmarkState.elapsedTime (state p))
                                (BenchmarkState.elapsedNetTime (state p)))) in Hrun.
  - destruct Hrun as (p & -> & [Hnil | (earlier & last & Hd & Ht & Hs & He & Hu)]).
    + now elim Hne.
    + exists earlier, last. simpl. rewrite <- Hs, He, Hu. now repeat split.
  - intros. now left.
  - intros p p' w1 w2 _ Hb. right.
    apply loop_body_step in Hb as (d & cycleTimes & netTime & k & Hb). cbv zeta in Hb.
    destruct Hb as (_ & _ & Hd & _ & Ht & _ & _ & _ & _ & _ & _ & _ & _ & _ & _ & He & Hu
                    & Hs & _).
    exists (cycleDetails p), d. rewrite <- Ht. now repeat split.
Qed.

Lemma result_repeats_last_cycle_witness :
  exists (r : BenchmarkResult.t) (w' : World),
    example_run = Returned r w' /\
    exists (earlier : list BenchmarkCycleDetails.t) (last : BenchmarkCycleDetails.t),
      BenchmarkResult.cycleDetails r = earlier ++ [last] /\
      BenchmarkCycleDetails.timingsSoFar last = getTimings (BenchmarkResult.samples r) /\
      BenchmarkResult.meanTime r
      = Timings.meanTime (BenchmarkCycleDetails.timingsSoFar last) /\
      BenchmarkResult.relativeMarginOfError r
      = Timings.relativeMarginOfError (BenchmarkCycleDetails.timingsSoFar last) /\
      BenchmarkResult.elapsedTime r = BenchmarkCycleDetails.elapsedTime last /\
      BenchmarkResult.setUpTime r = BenchmarkCycleDetails.setUpTime last.
Proof.
  do 2 eexists. split; [vm_compute; reflexivity|].
  eapply (result_repeats_last_cycle slow_setup_env example_config 5 initial_world).
  vm_compute. reflexivity.
Defined.

Section CountSums.
Lemma sum_of_counts_app (ds : list BenchmarkCycleDetails.t) (d : BenchmarkCycleDetails.t) :
  sum_of_counts (ds ++ [d])
  = PrimFloat.add (sum_of_counts ds) (BenchmarkCycleDetails.iterationCount d).
Proof. unfold sum_of_counts. now rewrite fold_left_app. Qed.
End CountSums.

(** X12: the iteration count of a result is the sum of the iteration counts of
    its cycles, added in the order of the cycles, and no recorded cycle has a
    count of zero or [NaN]. *)
Theorem iterationCount_is_the_sum (env : Env) (config : BenchmarkConfig) (fuel : nat)
        (w w' : World) (r : BenchmarkResult.t) :
  benchmark env config fuel w = Returned r w' ->
  BenchmarkResult.iterationCount r = sum_of_counts (BenchmarkResult.cycleDetails r) /\
  Forall (fun d => JS.truthy (BenchmarkCycleDetails.iterationCount d) = true)
         (BenchmarkResult.cycleDetails r).
Proof.
  intros Hrun.
  apply (run_returns_progress env config fuel w w' r
           (fun p _ =>
              BenchmarkState.iterationCount (state p) = sum_of_counts (cycleDetails p) /\
              Forall (fun d => JS.truthy (BenchmarkCycleDetails.iterationCount d) = true)
                     (cycleDetails p))) in Hrun.
  - destruct Hrun as (p & -> & Hp). exact Hp.
  - intros. split; [reflexivity | constructor].
  - intros p p' w1 w2 [IHs IHt] Hb.
    apply loop_body_step in Hb as (d & cycleTimes & netTime & k & Hb). cbv zeta in Hb.
    destruct Hb as (Htruthy & _ & Hd & _ & _ & _ & _ & Hi & _ & _ & _ & _ & _ & _ & Hcount
                    & _).
    rewrite Hd, sum_of_counts_app, Hi, IHs, Hcount. split; [reflexivity|].
    apply Forall_app. split; [exact IHt|]. constructor; [|constructor].
    now rewrite Hcount.
Qed.

Lemma iterationCount_is_the_sum_witness :
  exists (r : BenchmarkResult.t) (w' : World),
    example_run = Returned r w' /\
    BenchmarkResult.iterationCount r = sum_of_counts (BenchmarkResult.cycleDetails r) /\
    Forall (fun d => JS.truthy (BenchmarkCycleDetails.iterationCount d) = true)
           (BenchmarkResult.cycleDetails r).
Proof.
  do 2 eexists. split; [vm_compute; reflexivity|].
  eapply (iterationCount_is_the_sum slow_setup_env example_config 5 initial_world).
  vm_compute. reflexivity.
Defined.

(** X13: every run starts with a cycle of the configured initial count, 1
    when it is absent, zero or [NaN]; its report has index 0. *)
Theorem first_cycle_of_a_run (env : Env) (config : BenchmarkConfig) (fuel : nat)
        (w w' : World) (r : BenchmarkResult.t) :
  benchmark env config fuel w = Returned r w' ->
  exists (first : BenchmarkCycleDetails.t) (rest : list BenchmarkCycleDetails.t),
    BenchmarkResult.cycleDetails r = first :: rest /\
    BenchmarkCycleDetails.iterationCount first
    = JS.or_default (initialCount config) INITIAL_ITERATION_COUNT /\
    BenchmarkCycleDetails.index first = 0%float.
Proof.
  intros Hrun. pose proof (benchmark_has_a_cycle env config fuel w w' r Hrun) as Hne.
  apply (run_returns_progress env config fuel w w' r
           (fun p _ =>
              (cycleDetails p = [] /\ BenchmarkState.cycles (state p) = 0%float /\
               BenchmarkState.config (state p) = config) \/
              exists first rest,
                cycleDetails p = first :: rest /\
                BenchmarkCycleDetails.iterationCount first
                = JS.or_default (initialCount config) INITIAL_ITERATION_COUNT /\
                BenchmarkCycleDetails.index first = 0%float)) in Hrun.
  - destruct Hrun as (p & -> & [(Hnil & _)|H]); [now elim Hne | exact H].
  - intros. left. now repeat split.
  - intros p p' w1 w2 IH Hb. right.
    apply loop_body_step in Hb as (d & cycleTimes & netTime & k & Hb). cbv zeta in Hb.
    destruct Hb as (_ & _ & Hd & _ & _ & _ & Hc & _ & _ & _ & _ & _ & _ & Hindex & Hcount
                    & _).
    destruct IH as [(Hnil & Hzero & Hcfg)|(first & rest & Hp & Hfirst & Hi)].
    + exists d, []. rewrite Hd, Hnil. split; [reflexivity|].
      rewrite Hcount, Hindex, Hc. unfold nextIterationCount. rewrite Hzero, Hcfg.
      split; reflexivity.
    + exists first, (rest ++ [d]). rewrite Hd, Hp. now repeat split.
Qed.

Lemma first_cycle_of_a_run_witness :
  exists (r : BenchmarkResult.t) (w' : World),
    example_run = Returned r w' /\
    exists (first : BenchmarkCycleDetails.t) (rest : list BenchmarkCycleDetails.t),
      BenchmarkResult.cycleDetails r = first :: rest /\
      BenchmarkCycleDetails.iterationCount first
      = JS.or_default (initialCount example_config) INITIAL_ITERATION_COUNT /\
      BenchmarkCycleDetails.index first = 0%float.
Proof.
  do 2 eexists. split; [vm_compute; reflexivity|].
  eapply (first_cycle_of_a_run slow_setup_env example_config 5 initial_world).
  vm_compute. reflexivity.
Defined.

(** ** The net time of a cycle *)

Section NetTime.
Variable env : Env.
Variable config : BenchmarkConfig.

(** Whatever the cycle function, the net time it returns is the sum of the
    durations that the operation reported during the cycle, and the cycle
    functions that do not keep the durations return their mean per
    iteration as the only sample. *)
Lemma cycleFn_netTime (count : float) (w w2 : World) (times : list float)
      (netTime : float) :
  cycleFn env config count count w = Returned (times, netTime) w2 ->
  netTime = getSum (map (fn env) (seq (calls w) (calls w2 - calls w))) /\
  (isSync config = true \/ PrimFloat.ltb 10000%float count = true ->
   times = [PrimFloat.div netTime count]).
Proof.
  unfold cycleFn.
  destruct (isSync config); [|destruct (PrimFloat.ltb 10000%float count)];
    unfold cycleSync, cycle, cycleDetailed, bind; rewrite call_before_world.
  - destruct (loop_bound count) as [n|]; [|discriminate].
    rewrite accumulate_world. unfold ret. intros [= <- <- <-]. simpl.
    rewrite Nat.add_comm, Nat.add_sub. now split.
  - destruct (loop_bound count) as [n|]; [|discriminate].
    rewrite accumulate_world. unfold ret. intros [= <- <- <-]. simpl.
    rewrite Nat.add_comm, Nat.add_sub. now split.
  - destruct (array_length count) as [n|]; [|discriminate].
    rewrite collect_world. unfold ret. intros [= <- <- <-]. simpl.
    rewrite Nat.add_comm, Nat.add_sub. split; [reflexivity|].
    intros [H|H]; discriminate H.
Qed.
End NetTime.

(** X14: in every cycle, whatever the cycle function, the net time added to
    the state is the sum of the durations that the operation reported in that
    cycle; a synchronous cycle and a cycle of more than 10000 iterations
    record that sum divided by the count as their only sample. *)
Theorem net_time_of_a_cycle (env : Env) (config : BenchmarkConfig) (startTime : float)
        (p p' : Progress) (w w' : World) :
  loop_body env config startTime p w = Returned (Some p') w' ->
  let count := nextIterationCount (state p) in
  let durations := map (fn env) (seq (calls w) (calls w' - calls w)) in
  BenchmarkState.elapsedNetTime (state p')
  = PrimFloat.add (BenchmarkState.elapsedNetTime (state p)) (getSum durations) /\
  (isSync config = true \/ PrimFloat.ltb 10000%float count = true ->
   samples p' = samples p ++ [PrimFloat.div (getSum durations) count]).
Proof.
  unfold loop_body.
  destruct (JS.truthy (nextIterationCount (state p))); cbn [negb]; [|discriminate].
  unfold bind at 1. unfold time at 1. unfold bind at 1.
  match goal with
  | |- context [cycleFn ?e ?c ?n ?m ?v] =>
      destruct (cycleFn e c n m v) as [[cycleTimes netTime] w2| | |] eqn:Hc
  end; try discriminate.
  apply cycleFn_netTime in Hc as [Hn Hsample]. simpl in Hn.
  unfold bind, time, emit, ret. intros [= <- <-]. cbv zeta. cbn.
  subst netTime. split; [reflexivity|].
  intros H. now rewrite (Hsample H).
Qed.

Lemma net_time_of_a_cycle_witness :
  let config := config_of true None (Some 3%float) in
  let p := initial_progress config 1%float in
  exists (p' : Progress) (w' : World),
    loop_body steady_env config 0%float p initial_world = Returned (Some p') w' /\
    BenchmarkState.elapsedNetTime (state p')
    = PrimFloat.add (BenchmarkState.elapsedNetTime (state p))
        (getSum (map (fn steady_env)
                     (seq (calls initial_world) (calls w' - calls initial_world)))) /\
    (isSync config = true \/ PrimFloat.ltb 10000%float (nextIterationCount (state p)) = true ->
     samples p'
     = samples p
       ++ [PrimFloat.div
             (getSum (map (fn steady_env)
                          (seq (calls initial_world) (calls w' - calls initial_world))))
             (nextIterationCount (state p))]).
Proof.
  cbv zeta. do 2 eexists. split; [vm_compute; reflexivity|].
  eapply (net_time_of_a_cycle steady_env (config_of true None (Some 3%float)) 0%float
            (initial_progress (config_of true None (Some 3%float)) 1%float) _
            initial_world).
  vm_compute. reflexivity.
Defined.

(** ** The calls a run makes *)

Section RunEvents.
Lemma combine_snoc {A B : Type} (l1 : list A) (a : A) : forall (l2 : list B) (b : B),
  List.length l1 = List.length l2 ->
  combine (l1 ++ [a]) (l2 ++ [b]) = combine l1 l2 ++ [(a, b)].
Proof.
  induction l1 as [|x l1 IH]; intros [|y l2] b Hlen; try discriminate; simpl.
  - reflexivity.
  - f_equal. apply IH. now injection Hlen.
Qed.

Lemma list_sum_snoc (ks : list nat) (k : nat) : list_sum (ks ++ [k]) = list_sum ks + k.
Proof. rewrite list_sum_app. simpl. lia. Qed.
End RunEvents.



(** X16: the clock is read twice for the one-time setup and three times in
    every cycle, and the elapsed time of the result is the last reading minus
    the first: it includes the one-time setup. *)
Theorem elapsedTime_spans_the_run (env : Env) (config : BenchmarkConfig) (fuel : nat)
        (w w' : World) (r : BenchmarkResult.t) :
  benchmark env config fuel w = Returned r w' ->
  ticks w' = ticks w + 2 + 3 * List.length (BenchmarkResult.cycleDetails r) /\
  BenchmarkResult.elapsedTime r
  = PrimFloat.sub (clock env (Nat.pred (ticks w'))) (clock env (ticks w)).
Proof.
  intros Hrun. pose proof (benchmark_has_a_cycle env config fuel w w' r Hrun) as Hne.
  apply (run_returns_progress env config fuel w w' r
           (fun p w1 =>
              ticks w1 = ticks w + 2 + 3 * List.length (cycleDetails p) /\
              (cycleDetails p <> [] ->
               BenchmarkState.elapsedTime (state p)
               = PrimFloat.sub (clock env (Nat.pred (ticks w1))) (clock env (ticks w)))))
    in Hrun.
  - destruct Hrun as (p & -> & Ht & He). split; [exact Ht | now apply He].
  - intros setup w0 Ht _ _. simpl. split; [lia | intros H; now elim H].
  - intros p p' w1 w2 [IHt _] Hb.
    apply loop_body_step in Hb as (d & cycleTimes & netTime & k & Hb). cbv zeta in Hb.
    destruct Hb as (_ & _ & Hd & _ & _ & _ & _ & _ & He & _ & _ & _ & _ & _ & _ & _ & _ & _
                    & Hticks & _).
    rewrite Hd, length_app, Hticks, He. simpl. split; [lia | reflexivity].
Qed.

Lemma elapsedTime_spans_the_run_witness :
  exists (r : BenchmarkResult.t) (w' : World),
    example_run = Returned r w' /\
    ticks w' = ticks initial_world + 2 + 3 * List.length (BenchmarkResult.cycleDetails r) /\
    BenchmarkResult.elapsedTime r
    = PrimFloat.sub (clock slow_setup_env (Nat.pred (ticks w')))
                    (clock slow_setup_env (ticks initial_world)).
Proof.
  do 2 eexists. split; [vm_compute; reflexivity|].
  eapply (elapsedTime_spans_the_run slow_setup_env example_config 5 initial_world).
  vm_compute. reflexivity.
Defined.

(** ** The errors of a run *)

Section ErrorsOfARun.
Variable env : Env.
Variable config : BenchmarkConfig.

(** A turn of the loop throws only from the array allocation of
    [cycleDetailed]. *)
Lemma loop_body_thrown (startTime : float) (p : Progress) (w : World) (e : Error) :
  loop_body env config startTime p w = Thrown e ->
  JS.truthy (nextIterationCount (state p)) = true /\
  isSync config = false /\
  PrimFloat.ltb 10000%float (nextIterationCount (state p)) = false /\
  array_length (nextIterationCount (state p)) = None.
Proof.
  unfold loop_body.
  destruct (JS.truthy (nextIterationCount (state p))); cbn [negb]; [|discriminate].
  unfold bind at 1. unfold time at 1. unfold bind at 1. unfold cycleFn.
  destruct (isSync config); [|destruct (PrimFloat.ltb 10000%float _)];
    unfold cycleSync, cycle, cycleDetailed; unfold bind at 1;
    rewrite call_before_world.
  - destruct (loop_bound _) as [n|]; [|discriminate].
    unfold bind at 1. rewrite accumulate_world. discriminate.
  - destruct (loop_bound _) as [n|]; [|discriminate].
    unfold bind at 1. rewrite accumulate_world. discriminate.
  - destruct (array_length _) as [n|]; [|now repeat split].
    unfold bind at 1. rewrite collect_world. discriminate.
Qed.

Lemma run_loop_thrown (I : Progress -> Prop) (startTime : float) (e : Error) :
  (forall (p p' : Progress) (w w' : World),
     I p -> loop_body env config startTime p w = Returned (Some p') w' -> I p') ->
  forall (fuel : nat) (p : Progress) (w : World),
    I p -> run_loop env config fuel startTime p w = Thrown e ->
    exists (p1 : Progress) (w1 : World),
      I p1 /\ loop_body env config startTime p1 w1 = Thrown e.
Proof.
  intros Hstep. induction fuel as [|fuel IH]; intros p w Hp; simpl; [discriminate|].
  unfold bind at 1.
  destruct (loop_body env config startTime p w) as [[p1|] w1|e'| |] eqn:Hb;
    try discriminate.
  - apply IH. now apply (Hstep p p1 w w1).
  - intros _. destruct e, e'. now exists p, w.
Qed.

(** A run that throws does so in a turn of its loop. *)
Lemma benchmark_thrown (I : Progress -> Prop) (fuel : nat) (w : World) (e : Error) :
  benchmark env config fuel w = Thrown e ->
  (forall setup : float, I (initial_progress config setup)) ->
  (forall (p p' : Progress) (w1 w2 : World),
     I p ->
     loop_body env config (clock env (ticks w)) p w1 = Returned (Some p') w2 -> I p') ->
  exists (p1 : Progress) (w1 : World),
    I p1 /\ loop_body env config (clock env (ticks w)) p1 w1 = Thrown e.
Proof.
  intros Hrun Hinit Hstep. unfold benchmark in Hrun. unfold bind at 1 in Hrun.
  unfold prepare in Hrun. unfold bind at 1 2 3 in Hrun. unfold time at 1 in Hrun.
  destruct (beforeAll config); unfold emit, ret, time at 1 in Hrun; cbn in Hrun;
    unfold bind in Hrun;
    match type of Hrun with
    | context [run_loop ?e ?c ?f ?s ?q ?v] =>
        destruct (run_loop e c f s q v) as [p w1|e'| |] eqn:Hr
    end; try discriminate;
    destruct e, e';
    apply (run_loop_thrown I _ RangeError Hstep) in Hr; auto.
Qed.
End ErrorsOfARun.

(** X17: a synchronous run never throws an error of its own: whatever the
    counts, no array is allocated for the durations. *)
Theorem sync_run_never_throws (env : Env) (config : BenchmarkConfig) (fuel : nat)
        (w : World) (e : Error) :
  isSync config = true -> benchmark env config fuel w <> Thrown e.
Proof.
  intros Hsync Hrun.
  apply (benchmark_thrown env config (fun _ => True)) in Hrun as (p1 & w1 & _ & Hb); auto.
  apply loop_body_thrown in Hb as (_ & Hasync & _). congruence.
Qed.

Lemma sync_run_never_throws_witness :
  benchmark steady_env (config_of true None (Some 2.5%float)) 3 initial_world
  <> Thrown RangeError.
Proof.
  apply (sync_run_never_throws steady_env (config_of true None (Some 2.5%float)) 3
           initial_world RangeError).
  reflexivity.
Defined.

Section CountsOfLaterCycles.
Local Open Scope Z_scope.

(** After the first cycle the scheduler's count is [NaN], [+Infinity] or a
    non-negative integer, when the sums it divides are not negative. *)
Lemma nextIterationCount_later (state : BenchmarkState.t) :
  not_negative (BenchmarkState.elapsedCycleGrossTime state) ->
  not_negative (BenchmarkState.iterationCount state) ->
  PrimFloat.eqb (BenchmarkState.cycles state) 0%float = false ->
  Prim2SF (nextIterationCount state) = S754_nan
  \/ nextIterationCount state = PrimFloat.infinity
  \/ nonneg_integer (nextIterationCount state).
Proof.
  intros Hg Hi Hc. unfold nextIterationCount. rewrite Hc.
  destruct (PrimFloat.leb (remainingTime state) 0%float) eqn:H1;
    [right; right; exact I|].
  destruct (PrimFloat.ltb _ TARGET_RELATIVE_MARGIN_OF_ERROR) eqn:H2;
    [right; right; exact I|].
  destruct (PrimFloat.ltb (remainingTime state) (meanSetUpTime state)) eqn:H3;
    [right; right; exact I|].
  apply Math_round_not_negative, not_negative_div.
  - now apply targetNetTime_not_negative.
  - now apply not_negative_div.
Qed.

(** A non-negative integer of at most 10000 is a valid array length. *)
Lemma array_length_of_count (c : float) :
  nonneg_integer c -> PrimFloat.ltb 10000%float c = false -> array_length c <> None.
Proof.
  unfold nonneg_integer, array_length. rewrite FloatAxioms.ltb_spec.
  change (Prim2SF 10000%float) with (S754_finite false 5497558138880000 (-39)).
  destruct (Prim2SF c) as [[|]|s| |[|] m e]; try contradiction; try discriminate.
  unfold SFltb, SFcompare. intros Hint Hlt.
  destruct (Z.leb_spec 0 e) as [He|He].
  - exfalso. destruct (Z.compare_spec (-39) e) as [E|L|G]; try lia; discriminate Hlt.
  - destruct Hint as [Hint|Hint]; [lia|]. rewrite Hint. discriminate.
Qed.

Lemma not_negative_count (c : float) :
  Prim2SF c = S754_nan \/ c = PrimFloat.infinity \/ nonneg_integer c -> not_negative c.
Proof.
  unfold not_negative, nonneg_integer. intros [H|[H|H]].
  - now rewrite H.
  - now subst c.
  - destruct (Prim2SF c) as [[|]|s| |[|] m e]; try contradiction; reflexivity.
Qed.

Lemma above_positive (a b : float) (m : positive) (e : Z) :
  Prim2SF a = S754_finite false m e -> PrimFloat.ltb a b = true -> not_negative b.
Proof.
  intros Ha. rewrite FloatAxioms.ltb_spec, Ha. unfold not_negative, SFltb, SFcompare.
  destruct (Prim2SF b) as [s|[|]| |[|] m' e']; simpl; try discriminate; reflexivity.
Qed.

(** A count that a cycle function accepts in an asynchronous run is not
    negative when it is truthy. *)
Lemma not_negative_first_count (config : BenchmarkConfig) (c : float) :
  isSync config = false -> cycle_can_run config c -> JS.truthy c = true ->
  not_negative c.
Proof.
  unfold cycle_can_run. intros ->.
  destruct (PrimFloat.ltb 10000%float c) eqn:Hl.
  - intros _ _. now apply (above_positive 10000%float c 5497558138880000 (-39)).
  - unfold array_length, JS.truthy, not_negative.
    destruct (Prim2SF c) as [s|s| |[|] m e]; simpl; intros H Ht;
      try discriminate; try reflexivity; now elim H.
Qed.
End CountsOfLaterCycles.

(** X18: with a clock whose readings are positive and never go back, a run
    can only throw in its first cycle: if the cycle function accepts the
    initial count, the run never throws, because every later count of at most
    10000 is a valid array length. *)
Theorem range_error_only_from_initial_count (env : Env) (config : BenchmarkConfig)
        (fuel : nat) (w : World) (e : Error) :
  (forall k : nat, PrimFloat.leb (clock env (S k)) 0%float = false) ->
  (forall k : nat, PrimFloat.ltb (clock env (S k)) (clock env k) = false) ->
  cycle_can_run config (JS.or_default (initialCount config) INITIAL_ITERATION_COUNT) ->
  benchmark env config fuel w <> Thrown e.
Proof.
  intros Hpos Hmono Hfirst Hrun.
  destruct (isSync config) eqn:Hsync;
    [apply (benchmark_thrown env config (fun _ => True)) in Hrun as (p1 & w1 & _ & Hb); auto; apply loop_body_thrown in Hb as (_ & Hasync & _); congruence|].
  apply (benchmark_thrown env config
           (fun p =>
              BenchmarkState.config (state p) = config /\
              not_negative (BenchmarkState.elapsedCycleGrossTime (state p)) /\
              not_negative (BenchmarkState.iterationCount (state p)))) in Hrun.
  - destruct Hrun as (p & w1 & (Hcfg & Hg & Hi) & Hb).
    apply loop_body_thrown in Hb as (Ht & _ & Hl & Ha).
    destruct (PrimFloat.eqb (BenchmarkState.cycles (state p)) 0%float) eqn:Hc.
    + unfold nextIterationCount in Hl, Ha. rewrite Hc, Hcfg in Hl, Ha.
      unfold cycle_can_run in Hfirst. rewrite Hsync, Hl in Hfirst. contradiction.
    + destruct (nextIterationCount_later (state p) Hg Hi Hc) as [Hn|[Hn|Hn]].
      * unfold JS.truthy in Ht. rewrite Hn in Ht. discriminate.
      * rewrite Hn in Hl. discriminate.
      * now apply array_length_of_count in Hn.
  - intros setup. simpl. repeat split.
  - intros p p' w1 w2 (Hcfg & Hg & Hi) Hb.
    apply loop_body_step in Hb as (d & cycleTimes & netTime & k & Hb). cbv zeta in Hb.
    destruct Hb as (Ht & _ & _ & _ & _ & Hcfg' & Hc' & Hi' & _ & _ & Hg' & _).
    rewrite Hcfg', Hi', Hg'. split; [exact Hcfg|]. split.
    + apply not_negative_add; [exact Hg|]. apply not_negative_sub; [apply Hpos | apply Hmono].
    + apply not_negative_add; [exact Hi|].
      destruct (PrimFloat.eqb (BenchmarkState.cycles (state p)) 0%float) eqn:Hc.
      * unfold nextIterationCount in Ht |- *. rewrite Hc, Hcfg in Ht |- *.
        now apply (not_negative_first_count config).
      * now apply not_negative_count, nextIterationCount_later.
Qed.

Lemma range_error_only_from_initial_count_witness :
  example_run <> Thrown RangeError.
Proof.
  apply (range_error_only_from_initial_count slow_setup_env example_config 5
           initial_world RangeError).
  - intros k. do 7 (destruct k as [|k]; [reflexivity|]). reflexivity.
  - intros k. do 7 (destruct k as [|k]; [reflexivity|]). reflexivity.
  - vm_compute. discriminate.
Defined.

(** ** When a further cycle runs *)

Section FurtherCycles.
(** The scheduler's count after the first cycle is truthy only if time
    remains and the precision target is not met. *)
Lemma nextIterationCount_goes_on (state : BenchmarkState.t) :
  PrimFloat.eqb (BenchmarkState.cycles state) 0%float = false ->
  JS.truthy (nextIterationCount state) = true ->
  PrimFloat.leb (remainingTime state) 0%float = false /\
  PrimFloat.ltb (Timings.relativeMarginOfError (BenchmarkState.timings state))
                TARGET_RELATIVE_MARGIN_OF_ERROR = false /\
  PrimFloat.ltb (remainingTime state) (meanSetUpTime state) = false.
Proof.
  intros Hc. unfold nextIterationCount. rewrite Hc.
  destruct (PrimFloat.leb (remainingTime state) 0%float); [discriminate|].
  destruct (PrimFloat.ltb _ TARGET_RELATIVE_MARGIN_OF_ERROR); [discriminate|].
  destruct (PrimFloat.ltb (remainingTime state) (meanSetUpTime state)); [discriminate|].
  now intros _.
Qed.

(** A counter that has been incremented is not zero. *)
Lemma incremented_not_zero (x : float) :
  not_negative x -> ~ not_a_number x ->
  PrimFloat.eqb (PrimFloat.add x 1%float) 0%float = false /\
  not_negative (PrimFloat.add x 1%float) /\ ~ not_a_number (PrimFloat.add x 1%float).
Proof.
  intros Hs Hn. pose proof (add_positive x 1%float Hs Hn I) as Hp.
  apply positive_above_zero in Hp. pose proof (above_zero_positive _ Hp) as [H1 H2].
  split; [|now split].
  rewrite FloatAxioms.ltb_spec in Hp. rewrite FloatAxioms.eqb_spec.
  change (Prim2SF 0%float) with (S754_zero false) in *.
  destruct (Prim2SF (PrimFloat.add x 1%float)) as [s|[|]| |[|] m e]; try discriminate;
    reflexivity.
Qed.
End FurtherCycles.

(** X19: a run starts a further cycle only while its budget is not used up and
    its precision target is not met: for two consecutive cycle reports, the
    budget (30 seconds when absent or falsy) minus the elapsed time of the
    first, plus the one-time setup time, is above 0, and the relative margin
    of error of the first is not below 2%. *)
Theorem further_cycle_within_budget (env : Env) (config : BenchmarkConfig) (fuel : nat)
        (w w' : World) (r : BenchmarkResult.t) :
  benchmark env config fuel w = Returned r w' ->
  forall (l1 l2 : list BenchmarkCycleDetails.t) (d d' : BenchmarkCycleDetails.t),
    BenchmarkResult.cycleDetails r = l1 ++ d :: d' :: l2 ->
    PrimFloat.leb
      (PrimFloat.add
         (PrimFloat.sub (JS.or_default (maxTime config) DEFAULT_MAX_TIME)
                        (BenchmarkCycleDetails.elapsedTime d))
         (PrimFloat.sub (clock env (S (ticks w))) (clock env (ticks w))))
      0%float = false /\
    PrimFloat.ltb (Timings.relativeMarginOfError (BenchmarkCycleDetails.timingsSoFar d))
                  TARGET_RELATIVE_MARGIN_OF_ERROR = false.
Proof.
  intros Hrun.
  set (setup := PrimFloat.sub (clock env (S (ticks w))) (clock env (ticks w))).
  set (P := fun d : BenchmarkCycleDetails.t =>
    PrimFloat.leb
      (PrimFloat.add
         (PrimFloat.sub (JS.or_default (maxTime config) DEFAULT_MAX_TIME)
                        (BenchmarkCycleDetails.elapsedTime d)) setup) 0%float = false /\
    PrimFloat.ltb (Timings.relativeMarginOfError (BenchmarkCycleDetails.timingsSoFar d))
                  TARGET_RELATIVE_MARGIN_OF_ERROR = false).
  apply benchmark_run in Hrun as (p & w0 & _ & _ & _ & Hloop & ->). cbv zeta in Hloop.
  fold setup in Hloop.
  apply (run_loop_invariant env config
           (fun p _ =>
              BenchmarkState.config (state p) = config /\
              BenchmarkState.elapsedTimeForInitialSetUp (state p) = setup /\
              not_negative (BenchmarkState.cycles (state p)) /\
              ~ not_a_number (BenchmarkState.cycles (state p)) /\
              (forall earlier last,
                 cycleDetails p = earlier ++ [last] ->
                 BenchmarkCycleDetails.elapsedTime last
                 = BenchmarkState.elapsedTime (state p) /\
                 BenchmarkCycleDetails.timingsSoFar last
                 = BenchmarkState.timings (state p) /\
                 PrimFloat.eqb (BenchmarkState.cycles (state p)) 0%float = false) /\
              (forall l1 l2 d d', cycleDetails p = l1 ++ d :: d' :: l2 -> P d)))
    in Hloop.
  - destruct Hloop as [(_ & _ & _ & _ & _ & H) _]. exact H.
  - intros q q' w1 w2 (Hcfg & Hsetup & Hs & Hn & Hlast & Hpairs) Hb.
    apply loop_body_step in Hb as (dn & cycleTimes & netTime & k & Hb). cbv zeta in Hb.
    destruct Hb as (Htruthy & _ & Hd & _ & _ & Hcfg' & Hc' & _ & _ & _ & _ & Hsetup' & _ & _
                    & _ & He & _ & Ht & _).
    destruct (incremented_not_zero _ Hs Hn) as (Hz & Hs' & Hn').
    rewrite Hcfg', Hsetup', Hc'.
    split; [exact Hcfg|]. split; [exact Hsetup|]. split; [exact Hs'|]. split; [exact Hn'|].
    split.
    + intros earlier last Heq. rewrite Hd in Heq. apply app_inj_tail in Heq as [_ <-].
      rewrite He, Ht. now repeat split.
    + intros l1 l2 d d' Heq. rewrite Hd in Heq.
      destruct l2 as [|y l2].
      * replace (l1 ++ [d; d']) with ((l1 ++ [d]) ++ [d']) in Heq
          by (now rewrite <- app_assoc).
        apply app_inj_tail in Heq as [Heq _].
        destruct (Hlast l1 d Heq) as (Hel & Htl & Hcl).
        destruct (nextIterationCount_goes_on (state q) Hcl Htruthy) as (Hrem & Hrme & _).
        unfold P. rewrite Hel, Htl. split; [|exact Hrme].
        unfold remainingTime in Hrem. rewrite Hcfg, Hsetup in Hrem. exact Hrem.
      * destruct (exists_last (l := y :: l2)) as (l & x & Hl); [discriminate|].
        rewrite Hl in Heq.
        replace (l1 ++ d :: d' :: l ++ [x]) with ((l1 ++ d :: d' :: l) ++ [x]) in Heq
          by (now rewrite <- app_assoc).
        apply app_inj_tail in Heq as [Heq _].
        now apply (Hpairs l1 l d d').
  - simpl. split; [reflexivity|]. split; [reflexivity|]. split; [reflexivity|].
    split; [discriminate|]. split.
    + intros [|a l] b Heq; discriminate Heq.
    + intros [|a l] l2 d d' Heq; discriminate Heq.
Qed.

Lemma further_cycle_within_budget_witness :
  exists (r : BenchmarkResult.t) (w' : World),
    example_run = Returned r w' /\
    forall (l1 l2 : list BenchmarkCycleDetails.t) (d d' : BenchmarkCycleDetails.t),
      BenchmarkResult.cycleDetails r = l1 ++ d :: d' :: l2 ->
      PrimFloat.leb
        (PrimFloat.add
           (PrimFloat.sub (JS.or_default (maxTime example_config) DEFAULT_MAX_TIME)
                          (BenchmarkCycleDetails.elapsedTime d))
           (PrimFloat.sub (clock slow_setup_env (S (ticks initial_world)))
                          (clock slow_setup_env (ticks initial_world))))
        0%float = false /\
      PrimFloat.ltb (Timings.relativeMarginOfError (BenchmarkCycleDetails.timingsSoFar d))
                    TARGET_RELATIVE_MARGIN_OF_ERROR = false.
Proof.
  do 2 eexists. split; [vm_compute; reflexivity|].
  eapply (further_cycle_within_budget slow_setup_env example_config 5 initial_world).
  vm_compute. reflexivity.
Defined.

(** X20: in a synchronous run every cycle contributes exactly one sample, the
    net time of the cycle divided by its count: the result has as many samples
    as cycles. *)
Theorem sync_one_sample_per_cycle (env : Env) (config : BenchmarkConfig) (fuel : nat)
        (w w' : World) (r : BenchmarkResult.t) :
  benchmark env config fuel w = Returned r w' ->
  isSync config = true ->
  List.length (BenchmarkResult.samples r) = List.length (BenchmarkResult.cycleDetails r).
Proof.
  intros Hrun Hsync.
  apply (run_returns_progress env config fuel w w' r
           (fun p _ => List.length (samples p) = List.length (cycleDetails p))) in Hrun.
  - destruct Hrun as (p & -> & Hp). exact Hp.
  - reflexivity.
  - intros p p' w1 w2 IH Hb.
    apply loop_body_some in Hb as (cycleTimes & netTime & w3 & w4 & _ & _ & Hc & Hs & Hl & _).
    unfold cycleFn in Hc. rewrite Hsync in Hc. apply cycleSync_spec in Hc.
    rewrite Hs, Hl, length_app, Hc, IH. simpl. lia.
Qed.

Lemma sync_one_sample_per_cycle_witness :
  exists (r : BenchmarkResult.t) (w' : World),
    benchmark slow_setup_env (config_of true (Some 5%float) (Some 2%float)) 5 initial_world
    = Returned r w' /\
    List.length (BenchmarkResult.samples r) = List.length (BenchmarkResult.cycleDetails r).
Proof.
  do 2 eexists. split; [vm_compute; reflexivity|].
  eapply (sync_one_sample_per_cycle slow_setup_env
            (config_of true (Some 5%float) (Some 2%float)) 5 initial_world).
  - vm_compute. reflexivity.
  - reflexivity.
Defined.

(** ** The end of a run *)

Section EndOfARun.
Variable env : Env.
Variable config : BenchmarkConfig.

(** A turn of the loop is finite or stuck in a counting loop that does not
    end; it is the loop that may need more turns. *)
Lemma loop_body_turn (startTime : float) (p : Progress) (w : World) :
  loop_body env config startTime p w <> OutOfFuel.
Proof.
  unfold loop_body.
  destruct (JS.truthy (nextIterationCount (state p))); cbn [negb]; [|discriminate].
  unfold bind at 1. unfold time at 1. unfold bind at 1. unfold cycleFn.
  destruct (isSync config); [|destruct (PrimFloat.ltb 10000%float _)];
    unfold cycleSync, cycle, cycleDetailed; unfold bind at 1;
    rewrite call_before_world.
  - destruct (loop_bound _) as [n|]; [|discriminate].
    unfold bind at 1. rewrite accumulate_world. discriminate.
  - destruct (loop_bound _) as [n|]; [|discriminate].
    unfold bind at 1. rewrite accumulate_world. discriminate.
  - destruct (array_length _) as [n|]; [|discriminate].
    unfold bind at 1. rewrite collect_world. discriminate.
Qed.

Variable t0 : nat.
Variable N : nat.

(** From the [N]-th reading of the clock on, the budget is used up. *)
Hypothesis budget_used_up : forall k : nat,
  N <= k ->
  PrimFloat.leb
    (PrimFloat.add
       (PrimFloat.sub (JS.or_default (maxTime config) DEFAULT_MAX_TIME)
                      (PrimFloat.sub (clock env k) (clock env t0)))
       (setup_time env t0))
    0%float = true.

Local Abbreviation setup := (setup_time env t0).
Local Abbreviation later := (after_a_cycle env config t0).

Lemma later_step (p p' : Progress) (w w' : World) :
  BenchmarkState.config (state p) = config ->
  BenchmarkState.elapsedTimeForInitialSetUp (state p) = setup ->
  not_negative (BenchmarkState.cycles (state p)) ->
  ~ not_a_number (BenchmarkState.cycles (state p)) ->
  loop_body env config (clock env t0) p w = Returned (Some p') w' ->
  later p' w' /\ ticks w' = S (S (S (ticks w))).
Proof.
  intros Hcfg Hsetup Hs Hn Hb.
  apply loop_body_step in Hb as (d & cycleTimes & netTime & k & Hb). cbv zeta in Hb.
  destruct Hb as (_ & _ & _ & _ & _ & Hcfg' & Hc' & _ & He & _ & _ & Hsetup' & _ & _ & _
                  & _ & _ & _ & Hticks & _).
  destruct (incremented_not_zero _ Hs Hn) as (Hz & Hs' & Hn').
  split; [|exact Hticks]. unfold after_a_cycle.
  rewrite Hcfg', Hsetup', Hc', He, Hticks. repeat split; try assumption. lia.
Qed.

Lemma later_stops (p : Progress) (w : World) :
  later p w -> N <= Nat.pred (ticks w) ->
  loop_body env config (clock env t0) p w = Returned None w.
Proof.
  intros (Hcfg & Hsetup & _ & _ & Hc & _ & He) Hk. unfold loop_body.
  assert (Hstop : nextIterationCount (state p) = 0%float).
  { unfold nextIterationCount. rewrite Hc. unfold remainingTime. cbn [negb
      INCLUDE_INITIAL_SETUP_IN_MAX_TIME]. rewrite Hcfg, Hsetup, He.
    now rewrite (budget_used_up _ Hk). }
  rewrite Hstop. reflexivity.
Qed.

Lemma run_loop_ends (f : nat) : forall (p : Progress) (w : World),
  later p w -> N <= Nat.pred (ticks w) + 3 * f ->
  run_loop env config (S f) (clock env t0) p w <> OutOfFuel.
Proof.
  induction f as [|f IH]; intros p w Hl Hk; simpl run_loop; unfold bind at 1.
  - rewrite (later_stops p w Hl) by lia. discriminate.
  - destruct (loop_body env config (clock env t0) p w) as [[p1|] w1|e| |] eqn:Hb;
      try discriminate.
    + destruct Hl as (Hcfg & Hsetup & Hs & Hn & _ & Hpos & _).
      destruct (later_step p p1 w w1 Hcfg Hsetup Hs Hn Hb) as [Hl1 Ht].
      apply IH; [exact Hl1 | lia].
    + now apply loop_body_turn in Hb.
Qed.

Lemma run_ends (f : nat) (w : World) :
  ticks w = t0 -> N <= t0 + 4 + 3 * f ->
  benchmark env config (S (S f)) w <> OutOfFuel.
Proof.
  intros Ht Hk Hrun. unfold benchmark in Hrun. unfold bind at 1 in Hrun.
  unfold prepare in Hrun. unfold bind at 1 2 3 in Hrun. unfold time at 1 in Hrun.
  assert (Hgo : forall w0 : World,
            ticks w0 = S (S t0) ->
            run_loop env config (S (S f)) (clock env t0) (initial_progress config setup) w0
            <> OutOfFuel).
  { intros w0 Hw0. simpl run_loop. unfold bind at 1.
    destruct (loop_body env config (clock env t0) (initial_progress config setup) w0)
      as [[p1|] w1|e| |] eqn:Hb; try discriminate.
    - destruct (later_step (initial_progress config setup) p1 w0 w1
                  eq_refl eq_refl eq_refl ltac:(discriminate) Hb) as [Hl1 Ht1].
      apply run_loop_ends; [exact Hl1 | lia].
    - now apply loop_body_turn in Hb. }
  rewrite Ht in Hrun. remember (S (S f)) as fuel eqn:Hfuel in Hrun, Hgo.
  destruct (beforeAll config); unfold emit, ret, time at 1 in Hrun; cbn in Hrun;
    unfold bind in Hrun;
    match type of Hrun with
    | context [run_loop ?e ?c ?n ?s ?q ?v] =>
        destruct (run_loop e c n s q v) as [p w1|e'| |] eqn:Hr
    end; try discriminate; refine (Hgo _ _ Hr); reflexivity.
Qed.
End EndOfARun.



(** ** Merging any number of results *)

Section Merging.
Lemma concat_from {A : Type} (field : BenchmarkResult.t -> list A)
      (results : list BenchmarkResult.t) : forall value : list A,
  fold_left (fun value r => value ++ field r) results value
  = value ++ List.concat (map field results).
Proof.
  induction results as [|r rs IH]; intros value; simpl.
  - now rewrite app_nil_r.
  - now rewrite IH, app_assoc.
Qed.

Lemma concat_is_concat {A : Type} (field : BenchmarkResult.t -> list A)
      (results : list BenchmarkResult.t) :
  BenchmarkResult.concat field results = List.concat (map field results).
Proof. unfold BenchmarkResult.concat. now rewrite concat_from. Qed.

Lemma add_samples (results : list BenchmarkResult.t) :
  BenchmarkResult.samples (BenchmarkResult.add results)
  = List.concat (map BenchmarkResult.samples results).
Proof. apply concat_is_concat. Qed.

Lemma add_cycleDetails (results : list BenchmarkResult.t) :
  BenchmarkResult.cycleDetails (BenchmarkResult.add results)
  = List.concat (map BenchmarkResult.cycleDetails results).
Proof. apply concat_is_concat. Qed.

Lemma add_estimate (results : list BenchmarkResult.t) :
  BenchmarkResult.meanTime (BenchmarkResult.add results)
  = Timings.meanTime (getTimings (BenchmarkResult.samples (BenchmarkResult.add results)))
  /\ BenchmarkResult.relativeMarginOfError (BenchmarkResult.add results)
     = Timings.relativeMarginOfError
         (getTimings (BenchmarkResult.samples (BenchmarkResult.add results))).
Proof. split; reflexivity. Qed.

(** Adding to 0 changes at most the sign of a zero. *)
Lemma zero_plus (x : float) : same_number (PrimFloat.add 0%float x) x.
Proof.
  destruct (Prim2SF x) as [[|]|s| |s m e] eqn:E;
    try (left; apply add_zero_l; rewrite E; discriminate).
  apply number_of_spec in E. subst x. right. reflexivity.
Qed.
End Merging.

(** X22: merging any number of results concatenates their samples and their
    cycle details in the order of the results, and reports the estimate of the
    concatenated samples; merging no result gives no samples. *)
Theorem add_concatenates (results : list BenchmarkResult.t) :
  let merged := BenchmarkResult.add results in
  let all := List.concat (map BenchmarkResult.samples results) in
  BenchmarkResult.samples merged = all /\
  BenchmarkResult.cycleDetails merged
  = List.concat (map BenchmarkResult.cycleDetails results) /\
  BenchmarkResult.meanTime merged = Timings.meanTime (getTimings all) /\
  BenchmarkResult.relativeMarginOfError merged
  = Timings.relativeMarginOfError (getTimings all) /\
  List.length (BenchmarkResult.samples merged)
  = list_sum (map (fun r => List.length (BenchmarkResult.samples r)) results).
Proof.
  cbv zeta. unfold BenchmarkResult.add. cbn. rewrite !concat_is_concat.
  repeat split.
  induction results as [|r rs IH]; simpl; [reflexivity|].
  now rewrite length_app, IH.
Qed.

(** X23: merging is insensitive to grouping as far as the samples go: merging
    two merged groups gives the same samples, cycle details, mean and relative
    margin of error as merging all the results at once. *)
Theorem add_of_merged_groups (group1 group2 : list BenchmarkResult.t) :
  let nested := BenchmarkResult.add [BenchmarkResult.add group1; BenchmarkResult.add group2] in
  let flat := BenchmarkResult.add (group1 ++ group2) in
  BenchmarkResult.samples nested = BenchmarkResult.samples flat /\
  BenchmarkResult.cycleDetails nested = BenchmarkResult.cycleDetails flat /\
  BenchmarkResult.meanTime nested = BenchmarkResult.meanTime flat /\
  BenchmarkResult.relativeMarginOfError nested = BenchmarkResult.relativeMarginOfError flat.
Proof.
  cbv zeta.
  assert (Hs : BenchmarkResult.samples
                 (BenchmarkResult.add [BenchmarkResult.add group1; BenchmarkResult.add group2])
               = BenchmarkResult.samples (BenchmarkResult.add (group1 ++ group2))).
  { rewrite !add_samples. cbn [map List.concat].
    now rewrite !add_samples, map_app, concat_app, app_nil_r. }
  assert (Hd : BenchmarkResult.cycleDetails
                 (BenchmarkResult.add [BenchmarkResult.add group1; BenchmarkResult.add group2])
               = BenchmarkResult.cycleDetails (BenchmarkResult.add (group1 ++ group2))).
  { rewrite !add_cycleDetails. cbn [map List.concat].
    now rewrite !add_cycleDetails, map_app, concat_app, app_nil_r. }
  split; [exact Hs|]. split; [exact Hd|].
  destruct (add_estimate [BenchmarkResult.add group1; BenchmarkResult.add group2])
    as [-> ->].
  destruct (add_estimate (group1 ++ group2)) as [-> ->].
  now rewrite Hs.
Qed.

(** X24: merging the single result of a run gives that result back: the same
    samples, cycle details, mean, relative margin of error and number of
    cycles, and the same iteration count, elapsed time and setup time up to
    the sign of a zero. *)
Theorem add_of_one_run (env : Env) (config : BenchmarkConfig) (fuel : nat)
        (w w' : World) (r : BenchmarkResult.t) :
  benchmark env config fuel w = Returned r w' ->
  let merged := BenchmarkResult.add [r] in
  BenchmarkResult.samples merged = BenchmarkResult.samples r /\
  BenchmarkResult.cycleDetails merged = BenchmarkResult.cycleDetails r /\
  BenchmarkResult.meanTime merged = BenchmarkResult.meanTime r /\
  BenchmarkResult.relativeMarginOfError merged = BenchmarkResult.relativeMarginOfError r /\
  BenchmarkResult.cycles merged = BenchmarkResult.cycles r /\
  same_number (BenchmarkResult.iterationCount merged) (BenchmarkResult.iterationCount r) /\
  same_number (BenchmarkResult.elapsedTime merged) (BenchmarkResult.elapsedTime r) /\
  same_number (BenchmarkResult.setUpTime merged) (BenchmarkResult.setUpTime r).
Proof.
  intros Hrun. cbv zeta.
  destruct (benchmark_timings env config fuel w w' r Hrun) as [Hm Hr].
  assert (Hs : BenchmarkResult.samples (BenchmarkResult.add [r]) = BenchmarkResult.samples r).
  { rewrite add_samples. cbn [map List.concat]. apply app_nil_r. }
  split; [exact Hs|].
  split; [rewrite add_cycleDetails; cbn [map List.concat]; apply app_nil_r|].
  destruct (add_estimate [r]) as [-> ->]. rewrite Hs, <- Hm, <- Hr.
  split; [reflexivity|]. split; [reflexivity|].
  split; [|repeat split; apply zero_plus].
  apply benchmark_run in Hrun as (p & w0 & _ & _ & _ & _ & ->).
  unfold BenchmarkResult.add, BenchmarkResult.total. cbn [BenchmarkResult.cycles fold_left].
  apply add_zero_l. pose proof (not_negative_length (cycleDetails p)) as Hn.
  unfold not_negative in Hn. unfold result_of. cbn [BenchmarkResult.cycles].
  intros E. rewrite E in Hn. discriminate Hn.
Qed.

Lemma add_of_one_run_witness :
  exists (r : BenchmarkResult.t) (w' : World),
    example_run = Returned r w' /\
    BenchmarkResult.samples (BenchmarkResult.add [r]) = BenchmarkResult.samples r /\
    BenchmarkResult.cycleDetails (BenchmarkResult.add [r]) = BenchmarkResult.cycleDetails r /\
    BenchmarkResult.meanTime (BenchmarkResult.add [r]) = BenchmarkResult.meanTime r /\
    BenchmarkResult.relativeMarginOfError (BenchmarkResult.add [r])
    = BenchmarkResult.relativeMarginOfError r /\
    BenchmarkResult.cycles (BenchmarkResult.add [r]) = BenchmarkResult.cycles r /\
    same_number (BenchmarkResult.iterationCount (BenchmarkResult.add [r]))
                (BenchmarkResult.iterationCount r) /\
    same_number (BenchmarkResult.elapsedTime (BenchmarkResult.add [r]))
                (BenchmarkResult.elapsedTime r) /\
    same_number (BenchmarkResult.setUpTime (BenchmarkResult.add [r]))
                (BenchmarkResult.setUpTime r).
Proof.
  do 2 eexists. split; [vm_compute; reflexivity|].
  eapply (add_of_one_run slow_setup_env example_config 5 initial_world).
  vm_compute. reflexivity.
Defined.

(** ** The suite runner *)

Section Suite.
Variable fuel : nat.

Lemma erroredCount_incremented (erroredCount : float) :
  erroredCount = 0%float \/ PrimFloat.ltb 0%float erroredCount = true ->
  PrimFloat.ltb 0%float (PrimFloat.add erroredCount 1%float) = true.
Proof.
  intros [-> | H]; [reflexivity|].
  apply above_zero_positive in H as [Hs Hn].
  now apply positive_above_zero, add_positive.
Qed.

Lemma run_factories_spec (factories : list (Env * BenchmarkConfig)) :
  forall erroredCount : float,
    erroredCount = 0%float \/ PrimFloat.ltb 0%float erroredCount = true ->
    Forall (ends fuel) factories ->
    exists n : float,
      run_factories fuel factories erroredCount = SuiteReturned n /\
      (PrimFloat.ltb 0%float n = true <->
       PrimFloat.ltb 0%float erroredCount = true \/ Exists (throws fuel) factories).
Proof.
  induction factories as [|f rest IH]; intros acc Hacc Hall; simpl.
  - exists acc. split; [reflexivity|]. split; [now left|].
    intros [H|H]; [exact H | inversion H].
  - inversion Hall as [|? ? Hf Hrest]; subst. unfold ends in Hf.
    destruct (benchmark_of fuel f) as [r w|e| |] eqn:Hb; try contradiction.
    + destruct (IH acc Hacc Hrest) as (n & -> & Hn). exists n.
      split; [reflexivity|]. rewrite Hn. split.
      * intros [H|H]; [now left | right; now apply Exists_cons_tl].
      * intros [H|H]; [now left|]. inversion H as [? ? Hx|? ? Hx]; subst; [|now right].
        unfold throws in Hx. now rewrite Hb in Hx.
    + pose proof (erroredCount_incremented acc Hacc) as Hinc.
      destruct (IH (PrimFloat.add acc 1%float) (or_intror Hinc) Hrest) as (n & -> & Hn).
      exists n. split; [reflexivity|]. rewrite Hn. split.
      * intros _. right. apply Exists_cons_hd. unfold throws. now rewrite Hb.
      * intros _. now left.
Qed.
End Suite.


